(** * SceneManager: texture and material registries, shader state setters
      and the frame renderer of [Source/SceneManager.cpp].

    The methods of the C++ class are embedded as state-passing functions
    over a record holding the members of the object together with the two
    pieces of the outside world they act on (the OpenGL context and the
    console).  Undefined behaviour of the C++ program (a store outside the
    texture array, a call through a null shader-manager pointer) is an
    explicit outcome.

    Single-precision arithmetic, GLM, the image decoder and the OpenGL
    driver are external to the file: they are interfaces (type classes), and
    no law is assumed about them.  Where a property is about the numbers
    themselves (the range of the spotlight flicker), the arithmetic is IEEE
    754 binary32 as the Standard Library specifies it. *)

From Stdlib Require Import QArith SpecFloat.
From stdpp Require Import base list strings gmap.

Local Open Scope string_scope.
Local Open Scope list_scope.
Local Open Scope Z_scope.

(** ** External interfaces *)

(** C++ [float]: literals and the three operations the file uses. *)
Class FloatOps := {
  float : Type;
  lit : Q -> float;                    (* a decimal literal such as [0.9f] *)
  fadd : float -> float -> float;
  fmul : float -> float -> float;
  fsin : float -> float;
}.

Section Vectors.
Context `{FloatOps}.

Record vec2 := mk_vec2 { v2_x : float; v2_y : float }.
Record vec3 := mk_vec3 { v3_x : float; v3_y : float; v3_z : float }.
Record vec4 := mk_vec4 { v4_r : float; v4_g : float; v4_b : float; v4_a : float }.

(** [glm::vec3 * float] multiplies every component by the scalar. *)
Definition vec3_mul_scalar (v : vec3) (s : float) : vec3 :=
  mk_vec3 (fmul (v3_x v) s) (fmul (v3_y v) s) (fmul (v3_z v) s).
End Vectors.

(** The part of GLM the file calls. *)
Class Glm `{FloatOps} := {
  mat4 : Type;
  mat4_mul : mat4 -> mat4 -> mat4;              (* operator* on glm::mat4 *)
  glm_scale : vec3 -> mat4;
  glm_rotate : float -> vec3 -> mat4;           (* angle in radians, axis *)
  glm_translate : vec3 -> mat4;
  glm_radians : float -> float;
}.

(** OpenGL enumerants that occur in the file. *)
Inductive GLenum :=
  | GL_TEXTURE_2D | GL_TEXTURE_WRAP_S | GL_TEXTURE_WRAP_T | GL_REPEAT
  | GL_TEXTURE_MIN_FILTER | GL_TEXTURE_MAG_FILTER | GL_LINEAR
  | GL_RGB8 | GL_RGB | GL_RGBA8 | GL_RGBA | GL_UNSIGNED_BYTE.

Definition GL_TEXTURE0 : Z := 0x84C0.

(** What [stbi_load] hands back for a file it could decode. *)
Record Image := {
  img_width : Z;
  img_height : Z;
  img_colorChannels : Z;
  img_data : list Z;
}.

(** Calls into the OpenGL context.  [glGenTextures] is always called for one
    name; the name the driver stored through the pointer is recorded with
    the call.  [glDeleteTextures] is never issued by this file: it is here so
    that releasing a texture can be told apart from what the file does. *)
Inductive GLcall :=
  | glGenTextures (name : Z)
  | glDeleteTextures (name : Z)
  | glBindTexture (target : GLenum) (texture : Z)
  | glTexParameteri (target pname param : GLenum)
  | glTexImage2D (target : GLenum) (level : Z) (internalformat : GLenum)
                 (width height border : Z) (format type : GLenum) (pixels : list Z)
  | glGenerateMipmap (target : GLenum)
  | glActiveTexture (texture : Z).

(** The image decoder and the texture-name allocator of the driver; the
    latter answers from the history of the context. *)
Class Driver := {
  stbi_load : string -> option Image;
  gen_name : list GLcall -> Z;
}.

(** ** Machine integers *)

(** [TEXTURE_INFO::ID] is passed to [glGenTextures] by address, so it is a
    [GLuint]: a 32-bit unsigned integer.  Storing [-1] wraps, and returning
    it as [int] (FindTextureID) reinterprets the top bit. *)
Definition to_GLuint (z : Z) : Z := z mod 2 ^ 32.
Definition to_int (z : Z) : Z := (z + 2 ^ 31) mod 2 ^ 32 - 2 ^ 31.

(** ** Data model *)

Record TEXTURE_INFO := mk_texture { tex_tag : string; tex_ID : Z }.

(** Number of elements of the member array [m_textureIDs]. *)
Definition TEXTURE_SLOTS : Z := 16.

Section Model.
Context `{G : Glm} `{D : Driver}.

Record OBJECT_MATERIAL := mk_material {
  diffuseColor : vec3;
  specularColor : vec3;
  shininess : float;
  mat_tag : string;
}.

(** Uniform pushes received by the shader manager. *)
Inductive uniform :=
  | setMat4Value (name : string) (v : mat4)
  | setIntValue (name : string) (v : Z)
  | setBoolValue (name : string) (v : bool)
  | setFloatValue (name : string) (v : float)
  | setVec2Value (name : string) (v : vec2)
  | setVec3Value (name : string) (v : vec3)
  | setVec4Value (name : string) (v : vec4)
  | setSampler2DValue (name : string) (v : Z).

(** Lines written to [std::cout]. *)
Inductive message :=
  | msg_loaded (filename : string) (width height channels : Z)
  | msg_not_implemented (channels : Z)
  | msg_could_not_load (filename : string).

(** The object and its surroundings.  [m_pShaderManager] is [None] for a
    null pointer and otherwise holds the pushes the pointed-to shader
    manager has received, oldest first. *)
Record SceneManager := mk_scene {
  m_pShaderManager : option (list uniform);
  m_loadedTextures : Z;
  m_textureIDs : list TEXTURE_INFO;
  m_objectMaterials : list OBJECT_MATERIAL;
  gl_context : list GLcall;
  console : list message;
}.

Definition set_shader (f : option (list uniform)) (s : SceneManager) :=
  mk_scene f (m_loadedTextures s) (m_textureIDs s) (m_objectMaterials s)
           (gl_context s) (console s).
Definition set_loaded (n : Z) (s : SceneManager) :=
  mk_scene (m_pShaderManager s) n (m_textureIDs s) (m_objectMaterials s)
           (gl_context s) (console s).
Definition set_textures (t : list TEXTURE_INFO) (s : SceneManager) :=
  mk_scene (m_pShaderManager s) (m_loadedTextures s) t (m_objectMaterials s)
           (gl_context s) (console s).
Definition set_materials (m : list OBJECT_MATERIAL) (s : SceneManager) :=
  mk_scene (m_pShaderManager s) (m_loadedTextures s) (m_textureIDs s) m
           (gl_context s) (console s).
Definition set_gl (g : list GLcall) (s : SceneManager) :=
  mk_scene (m_pShaderManager s) (m_loadedTextures s) (m_textureIDs s)
           (m_objectMaterials s) g (console s).
Definition set_console (c : list message) (s : SceneManager) :=
  mk_scene (m_pShaderManager s) (m_loadedTextures s) (m_textureIDs s)
           (m_objectMaterials s) (gl_context s) c.

(** ** Outcomes and the method monad *)

Inductive fault :=
  | OutOfBounds         (* access outside [m_textureIDs] *)
  | NullDereference     (* call through a null [m_pShaderManager] *)
  | OutOfFuel.          (* a loop model ran out of steps; never reached *)

Inductive outcome (A : Type) :=
  | Returns (a : A) (s : SceneManager)
  | Undefined (f : fault).
Arguments Returns {A} a s.
Arguments Undefined {A} f.

Definition M (A : Type) := SceneManager -> outcome A.

Definition ret {A} (a : A) : M A := fun s => Returns a s.
Definition bind {A B} (m : M A) (k : A -> M B) : M B :=
  fun s => match m s with
           | Returns a s' => k a s'
           | Undefined f => Undefined f
           end.
Definition get : M SceneManager := fun s => Returns s s.
Definition modify (f : SceneManager -> SceneManager) : M unit :=
  fun s => Returns tt (f s).
Definition undefined {A} (f : fault) : M A := fun _ => Undefined f.

Notation "x <- m ;; k" := (bind m (fun x => k))
  (at level 100, m at next level, right associativity).
Notation "m ;; k" := (bind m (fun _ => k))
  (at level 100, right associativity).

(** A call into the OpenGL context. *)
Definition gl (c : GLcall) : M unit :=
  modify (fun s => set_gl (gl_context s ++ [c]) s).

(** [glGenTextures(1, &name)]: the driver picks the name. *)
Definition gl_gen : M Z :=
  s <- get ;;
  let name := gen_name (gl_context s) in
  gl (glGenTextures name) ;; ret name.

Definition print (m : message) : M unit :=
  modify (fun s => set_console (console s ++ [m]) s).

(** [m_pShaderManager->...]: undefined through a null pointer. *)
Definition shader_call (u : uniform) : M unit :=
  fun s => match m_pShaderManager s with
           | Some log => Returns tt (set_shader (Some (log ++ [u])) s)
           | None => Undefined NullDereference
           end.

(** [NULL != m_pShaderManager] *)
Definition shader_not_null : M bool :=
  s <- get ;; ret (bool_decide (is_Some (m_pShaderManager s))).

(** [m_textureIDs[i]] as an rvalue and as the target of a store. *)
Definition texture_at (i : Z) : M TEXTURE_INFO :=
  fun s => if bool_decide (0 <= i < TEXTURE_SLOTS)
           then match m_textureIDs s !! Z.to_nat i with
                | Some e => Returns e s
                | None => Undefined OutOfBounds
                end
           else Undefined OutOfBounds.

Definition store_texture (i : Z) (f : TEXTURE_INFO -> TEXTURE_INFO) : M unit :=
  e <- texture_at i ;;
  modify (fun s => set_textures (<[Z.to_nat i := f e]> (m_textureIDs s)) s).

(** [for (int i = from; i < from + n; i++) body(i)] with [n] iterations
    left. *)
Fixpoint for_loop (n : nat) (i : Z) (body : Z -> M unit) : M unit :=
  match n with
  | O => ret tt
  | S n' => body i ;; for_loop n' (i + 1) body
  end.

(** ** The constructor *)

Definition SceneManager_new (pShaderManager : option (list uniform))
    (world_gl : list GLcall) (world_console : list message) : SceneManager :=
  mk_scene pShaderManager 0
           (replicate (Z.to_nat TEXTURE_SLOTS) (mk_texture "/0" (to_GLuint (-1))))
           [] world_gl world_console.

(** ** Texture registry *)

Definition CreateGLTexture (filename : string) (tag : string) : M bool :=
  match stbi_load filename with
  | Some image =>
      let width := img_width image in
      let height := img_height image in
      let colorChannels := img_colorChannels image in
      print (msg_loaded filename width height colorChannels) ;;
      textureID <- gl_gen ;;
      gl (glBindTexture GL_TEXTURE_2D textureID) ;;
      gl (glTexParameteri GL_TEXTURE_2D GL_TEXTURE_WRAP_S GL_REPEAT) ;;
      gl (glTexParameteri GL_TEXTURE_2D GL_TEXTURE_WRAP_T GL_REPEAT) ;;
      gl (glTexParameteri GL_TEXTURE_2D GL_TEXTURE_MIN_FILTER GL_LINEAR) ;;
      gl (glTexParameteri GL_TEXTURE_2D GL_TEXTURE_MAG_FILTER GL_LINEAR) ;;
      (* the if / else if / else on the channel count; [false] is the
         early [return false] of the last branch *)
      uploaded <-
        (if colorChannels =? 3 then
           gl (glTexImage2D GL_TEXTURE_2D 0 GL_RGB8 width height 0 GL_RGB
                            GL_UNSIGNED_BYTE (img_data image)) ;;
           ret true
         else if colorChannels =? 4 then
           gl (glTexImage2D GL_TEXTURE_2D 0 GL_RGBA8 width height 0 GL_RGBA
                            GL_UNSIGNED_BYTE (img_data image)) ;;
           ret true
         else
           print (msg_not_implemented colorChannels) ;;
           ret false) ;;
      if uploaded : bool then
        gl (glGenerateMipmap GL_TEXTURE_2D) ;;
        gl (glBindTexture GL_TEXTURE_2D 0) ;;
        s <- get ;;
        store_texture (m_loadedTextures s)
                      (fun e => mk_texture (tex_tag e) textureID) ;;
        store_texture (m_loadedTextures s)
                      (fun e => mk_texture tag (tex_ID e)) ;;
        modify (set_loaded (m_loadedTextures s + 1)) ;;
        ret true
      else ret false
  | None =>
      print (msg_could_not_load filename) ;;
      ret false
  end.

Definition BindGLTextures : M unit :=
  s <- get ;;
  for_loop (Z.to_nat (m_loadedTextures s)) 0 (fun i =>
    gl (glActiveTexture (GL_TEXTURE0 + i)) ;;
    e <- texture_at i ;;
    gl (glBindTexture GL_TEXTURE_2D (tex_ID e))).

Definition DestroyGLTextures : M unit :=
  s <- get ;;
  for_loop (Z.to_nat (m_loadedTextures s)) 0 (fun i =>
    name <- gl_gen ;;
    store_texture i (fun e => mk_texture (tex_tag e) name)).

(** [while (cond) body] over the local variables [L] of a method, with
    an upper bound on the number of times the condition is evaluated. *)
Fixpoint while {L : Type} (fuel : nat) (cond : L -> M bool)
    (body : L -> M L) (l : L) : M L :=
  match fuel with
  | O => undefined OutOfFuel
  | S fuel' =>
      c <- cond l ;;
      if c : bool then l' <- body l ;; while fuel' cond body l' else ret l
  end.

(** The two texture lookups share their loop; they differ in what they
    keep of the entry found ([pick index entry]).  The locals are
    (result, index, bFound). *)
Definition find_texture_cond (l : Z * Z * bool) : M bool :=
  let '(result, index, bFound) := l in
  s <- get ;;
  ret ((index <? m_loadedTextures s) && negb bFound).

Definition find_texture_body (pick : Z -> TEXTURE_INFO -> Z) (tag : string)
    (l : Z * Z * bool) : M (Z * Z * bool) :=
  let '(result, index, bFound) := l in
  e <- texture_at index ;;
  if String.eqb (tex_tag e) tag                    (* compare(tag) == 0 *)
  then ret (pick index e, index, true)
  else ret (result, index + 1, bFound).

Definition find_texture (pick : Z -> TEXTURE_INFO -> Z) (tag : string) : M Z :=
  s <- get ;;
  r <- while (S (S (Z.to_nat (m_loadedTextures s))))
             find_texture_cond (find_texture_body pick tag) (-1, 0, false) ;;
  ret (r.1.1).

Definition FindTextureID (tag : string) : M Z :=
  find_texture (fun index e => to_int (tex_ID e)) tag.

Definition FindTextureSlot (tag : string) : M Z :=
  find_texture (fun index e => index) tag.

(** ** Material registry *)

(** [material] is the reference parameter: its value on entry is an
    argument and its value on exit is returned next to the result.
    The locals of the loop are (material, index, bFound). *)
Definition copy_material (m material : OBJECT_MATERIAL) : OBJECT_MATERIAL :=
  mk_material (diffuseColor m) (specularColor m) (shininess m) (mat_tag material).

Definition FindMaterial_cond (l : OBJECT_MATERIAL * Z * bool) : M bool :=
  let '(material, index, bFound) := l in
  s <- get ;;
  ret ((index <? Z.of_nat (length (m_objectMaterials s))) && negb bFound).

Definition FindMaterial_body (tag : string) (l : OBJECT_MATERIAL * Z * bool)
    : M (OBJECT_MATERIAL * Z * bool) :=
  let '(material, index, bFound) := l in
  s <- get ;;
  match m_objectMaterials s !! Z.to_nat index with
  | Some m =>
      if String.eqb (mat_tag m) tag
      then ret (copy_material m material, index, true)
      else ret (material, index + 1, bFound)
  | None => undefined OutOfBounds
  end.

Definition FindMaterial (tag : string) (material : OBJECT_MATERIAL)
    : M (bool * OBJECT_MATERIAL) :=
  s <- get ;;
  if Z.of_nat (length (m_objectMaterials s)) =? 0 then ret (false, material)
  else
    r <- while (S (S (length (m_objectMaterials s))))
               FindMaterial_cond (FindMaterial_body tag) (material, 0, false) ;;
    ret (true, r.1.1).

(** ** Shader state setters *)

Definition g_ModelName := "model".
Definition g_ColorValueName := "objectColor".
Definition g_TextureValueName := "objectTexture".
Definition g_UseTextureName := "bUseTexture".
Definition g_UseLightingName := "bUseLighting".

Infix "*m" := mat4_mul (at level 40, left associativity).

Definition SetTransformations (scaleXYZ : vec3)
    (XrotationDegrees YrotationDegrees ZrotationDegrees : float)
    (positionXYZ : vec3) : M unit :=
  let scale := glm_scale scaleXYZ in
  let rotationX := glm_rotate (glm_radians XrotationDegrees)
                              (mk_vec3 (lit 1.0) (lit 0.0) (lit 0.0)) in
  let rotationY := glm_rotate (glm_radians YrotationDegrees)
                              (mk_vec3 (lit 0.0) (lit 1.0) (lit 0.0)) in
  let rotationZ := glm_rotate (glm_radians ZrotationDegrees)
                              (mk_vec3 (lit 0.0) (lit 0.0) (lit 1.0)) in
  let translation := glm_translate positionXYZ in
  let modelView := translation *m rotationZ *m rotationY *m rotationX *m scale in
  ok <- shader_not_null ;;
  if ok : bool then shader_call (setMat4Value g_ModelName modelView)
  else ret tt.

Definition SetShaderColor
    (redColorValue greenColorValue blueColorValue alphaValue : float) : M unit :=
  let currentColor :=
    mk_vec4 redColorValue greenColorValue blueColorValue alphaValue in
  ok <- shader_not_null ;;
  if ok : bool then
    shader_call (setIntValue g_UseTextureName 0) ;;
    shader_call (setVec4Value g_ColorValueName currentColor)
  else ret tt.

Definition SetShaderTexture (textureTag : string) : M unit :=
  ok <- shader_not_null ;;
  if ok : bool then
    shader_call (setIntValue g_UseTextureName 1) ;;
    textureID <- FindTextureSlot textureTag ;;
    shader_call (setSampler2DValue g_TextureValueName textureID)
  else ret tt.

Definition SetTextureUVScale (u v : float) : M unit :=
  ok <- shader_not_null ;;
  if ok : bool then shader_call (setVec2Value "UVscale" (mk_vec2 u v))
  else ret tt.

(** The local [OBJECT_MATERIAL material] is declared without an
    initialiser; [indeterminate] stands for whatever it holds. *)
Definition SetShaderMaterial (indeterminate : OBJECT_MATERIAL)
    (materialTag : string) : M unit :=
  s <- get ;;
  if 0 <? Z.of_nat (length (m_objectMaterials s)) then
    r <- FindMaterial materialTag indeterminate ;;
    let '(bReturn, material) := r in
    if bReturn : bool then
      shader_call (setVec3Value "material.diffuseColor" (diffuseColor material)) ;;
      shader_call (setVec3Value "material.specularColor" (specularColor material)) ;;
      shader_call (setFloatValue "material.shininess" (shininess material))
    else ret tt
  else ret tt.

(** ** Scene preparation *)

Definition LoadSceneTextures : M unit :=
  CreateGLTexture "textures/tile.jpg" "floor_tile" ;;
  CreateGLTexture "textures/clock.jpg" "clock_face" ;;
  CreateGLTexture "textures/wood_clock.jpg" "clock_side" ;;
  CreateGLTexture "textures/candle_color.jpg" "candle_side" ;;
  CreateGLTexture "textures/candle_top.jpg" "candle_top" ;;
  CreateGLTexture "textures/baseboard.png" "baseboard" ;;
  CreateGLTexture "textures/stella.png" "wine_lable" ;;
  CreateGLTexture "textures/cap.png" "wine_cap" ;;
  CreateGLTexture "textures/stripe.png" "chair_cushion" ;;
  CreateGLTexture "textures/pasta.jpg" "pasta" ;;
  CreateGLTexture "textures/meatball.png" "meatball" ;;
  CreateGLTexture "textures/stainless.png" "metal_fork" ;;
  BindGLTextures.

(** [m_objectMaterials.push_back(m)] *)
Definition push_back (m : OBJECT_MATERIAL) : M unit :=
  modify (fun s => set_materials (m_objectMaterials s ++ [m]) s).

Definition material (d1 d2 d3 s1 s2 s3 sh : Q) (tag : string) : OBJECT_MATERIAL :=
  mk_material (mk_vec3 (lit d1) (lit d2) (lit d3))
              (mk_vec3 (lit s1) (lit s2) (lit s3)) (lit sh) tag.

Definition DefineObjectMaterials : M unit :=
  push_back (material 0.7 0.7 0.7  0.4 0.4 0.4  20.0 "tile") ;;
  push_back (material 0.7 0.7 0.7  0.8 0.8 0.8  60.0 "wood") ;;
  push_back (material 0.7 0.7 0.7  1.0 1.0 1.0  95.0 "glass") ;;
  push_back (material 0.5 0.5 0.5  0.05 0.05 0.05  20.0 "wall") ;;
  push_back (material 1.0 0.95 0.85  0.3 0.3 0.3  4.0 "candle") ;;
  push_back (material 1.0 0.6 0.1  1.0 0.8 0.4  80.0 "flame") ;;
  push_back (material 0.85 0.85 0.85  0.15 0.15 0.15  40.0 "baseboard") ;;
  push_back (material 0.9 0.9 0.9  0.1 0.1 0.1  5.0 "cushion") ;;
  push_back (material 0.4 0.2 0.1  0.1 0.05 0.03  8.0 "meatball") ;;
  push_back (material 0.9 0.9 0.88  0.2 0.2 0.2  12.0 "plate") ;;
  push_back (material 0.6 0.6 0.6  0.9 0.9 0.9  64.0 "fork").

(** ** The frame renderer *)

(** The per-object routines [RenderScene] calls.  Their bodies are flat
    lists of setter and draw calls with literal arguments; here they are
    a parameter, [render r] being the effect of calling routine [r]. *)
Inductive routine :=
  | RenderFloor | RenderBackWall | RenderRightWall | RenderTable
  | RenderClock | RenderWineBottle | RenderCandle
  | RenderLeftChair | RenderRightChair
  | RenderLeftWineGlass | RenderRightWineGlass
  | RenderLeftPlate | RenderRightPlate
  | RenderLeftFork | RenderRightFork.

(** The local [flicker] of RenderScene: [0.9f + 0.1f * sin(time * 15.0f)]. *)
Definition flicker (time : float) : float :=
  fadd (lit 0.9) (fmul (lit 0.1) (fsin (fmul time (lit 15.0)))).

Section Renderer.
Variable render : routine -> M unit.

(** [time] is what [glfwGetTime()] returned, converted to [float]. *)
Definition RenderScene (time : float) : M unit :=
  let flickerDiffuse :=
    vec3_mul_scalar (mk_vec3 (lit 0.9) (lit 0.55) (lit 0.2)) (flicker time) in
  let flickerAmbient :=
    vec3_mul_scalar (mk_vec3 (lit 0.08) (lit 0.05) (lit 0.02)) (flicker time) in
  shader_call (setVec3Value "spotLight.diffuse" flickerDiffuse) ;;
  shader_call (setVec3Value "spotLight.ambient" flickerAmbient) ;;
  render RenderFloor ;;
  render RenderBackWall ;;
  render RenderRightWall ;;
  render RenderTable ;;
  render RenderClock ;;
  render RenderWineBottle ;;
  render RenderCandle ;;
  render RenderLeftChair ;;
  render RenderRightChair ;;
  render RenderLeftWineGlass ;;
  render RenderRightWineGlass ;;
  render RenderLeftPlate ;;
  render RenderRightPlate ;;
  render RenderLeftFork ;;
  render RenderRightFork.
End Renderer.

(** ** Notions used to state properties *)

(** The invariant of the texture registry: the array has its sixteen
    elements and the count stays within them. *)
Definition wf (s : SceneManager) : Prop :=
  0 <= m_loadedTextures s <= TEXTURE_SLOTS /\
  length (m_textureIDs s) = Z.to_nat TEXTURE_SLOTS.

(** The registered entries, in registration order. *)
Definition registered (s : SceneManager) : list TEXTURE_INFO :=
  take (Z.to_nat (m_loadedTextures s)) (m_textureIDs s).

(** What the texture scan computes over the registered entries: the
    pick of the first entry carrying the tag, or the initial result. *)
Fixpoint scan (pick : Z -> TEXTURE_INFO -> Z) (tag : string) (index : Z)
    (l : list TEXTURE_INFO) (result : Z) : Z :=
  match l with
  | [] => result
  | e :: l' =>
      if String.eqb (tex_tag e) tag then pick index e
      else scan pick tag (index + 1) l' result
  end.

(** What FindMaterial's scan leaves in the reference parameter. *)
Definition has_tag (tag : string) (m : OBJECT_MATERIAL) : bool :=
  String.eqb (mat_tag m) tag.

Definition found_material (tag : string) (l : list OBJECT_MATERIAL)
    (material : OBJECT_MATERIAL) : OBJECT_MATERIAL :=
  match List.find (has_tag tag) l with
  | Some m => copy_material m material
  | None => material
  end.

(** A run of successful registrations; each comes with the handle the
    driver generated for it. *)
Inductive Registered : SceneManager -> list (string * string * Z) -> SceneManager -> Prop :=
  | Registered_nil s : Registered s [] s
  | Registered_cons s s1 s2 filename tag rest :
      CreateGLTexture filename tag s = Returns true s1 ->
      Registered s1 rest s2 ->
      Registered s ((filename, tag, gen_name (gl_context s)) :: rest) s2.

(** The registry entry a registration leaves behind. *)
Definition entry_of (r : string * string * Z) : TEXTURE_INFO :=
  mk_texture r.1.2 r.2.

(** The calls BindGLTextures issues for a run of entries starting at
    slot [i]. *)
Fixpoint bind_calls (i : Z) (l : list TEXTURE_INFO) : list GLcall :=
  match l with
  | [] => []
  | e :: l' =>
      glActiveTexture (GL_TEXTURE0 + i)
        :: glBindTexture GL_TEXTURE_2D (tex_ID e) :: bind_calls (i + 1) l'
  end.

(** The names the driver hands out for [n] successive calls of
    [glGenTextures(1, ...)] made after the history [h]. *)
Fixpoint gen_names (n : nat) (h : list GLcall) : list Z :=
  match n with
  | O => []
  | S n' =>
      let name := gen_name h in
      name :: gen_names n' (h ++ [glGenTextures name])
  end.

(** An entry whose handle has been overwritten. *)
Definition rehandle (e : TEXTURE_INFO) (name : Z) : TEXTURE_INFO :=
  mk_texture (tex_tag e) name.

(** The two pushes that open every frame. *)
Definition flicker_uniforms (time : float) : list uniform :=
  [setVec3Value "spotLight.diffuse"
     (vec3_mul_scalar (mk_vec3 (lit 0.9) (lit 0.55) (lit 0.2)) (flicker time));
   setVec3Value "spotLight.ambient"
     (vec3_mul_scalar (mk_vec3 (lit 0.08) (lit 0.05) (lit 0.02)) (flicker time))].

(** Running a list of routines one after the other. *)
Fixpoint in_order (render : routine -> M unit) (l : list routine) : M unit :=
  match l with
  | [] => ret tt
  | r :: l' => render r ;; in_order render l'
  end.

End Model.

(** The texture bound to [GL_TEXTURE_2D] on each texture unit after a
    history of calls: [glActiveTexture] selects the unit that
    [glBindTexture] then changes; deleting a texture unbinds it. *)
Definition gl_step (st : Z * gmap Z Z) (c : GLcall) : Z * gmap Z Z :=
  match c with
  | glActiveTexture u => (u, st.2)
  | glBindTexture GL_TEXTURE_2D t => (st.1, <[st.1 := t]> st.2)
  | glDeleteTextures n => (st.1, (fun t => if t =? n then 0 else t) <$> st.2)
  | _ => st
  end.

(** The texture names a history of calls has generated. *)
Definition generated (h : list GLcall) : list Z :=
  omap (fun c => match c with glGenTextures n => Some n | _ => None end) h.

Definition texture_units (h : list GLcall) : gmap Z Z :=
  (fold_left gl_step h (GL_TEXTURE0, ∅)).2.

Definition render_order : list routine :=
  [RenderFloor; RenderBackWall; RenderRightWall; RenderTable; RenderClock;
   RenderWineBottle; RenderCandle; RenderLeftChair; RenderRightChair;
   RenderLeftWineGlass; RenderRightWineGlass; RenderLeftPlate;
   RenderRightPlate; RenderLeftFork; RenderRightFork].

Arguments Returns {H G A} a s.
Arguments Undefined {H G A} f.

(** Routines that do nothing, to run RenderScene by itself. *)
Definition idle `{G : Glm} `{D : Driver} (r : routine) : M unit := ret tt.

(** ** A platform to run the model on

    Arithmetic and GLM build terms instead of numbers, so that what a method
    pushes can be read off; the file system holds the scene's textures and
    one greyscale image; the driver numbers textures 1, 2, 3, ... *)
Module Symbolic.

Inductive sfloat :=
  | SLit (q : Q)
  | SAdd (a b : sfloat)
  | SMul (a b : sfloat)
  | SSin (a : sfloat)
  | SRadians (a : sfloat).

#[export] Instance symbolic_float : FloatOps :=
  {| float := sfloat; lit := SLit; fadd := SAdd; fmul := SMul; fsin := SSin |}.

Inductive smat4 :=
  | SScale (v : vec3)
  | SRotate (angle : sfloat) (axis : vec3)
  | STranslate (v : vec3)
  | SProduct (a b : smat4).

#[export] Instance symbolic_glm : Glm :=
  {| mat4 := smat4; mat4_mul := SProduct; glm_scale := SScale;
     glm_rotate := SRotate; glm_translate := STranslate;
     glm_radians := SRadians |}.

Definition rgb_files : list string :=
  ["textures/tile.jpg"; "textures/clock.jpg"; "textures/wood_clock.jpg";
   "textures/candle_color.jpg"; "textures/candle_top.jpg"; "textures/pasta.jpg"].
Definition rgba_files : list string :=
  ["textures/baseboard.png"; "textures/stella.png"; "textures/cap.png";
   "textures/stripe.png"; "textures/meatball.png"; "textures/stainless.png"].

Definition decode (filename : string) : option Image :=
  if existsb (String.eqb filename) rgb_files
  then Some {| img_width := 2; img_height := 1; img_colorChannels := 3;
               img_data := [10; 20; 30; 40; 50; 60] |}
  else if existsb (String.eqb filename) rgba_files
  then Some {| img_width := 1; img_height := 1; img_colorChannels := 4;
               img_data := [10; 20; 30; 255] |}
  else if String.eqb filename "textures/gray.png"
  then Some {| img_width := 2; img_height := 2; img_colorChannels := 1;
               img_data := [0; 85; 170; 255] |}
  else None.

Definition is_gen (c : GLcall) : bool :=
  match c with glGenTextures _ => true | _ => false end.

#[export] Instance counting_driver : Driver :=
  {| stbi_load := decode;
     gen_name := fun h => Z.of_nat (length (filter is_gen h)) + 1 |}.

(** New managers, with a live shader manager and with a null one. *)
Definition fresh : SceneManager := SceneManager_new (Some []) [] [].
Definition no_shader : SceneManager := SceneManager_new None [] [].

Definition after {A} (m : M A) (s : SceneManager) : SceneManager :=
  match m s with Returns _ s' => s' | Undefined _ => s end.

Notation "m ;; k" := (bind m (fun _ => k))
  (at level 100, right associativity).

(** The state after the two registry steps of [PrepareScene]. *)
Definition prepared : SceneManager :=
  Eval vm_compute in after DefineObjectMaterials (after LoadSceneTextures fresh).

(** Materials defined, but no shader manager. *)
Definition materials_no_shader : SceneManager :=
  Eval vm_compute in after DefineObjectMaterials no_shader.

(** Three registrations, one by one. *)
Definition loaded1 : SceneManager :=
  Eval vm_compute in after (CreateGLTexture "textures/tile.jpg" "floor_tile") fresh.
Definition loaded2 : SceneManager :=
  Eval vm_compute in after (CreateGLTexture "textures/baseboard.png" "baseboard") loaded1.
Definition loaded3 : SceneManager :=
  Eval vm_compute in after (CreateGLTexture "textures/pasta.jpg" "pasta") loaded2.

(** All sixteen slots taken: the scene's twelve textures and four more. *)
Definition full : SceneManager :=
  Eval vm_compute in
  after (CreateGLTexture "textures/tile.jpg" "extra1" ;;
         CreateGLTexture "textures/tile.jpg" "extra2" ;;
         CreateGLTexture "textures/cap.png" "extra3" ;;
         CreateGLTexture "textures/cap.png" "extra4")
        prepared.

(** The same with a null shader-manager pointer. *)
Definition full_no_shader : SceneManager :=
  Eval vm_compute in set_shader None full.

(** A stand-in for the per-object routines that only leaves its name in
    the shader's log. *)
Definition routine_name (r : routine) : string :=
  match r with
  | RenderFloor => "RenderFloor" | RenderBackWall => "RenderBackWall"
  | RenderRightWall => "RenderRightWall" | RenderTable => "RenderTable"
  | RenderClock => "RenderClock" | RenderWineBottle => "RenderWineBottle"
  | RenderCandle => "RenderCandle" | RenderLeftChair => "RenderLeftChair"
  | RenderRightChair => "RenderRightChair"
  | RenderLeftWineGlass => "RenderLeftWineGlass"
  | RenderRightWineGlass => "RenderRightWineGlass"
  | RenderLeftPlate => "RenderLeftPlate" | RenderRightPlate => "RenderRightPlate"
  | RenderLeftFork => "RenderLeftFork" | RenderRightFork => "RenderRightFork"
  end.

Definition announce (r : routine) : M unit :=
  shader_call (setBoolValue (routine_name r) true).

Definition grey : OBJECT_MATERIAL := material 0.5 0.5 0.5 0.5 0.5 0.5 1.0 "grey".

End Symbolic.

(** ** IEEE 754 single precision

    C++ [float] as the program's platforms have it: binary32, every
    literal and every operation rounded to nearest, ties to even.  The
    sine of the C library is not defined here: it is an interface. *)
Module Binary32.

Definition prec : Z := 24.
Definition emax : Z := 128.

(** A decimal literal such as [0.9f], written [n / d]: the correctly
    rounded quotient. *)
Definition b32_lit (q : Q) : spec_float :=
  match Qnum q with
  | Z0 => S754_zero false
  | Zpos n => SFdiv prec emax (S754_finite false n 0) (S754_finite false (Qden q) 0)
  | Zneg n => SFdiv prec emax (S754_finite true n 0) (S754_finite false (Qden q) 0)
  end.

(** [sin] on a [float] argument. *)
Class Libm := { sinf : spec_float -> spec_float }.

#[export] Instance binary32 `{Libm} : FloatOps :=
  {| float := spec_float; lit := b32_lit;
     fadd := SFadd prec emax; fmul := SFmul prec emax; fsin := sinf |}.

(** The rational a finite float stands for. *)
Definition SF2Q (x : spec_float) : Q :=
  match x with
  | S754_finite s m e => (inject_Z (cond_Zopp s (Zpos m)) * 2 ^ e)%Q
  | _ => 0%Q
  end.

(** [13421772 * 2 ^ -24 = 0.79999995231628417...], the float just below
    [0.8f]. *)
Definition flicker_floor : spec_float := S754_finite false 13421772 (-24).

(** Shifting right [k] times leaves the quotient by [2 ^ k]; the round and
    sticky bits stay clear as long as only zeros were shifted out. *)
Definition shifted (m0 k : Z) (mrs : shr_record) : Prop :=
  shr_m mrs = m0 / 2 ^ k /\
  (m0 mod 2 ^ k = 0 -> shr_r mrs = false /\ shr_s mrs = false).

(** GLM over binary32 with matrices kept as terms; [glm::radians] is a
    multiplication by the literal GLM uses. *)
Inductive b32_mat4 :=
  | BScale (x y z : spec_float)
  | BRotate (angle x y z : spec_float)
  | BTranslate (x y z : spec_float)
  | BProduct (a b : b32_mat4).

Definition binary32_glm `{Libm} : Glm :=
  {| mat4 := b32_mat4; mat4_mul := BProduct;
     glm_scale := fun v => BScale (v3_x v) (v3_y v) (v3_z v);
     glm_rotate := fun a v => BRotate a (v3_x v) (v3_y v) (v3_z v);
     glm_translate := fun v => BTranslate (v3_x v) (v3_y v) (v3_z v);
     glm_radians := fun a =>
       SFmul prec emax a (b32_lit 0.01745329251994329576923690768489) |}.

(** Three values of the C library's sine, at the floats nearest to 0,
    pi/2 and 3*pi/2; NaN stands for an argument that is not tabulated. *)
Definition sinf_table (x : spec_float) : spec_float :=
  if SFeqb x (S754_zero false) then S754_zero false
  else if SFeqb x (S754_finite false 13176795 (-23)) then b32_lit 1.0
  else if SFeqb x (S754_finite false 9882596 (-21)) then b32_lit (-1.0)
  else S754_nan.

Definition table_libm : Libm := {| sinf := sinf_table |}.

(** Two values of [glfwGetTime()] as [float]: 0.10471976 s, where
    [time * 15.0f] is the float nearest to pi/2, and 0.31415927 s, where
    it is the float nearest to 3*pi/2. *)
Definition crest_time : spec_float := S754_finite false 14055248 (-27).
Definition trough_time : spec_float := S754_finite false 10541436 (-25).

End Binary32.

(** * The rest of the file: destructor, lights, scene preparation and the
      per-object routines *)

(** Calls into the ShapeMeshes object.  The cylinder draws take three
    booleans (top, bottom, sides) or no argument at all, which leaves the
    choice to the defaults of the ShapeMeshes header. *)
Inductive mesh_call :=
  | LoadPlaneMesh | LoadBoxMesh | LoadCylinderMesh | LoadTaperedCylinderMesh
  | LoadConeMesh | LoadSphereMesh | LoadPrismMesh
  | DrawPlaneMesh | DrawBoxMesh
  | DrawCylinderMesh (parts : option (bool * bool * bool))
  | DrawTaperedCylinderMesh (parts : option (bool * bool * bool))
  | DrawConeMesh | DrawSphereMesh | DrawHalfSphereMesh | DrawPrismMesh.

(** [m_basicMeshes->...]: what a call into ShapeMeshes does to the state
    modelled here. *)
Class ShapeMeshes `{G : Glm} := {
  m_basicMeshes : mesh_call -> M unit;
}.

(** [glm::cos] *)
Class GlmCos `{H : FloatOps} := {
  glm_cos : float -> float;
}.

Section Scene.
Context `{G : Glm} `{D : Driver} `{!GlmCos} `{!ShapeMeshes}.

Notation "x <- m ;; k" := (bind m (fun x => k))
  (at level 100, m at next level, right associativity).
Notation "m ;; k" := (bind m (fun _ => k))
  (at level 100, right associativity).

(** [~SceneManager()].  Deleting the ShapeMeshes object is outside the
    state modelled here. *)
Definition SceneManager_destructor : M unit :=
  modify (set_shader None) ;;
  DestroyGLTextures.

Definition SetupSceneLights : M unit :=
  shader_call (setBoolValue g_UseLightingName true) ;;
  shader_call (setVec3Value "directionalLight.direction"
                 (mk_vec3 (lit (-0.2)) (lit (-0.7)) (lit (-0.4)))) ;;
  shader_call (setVec3Value "directionalLight.ambient"
                 (mk_vec3 (lit 0.15) (lit 0.15) (lit 0.15))) ;;
  shader_call (setVec3Value "directionalLight.diffuse"
                 (mk_vec3 (lit 0.5) (lit 0.5) (lit 0.5))) ;;
  shader_call (setVec3Value "directionalLight.specular"
                 (mk_vec3 (lit 0.5) (lit 0.5) (lit 0.5))) ;;
  shader_call (setBoolValue "directionalLight.bActive" true) ;;
  shader_call (setVec3Value "pointLights[0].position"
                 (mk_vec3 (lit (-5.0)) (lit 35.0) (lit 0.5))) ;;
  shader_call (setVec3Value "pointLights[0].ambient"
                 (mk_vec3 (lit 0.14) (lit 0.09) (lit 0.055))) ;;
  shader_call (setVec3Value "pointLights[0].diffuse"
                 (mk_vec3 (lit 0.75) (lit 0.5) (lit 0.3))) ;;
  shader_call (setVec3Value "pointLights[0].specular"
                 (mk_vec3 (lit 0.35) (lit 0.25) (lit 0.17))) ;;
  shader_call (setFloatValue "pointLights[0].constant" (lit 1.0)) ;;
  shader_call (setFloatValue "pointLights[0].linear" (lit 0.09)) ;;
  shader_call (setFloatValue "pointLights[0].quadratic" (lit 0.032)) ;;
  shader_call (setBoolValue "pointLights[0].bActive" true) ;;
  shader_call (setVec3Value "spotLight.position"
                 (mk_vec3 (lit 0.0) (lit 10.0) (lit (-8.5)))) ;;
  shader_call (setVec3Value "spotLight.direction"
                 (mk_vec3 (lit 0.0) (lit (-0.7)) (lit 0.0))) ;;
  shader_call (setVec3Value "spotLight.ambient"
                 (mk_vec3 (lit 0.2) (lit 0.15) (lit 0.1))) ;;
  shader_call (setVec3Value "spotLight.diffuse"
                 (mk_vec3 (lit 2.0) (lit 1.5) (lit 0.75))) ;;
  shader_call (setVec3Value "spotLight.specular"
                 (mk_vec3 (lit 2.0) (lit 1.5) (lit 0.75))) ;;
  shader_call (setFloatValue "spotLight.constant" (lit 1.0)) ;;
  shader_call (setFloatValue "spotLight.linear" (lit 0.03)) ;;
  shader_call (setFloatValue "spotLight.quadratic" (lit 0.06)) ;;
  shader_call (setFloatValue "spotLight.cutOff" (glm_cos (glm_radians (lit 45.0)))) ;;
  shader_call (setFloatValue "spotLight.outerCutOff"
                 (glm_cos (glm_radians (lit 55.0)))) ;;
  shader_call (setBoolValue "spotLight.bActive" true).

Definition PrepareScene : M unit :=
  LoadSceneTextures ;;
  DefineObjectMaterials ;;
  SetupSceneLights ;;
  m_basicMeshes LoadPlaneMesh ;;
  m_basicMeshes LoadBoxMesh ;;
  m_basicMeshes LoadCylinderMesh ;;
  m_basicMeshes LoadTaperedCylinderMesh ;;
  m_basicMeshes LoadConeMesh ;;
  m_basicMeshes LoadSphereMesh ;;
  m_basicMeshes LoadPrismMesh.

(** ** The per-object routines

    Each is the straight-line body of the C++ method: an assignment to a
    local is a [let] that shadows the earlier one.  [indeterminate] is the
    uninitialised local of SetShaderMaterial. *)
Section Routines.
Variable indeterminate : OBJECT_MATERIAL.

Definition RenderFloor_body : M unit :=
  let XrotationDegrees := (lit 0.0) in
  let YrotationDegrees := (lit 0.0) in
  let ZrotationDegrees := (lit 0.0) in
  let scaleXYZ := mk_vec3 (lit 20.0) (lit 1.0) (lit 15.0) in
  let XrotationDegrees := (lit 0.0) in
  let YrotationDegrees := (lit 0.0) in
  let ZrotationDegrees := (lit 0.0) in
  let positionXYZ := mk_vec3 (lit 0.0) (lit (-1.0)) (lit 0.0) in
  SetTransformations scaleXYZ XrotationDegrees YrotationDegrees
                     ZrotationDegrees positionXYZ ;;
  SetShaderTexture "floor_tile" ;;
  SetTextureUVScale (lit 2.0) (lit 1.5) ;;
  SetShaderMaterial indeterminate "tile" ;;
  m_basicMeshes DrawPlaneMesh.

Definition RenderBackWall_body : M unit :=
  let XrotationDegrees := (lit 0.0) in
  let YrotationDegrees := (lit 0.0) in
  let ZrotationDegrees := (lit 0.0) in
  let scaleXYZ := mk_vec3 (lit 20.0) (lit 1.0) (lit 16.0) in
  let XrotationDegrees := (lit 90.0) in
  let YrotationDegrees := (lit 0.0) in
  let ZrotationDegrees := (lit 0.0) in
  let positionXYZ := mk_vec3 (lit 0.0) (lit 15.0) (lit (-15.0)) in
  SetTransformations scaleXYZ XrotationDegrees YrotationDegrees
                     ZrotationDegrees positionXYZ ;;
  SetShaderColor (lit 0.914) (lit 0.914) (lit 0.914) (lit 1.0) ;;
  SetShaderMaterial indeterminate "wall" ;;
  m_basicMeshes DrawPlaneMesh ;;
  let scaleXYZ := mk_vec3 (lit 40.0) (lit 0.1) (lit 1.5) in
  let XrotationDegrees := (lit 90.0) in
  let YrotationDegrees := (lit 0.0) in
  let ZrotationDegrees := (lit 0.0) in
  let positionXYZ := mk_vec3 (lit 0.0) (lit (-0.3)) (lit (-14.95)) in
  SetTransformations scaleXYZ XrotationDegrees YrotationDegrees
                     ZrotationDegrees positionXYZ ;;
  SetShaderTexture "baseboard" ;;
  SetTextureUVScale (lit 10.0) (lit 1.0) ;;
  SetShaderMaterial indeterminate "baseboard" ;;
  m_basicMeshes DrawBoxMesh.

Definition RenderRightWall_body : M unit :=
  let XrotationDegrees := (lit 0.0) in
  let YrotationDegrees := (lit 0.0) in
  let ZrotationDegrees := (lit 0.0) in
  let scaleXYZ := mk_vec3 (lit 15.0) (lit 1.0) (lit 16.0) in
  let XrotationDegrees := (lit 90.0) in
  let YrotationDegrees := (lit 90.0) in
  let ZrotationDegrees := (lit 0.0) in
  let positionXYZ := mk_vec3 (lit 20.0) (lit 15.0) (lit 0.0) in
  SetTransformations scaleXYZ XrotationDegrees YrotationDegrees
                     ZrotationDegrees positionXYZ ;;
  SetShaderColor (lit 0.914) (lit 0.914) (lit 0.914) (lit 1.0) ;;
  SetShaderMaterial indeterminate "wall" ;;
  m_basicMeshes DrawPlaneMesh ;;
  let scaleXYZ := mk_vec3 (lit 30.0) (lit 0.1) (lit 1.5) in
  let XrotationDegrees := (lit 90.0) in
  let YrotationDegrees := (lit (-90.0)) in
  let ZrotationDegrees := (lit 0.0) in
  let positionXYZ := mk_vec3 (lit 20.0) (lit (-0.3)) (lit 0.0) in
  SetTransformations scaleXYZ XrotationDegrees YrotationDegrees
                     ZrotationDegrees positionXYZ ;;
  SetShaderTexture "baseboard" ;;
  SetTextureUVScale (lit 10.0) (lit 1.0) ;;
  SetShaderMaterial indeterminate "baseboard" ;;
  m_basicMeshes DrawBoxMesh.

Definition RenderTable_body : M unit :=
  let XrotationDegrees := (lit 0.0) in
  let YrotationDegrees := (lit 0.0) in
  let ZrotationDegrees := (lit 0.0) in
  let scaleXYZ := mk_vec3 (lit 8.5) (lit 0.5) (lit 11.0) in
  let XrotationDegrees := (lit 0.0) in
  let YrotationDegrees := (lit 0.0) in
  let ZrotationDegrees := (lit 0.0) in
  let positionXYZ := mk_vec3 (lit 0.0) (lit 7.0) (lit (-4.0)) in
  SetTransformations scaleXYZ XrotationDegrees YrotationDegrees
                     ZrotationDegrees positionXYZ ;;
  SetShaderColor (lit 0.18) (lit 0.12) (lit 0.09) (lit 1.0) ;;
  SetShaderMaterial indeterminate "wood" ;;
  m_basicMeshes (DrawCylinderMesh None) ;;
  let scaleXYZ := mk_vec3 (lit 0.4) (lit 8.0) (lit 0.4) in
  let XrotationDegrees := (lit 180.0) in
  let YrotationDegrees := (lit 0.0) in
  let ZrotationDegrees := (lit 0.0) in
  let positionXYZ := mk_vec3 (lit (-6.0)) (lit 7.0) (lit 3.0) in
  SetTransformations scaleXYZ XrotationDegrees YrotationDegrees
                     ZrotationDegrees positionXYZ ;;
  SetShaderColor (lit 0.18) (lit 0.12) (lit 0.09) (lit 1.0) ;;
  SetShaderMaterial indeterminate "wood" ;;
  m_basicMeshes (DrawTaperedCylinderMesh None) ;;
  let scaleXYZ := mk_vec3 (lit 0.4) (lit 8.0) (lit 0.4) in
  let XrotationDegrees := (lit 180.0) in
  let YrotationDegrees := (lit 0.0) in
  let ZrotationDegrees := (lit 0.0) in
  let positionXYZ := mk_vec3 (lit 6.0) (lit 7.0) (lit 3.0) in
  SetTransformations scaleXYZ XrotationDegrees YrotationDegrees
                     ZrotationDegrees positionXYZ ;;
  SetShaderColor (lit 0.18) (lit 0.12) (lit 0.09) (lit 1.0) ;;
  SetShaderMaterial indeterminate "wood" ;;
  m_basicMeshes (DrawTaperedCylinderMesh None) ;;
  let scaleXYZ := mk_vec3 (lit 0.4) (lit 8.0) (lit 0.4) in
  let XrotationDegrees := (lit 180.0) in
  let YrotationDegrees := (lit 0.0) in
  let ZrotationDegrees := (lit 0.0) in
  let positionXYZ := mk_vec3 (lit 6.0) (lit 7.0) (lit (-10.2)) in
  SetTransformations scaleXYZ XrotationDegrees YrotationDegrees
                     ZrotationDegrees positionXYZ ;;
  SetShaderColor (lit 0.18) (lit 0.12) (lit 0.09) (lit 1.0) ;;
  SetShaderMaterial indeterminate "wood" ;;
  m_basicMeshes (DrawTaperedCylinderMesh None) ;;
  let scaleXYZ := mk_vec3 (lit 0.4) (lit 8.0) (lit 0.4) in
  let XrotationDegrees := (lit 180.0) in
  let YrotationDegrees := (lit 0.0) in
  let ZrotationDegrees := (lit 0.0) in
  let positionXYZ := mk_vec3 (lit (-6.0)) (lit 7.0) (lit (-10.2)) in
  SetTransformations scaleXYZ XrotationDegrees YrotationDegrees
                     ZrotationDegrees positionXYZ ;;
  SetShaderColor (lit 0.18) (lit 0.12) (lit 0.09) (lit 1.0) ;;
  SetShaderMaterial indeterminate "wood" ;;
  m_basicMeshes (DrawTaperedCylinderMesh None).

Definition RenderClock_body : M unit :=
  let XrotationDegrees := (lit 0.0) in
  let YrotationDegrees := (lit 0.0) in
  let ZrotationDegrees := (lit 0.0) in
  let scaleXYZ := mk_vec3 (lit 3.5) (lit 0.5) (lit 3.5) in
  let XrotationDegrees := (lit 90.0) in
  let YrotationDegrees := (lit 0.0) in
  let ZrotationDegrees := (lit 0.0) in
  let positionXYZ := mk_vec3 (lit 0.0) (lit 20.0) (lit (-15.0)) in
  SetTransformations scaleXYZ XrotationDegrees YrotationDegrees
                     ZrotationDegrees positionXYZ ;;
  SetShaderTexture "clock_side" ;;
  SetTextureUVScale (lit 15.0) (lit 1.0) ;;
  SetShaderMaterial indeterminate "wood" ;;
  m_basicMeshes (DrawCylinderMesh (Some (false, false, true))) ;;
  SetShaderTexture "clock_face" ;;
  SetTextureUVScale (lit 1.0) (lit (-1.0)) ;;
  SetShaderMaterial indeterminate "glass" ;;
  m_basicMeshes (DrawCylinderMesh (Some (true, false, false))).

Definition RenderWineBottle_body : M unit :=
  let XrotationDegrees := (lit 0.0) in
  let YrotationDegrees := (lit 0.0) in
  let ZrotationDegrees := (lit 0.0) in
  let scaleXYZ := mk_vec3 (lit 0.6) (lit 2.5) (lit 0.6) in
  let XrotationDegrees := (lit 0.0) in
  let YrotationDegrees := (lit 120.0) in
  let ZrotationDegrees := (lit 0.0) in
  let positionXYZ := mk_vec3 (lit (-2.0)) (lit 7.5) (lit (-6.0)) in
  SetTransformations scaleXYZ XrotationDegrees YrotationDegrees
                     ZrotationDegrees positionXYZ ;;
  SetShaderTexture "wine_lable" ;;
  SetTextureUVScale (lit (-1.0)) (lit 1.0) ;;
  SetShaderMaterial indeterminate "glass" ;;
  m_basicMeshes (DrawCylinderMesh (Some (false, false, true))) ;;
  SetShaderColor (lit 0.129) (lit 0.129) (lit 0.122) (lit 1.0) ;;
  SetShaderMaterial indeterminate "glass" ;;
  m_basicMeshes (DrawCylinderMesh (Some (true, true, false))) ;;
  let scaleXYZ := mk_vec3 (lit 0.6) (lit 0.7) (lit 0.6) in
  let XrotationDegrees := (lit 0.0) in
  let YrotationDegrees := (lit 0.0) in
  let ZrotationDegrees := (lit 0.0) in
  let positionXYZ := mk_vec3 (lit (-2.0)) (lit 10.0) (lit (-6.0)) in
  SetTransformations scaleXYZ XrotationDegrees YrotationDegrees
                     ZrotationDegrees positionXYZ ;;
  SetShaderColor (lit 0.349) (lit 0.463) (lit 0.114) (lit 0.8) ;;
  SetShaderMaterial indeterminate "glass" ;;
  m_basicMeshes DrawHalfSphereMesh ;;
  let scaleXYZ := mk_vec3 (lit 0.2) (lit 1.3) (lit 0.2) in
  let XrotationDegrees := (lit 0.0) in
  let YrotationDegrees := (lit 0.0) in
  let ZrotationDegrees := (lit 0.0) in
  let positionXYZ := mk_vec3 (lit (-2.0)) (lit 10.6) (lit (-6.0)) in
  SetTransformations scaleXYZ XrotationDegrees YrotationDegrees
                     ZrotationDegrees positionXYZ ;;
  SetShaderTexture "wine_cap" ;;
  SetTextureUVScale (lit (-2.0)) (lit 1.0) ;;
  SetShaderMaterial indeterminate "glass" ;;
  m_basicMeshes (DrawCylinderMesh (Some (false, false, true))) ;;
  SetShaderColor (lit 0.129) (lit 0.176) (lit 0.310) (lit 1.0) ;;
  SetShaderMaterial indeterminate "glass" ;;
  m_basicMeshes (DrawCylinderMesh (Some (true, false, false))).

Definition RenderCandle_body : M unit :=
  let XrotationDegrees := (lit 0.0) in
  let YrotationDegrees := (lit 0.0) in
  let ZrotationDegrees := (lit 0.0) in
  let scaleXYZ := mk_vec3 (lit 0.5) (lit 2.0) (lit 0.5) in
  let XrotationDegrees := (lit 0.0) in
  let YrotationDegrees := (lit 0.0) in
  let ZrotationDegrees := (lit 0.0) in
  let positionXYZ := mk_vec3 (lit 0.0) (lit 7.5) (lit (-8.5)) in
  SetTransformations scaleXYZ XrotationDegrees YrotationDegrees
                     ZrotationDegrees positionXYZ ;;
  SetShaderTexture "candle_side" ;;
  SetTextureUVScale (lit 2.0) (lit 1.0) ;;
  SetShaderMaterial indeterminate "candle" ;;
  m_basicMeshes (DrawCylinderMesh (Some (false, false, true))) ;;
  SetShaderTexture "candle_top" ;;
  SetTextureUVScale (lit 1.0) (lit 1.0) ;;
  SetShaderMaterial indeterminate "candle" ;;
  m_basicMeshes (DrawCylinderMesh (Some (true, false, false))) ;;
  let scaleXYZ := mk_vec3 (lit 0.07) (lit 0.4) (lit 0.07) in
  let XrotationDegrees := (lit 0.0) in
  let YrotationDegrees := (lit 0.0) in
  let ZrotationDegrees := (lit 0.0) in
  let positionXYZ := mk_vec3 (lit 0.0) (lit 9.5) (lit (-8.5)) in
  SetTransformations scaleXYZ XrotationDegrees YrotationDegrees
                     ZrotationDegrees positionXYZ ;;
  SetShaderColor (lit 1.0) (lit 0.576) (lit 0.161) (lit 1.0) ;;
  SetShaderMaterial indeterminate "flame" ;;
  m_basicMeshes DrawConeMesh.

Definition RenderLeftChair_body : M unit :=
  let XrotationDegrees := (lit 0.0) in
  let YrotationDegrees := (lit 0.0) in
  let ZrotationDegrees := (lit 0.0) in
  let scaleXYZ := mk_vec3 (lit 6.3) (lit 0.5) (lit 6.0) in
  let XrotationDegrees := (lit 0.0) in
  let YrotationDegrees := (lit 0.0) in
  let ZrotationDegrees := (lit 0.0) in
  let positionXYZ := mk_vec3 (lit (-7.2)) (lit 3.5) (lit (-4.0)) in
  SetTransformations scaleXYZ XrotationDegrees YrotationDegrees
                     ZrotationDegrees positionXYZ ;;
  SetShaderColor (lit 0.18) (lit 0.12) (lit 0.09) (lit 1.0) ;;
  SetShaderMaterial indeterminate "wood" ;;
  m_basicMeshes DrawBoxMesh ;;
  let scaleXYZ := mk_vec3 (lit 5.8) (lit 0.5) (lit 5.8) in
  let XrotationDegrees := (lit 0.0) in
  let YrotationDegrees := (lit 0.0) in
  let ZrotationDegrees := (lit 0.0) in
  let positionXYZ := mk_vec3 (lit (-7.0)) (lit 4.0) (lit (-4.0)) in
  SetTransformations scaleXYZ XrotationDegrees YrotationDegrees
                     ZrotationDegrees positionXYZ ;;
  SetShaderTexture "chair_cushion" ;;
  SetTextureUVScale (lit 10.0) (lit 10.0) ;;
  SetShaderMaterial indeterminate "cushion" ;;
  m_basicMeshes DrawBoxMesh ;;
  let scaleXYZ := mk_vec3 (lit 0.5) (lit 4.5) (lit 0.5) in
  let XrotationDegrees := (lit 0.0) in
  let YrotationDegrees := (lit 0.0) in
  let ZrotationDegrees := (lit 0.0) in
  let positionXYZ := mk_vec3 (lit (-10.1)) (lit 1.3) (lit (-1.25)) in
  SetTransformations scaleXYZ XrotationDegrees YrotationDegrees
                     ZrotationDegrees positionXYZ ;;
  SetShaderColor (lit 0.18) (lit 0.12) (lit 0.09) (lit 1.0) ;;
  SetShaderMaterial indeterminate "wood" ;;
  m_basicMeshes DrawBoxMesh ;;
  let scaleXYZ := mk_vec3 (lit 0.5) (lit 4.5) (lit 0.5) in
  let XrotationDegrees := (lit 0.0) in
  let YrotationDegrees := (lit 0.0) in
  let ZrotationDegrees := (lit 0.0) in
  let positionXYZ := mk_vec3 (lit (-4.3)) (lit 1.3) (lit (-1.25)) in
  SetTransformations scaleXYZ XrotationDegrees YrotationDegrees
                     ZrotationDegrees positionXYZ ;;
  SetShaderColor (lit 0.18) (lit 0.12) (lit 0.09) (lit 1.0) ;;
  SetShaderMaterial indeterminate "wood" ;;
  m_basicMeshes DrawBoxMesh ;;
  let scaleXYZ := mk_vec3 (lit 0.5) (lit 4.5) (lit 0.5) in
  let XrotationDegrees := (lit 0.0) in
  let YrotationDegrees := (lit 0.0) in
  let ZrotationDegrees := (lit 0.0) in
  let positionXYZ := mk_vec3 (lit (-10.1)) (lit 1.3) (lit (-6.75)) in
  SetTransformations scaleXYZ XrotationDegrees YrotationDegrees
                     ZrotationDegrees positionXYZ ;;
  SetShaderColor (lit 0.18) (lit 0.12) (lit 0.09) (lit 1.0) ;;
  SetShaderMaterial indeterminate "wood" ;;
  m_basicMeshes DrawBoxMesh ;;
  let scaleXYZ := mk_vec3 (lit 0.5) (lit 4.5) (lit 0.5) in
  let XrotationDegrees := (lit 0.0) in
  let YrotationDegrees := (lit 0.0) in
  let ZrotationDegrees := (lit 0.0) in
  let positionXYZ := mk_vec3 (lit (-4.3)) (lit 1.3) (lit (-6.75)) in
  SetTransformations scaleXYZ XrotationDegrees YrotationDegrees
                     ZrotationDegrees positionXYZ ;;
  SetShaderColor (lit 0.18) (lit 0.12) (lit 0.09) (lit 1.0) ;;
  SetShaderMaterial indeterminate "wood" ;;
  m_basicMeshes DrawBoxMesh ;;
  let scaleXYZ := mk_vec3 (lit 0.5) (lit 8.0) (lit 0.5) in
  let XrotationDegrees := (lit 0.0) in
  let YrotationDegrees := (lit 0.0) in
  let ZrotationDegrees := (lit 10.0) in
  let positionXYZ := mk_vec3 (lit (-10.75)) (lit 7.5) (lit (-6.75)) in
  SetTransformations scaleXYZ XrotationDegrees YrotationDegrees
                     ZrotationDegrees positionXYZ ;;
  SetShaderColor (lit 0.18) (lit 0.12) (lit 0.09) (lit 1.0) ;;
  SetShaderMaterial indeterminate "wood" ;;
  m_basicMeshes DrawBoxMesh ;;
  let scaleXYZ := mk_vec3 (lit 0.5) (lit 8.0) (lit 0.5) in
  let XrotationDegrees := (lit 0.0) in
  let YrotationDegrees := (lit 0.0) in
  let ZrotationDegrees := (lit 10.0) in
  let positionXYZ := mk_vec3 (lit (-10.75)) (lit 7.5) (lit (-1.25)) in
  SetTransformations scaleXYZ XrotationDegrees YrotationDegrees
                     ZrotationDegrees positionXYZ ;;
  SetShaderColor (lit 0.18) (lit 0.12) (lit 0.09) (lit 1.0) ;;
  SetShaderMaterial indeterminate "wood" ;;
  m_basicMeshes DrawBoxMesh ;;
  let scaleXYZ := mk_vec3 (lit 0.3) (lit 5.0) (lit 0.5) in
  let XrotationDegrees := (lit 90.0) in
  let YrotationDegrees := (lit 0.0) in
  let ZrotationDegrees := (lit 10.0) in
  let positionXYZ := mk_vec3 (lit (-11.25)) (lit 10.5) (lit (-4.0)) in
  SetTransformations scaleXYZ XrotationDegrees YrotationDegrees
                     ZrotationDegrees positionXYZ ;;
  SetShaderColor (lit 0.18) (lit 0.12) (lit 0.09) (lit 1.0) ;;
  SetShaderMaterial indeterminate "wood" ;;
  m_basicMeshes DrawBoxMesh ;;
  let scaleXYZ := mk_vec3 (lit 0.3) (lit 5.0) (lit 0.5) in
  let XrotationDegrees := (lit 90.0) in
  let YrotationDegrees := (lit 0.0) in
  let ZrotationDegrees := (lit 10.0) in
  let positionXYZ := mk_vec3 (lit (-11.0)) (lit 9.0) (lit (-4.0)) in
  SetTransformations scaleXYZ XrotationDegrees YrotationDegrees
                     ZrotationDegrees positionXYZ ;;
  SetShaderColor (lit 0.18) (lit 0.12) (lit 0.09) (lit 1.0) ;;
  SetShaderMaterial indeterminate "wood" ;;
  m_basicMeshes DrawBoxMesh ;;
  let scaleXYZ := mk_vec3 (lit 0.3) (lit 5.0) (lit 0.5) in
  let XrotationDegrees := (lit 90.0) in
  let YrotationDegrees := (lit 0.0) in
  let ZrotationDegrees := (lit 10.0) in
  let positionXYZ := mk_vec3 (lit (-10.75)) (lit 7.5) (lit (-4.0)) in
  SetTransformations scaleXYZ XrotationDegrees YrotationDegrees
                     ZrotationDegrees positionXYZ ;;
  SetShaderColor (lit 0.18) (lit 0.12) (lit 0.09) (lit 1.0) ;;
  SetShaderMaterial indeterminate "wood" ;;
  m_basicMeshes DrawBoxMesh ;;
  let scaleXYZ := mk_vec3 (lit 0.3) (lit 5.0) (lit 0.5) in
  let XrotationDegrees := (lit 90.0) in
  let YrotationDegrees := (lit 0.0) in
  let ZrotationDegrees := (lit 10.0) in
  let positionXYZ := mk_vec3 (lit (-10.5)) (lit 6.0) (lit (-4.0)) in
  SetTransformations scaleXYZ XrotationDegrees YrotationDegrees
                     ZrotationDegrees positionXYZ ;;
  SetShaderColor (lit 0.18) (lit 0.12) (lit 0.09) (lit 1.0) ;;
  SetShaderMaterial indeterminate "wood" ;;
  m_basicMeshes DrawBoxMesh ;;
  let scaleXYZ := mk_vec3 (lit 0.3) (lit 5.0) (lit 0.5) in
  let XrotationDegrees := (lit 90.0) in
  let YrotationDegrees := (lit 0.0) in
  let ZrotationDegrees := (lit 10.0) in
  let positionXYZ := mk_vec3 (lit (-10.25)) (lit 4.5) (lit (-4.0)) in
  SetTransformations scaleXYZ XrotationDegrees YrotationDegrees
                     ZrotationDegrees positionXYZ ;;
  SetShaderColor (lit 0.18) (lit 0.12) (lit 0.09) (lit 1.0) ;;
  SetShaderMaterial indeterminate "wood" ;;
  m_basicMeshes DrawBoxMesh.

Definition RenderRightChair_body : M unit :=
  let XrotationDegrees := (lit 0.0) in
  let YrotationDegrees := (lit 0.0) in
  let ZrotationDegrees := (lit 0.0) in
  let scaleXYZ := mk_vec3 (lit 6.3) (lit 0.5) (lit 6.0) in
  let XrotationDegrees := (lit 0.0) in
  let YrotationDegrees := (lit 0.0) in
  let ZrotationDegrees := (lit 0.0) in
  let positionXYZ := mk_vec3 (lit 7.2) (lit 3.5) (lit (-4.0)) in
  SetTransformations scaleXYZ XrotationDegrees YrotationDegrees
                     ZrotationDegrees positionXYZ ;;
  SetShaderColor (lit 0.18) (lit 0.12) (lit 0.09) (lit 1.0) ;;
  SetShaderMaterial indeterminate "wood" ;;
  m_basicMeshes DrawBoxMesh ;;
  let scaleXYZ := mk_vec3 (lit 5.8) (lit 0.5) (lit 5.8) in
  let XrotationDegrees := (lit 0.0) in
  let YrotationDegrees := (lit 0.0) in
  let ZrotationDegrees := (lit 0.0) in
  let positionXYZ := mk_vec3 (lit 7.0) (lit 4.0) (lit (-4.0)) in
  SetTransformations scaleXYZ XrotationDegrees YrotationDegrees
                     ZrotationDegrees positionXYZ ;;
  SetShaderTexture "chair_cushion" ;;
  SetTextureUVScale (lit 10.0) (lit 10.0) ;;
  SetShaderMaterial indeterminate "cushion" ;;
  m_basicMeshes DrawBoxMesh ;;
  let scaleXYZ := mk_vec3 (lit 0.5) (lit 4.5) (lit 0.5) in
  let XrotationDegrees := (lit 0.0) in
  let YrotationDegrees := (lit 0.0) in
  let ZrotationDegrees := (lit 0.0) in
  let positionXYZ := mk_vec3 (lit 10.1) (lit 1.3) (lit (-1.25)) in
  SetTransformations scaleXYZ XrotationDegrees YrotationDegrees
                     ZrotationDegrees positionXYZ ;;
  SetShaderColor (lit 0.18) (lit 0.12) (lit 0.09) (lit 1.0) ;;
  SetShaderMaterial indeterminate "wood" ;;
  m_basicMeshes DrawBoxMesh ;;
  let scaleXYZ := mk_vec3 (lit 0.5) (lit 4.5) (lit 0.5) in
  let XrotationDegrees := (lit 0.0) in
  let YrotationDegrees := (lit 0.0) in
  let ZrotationDegrees := (lit 0.0) in
  let positionXYZ := mk_vec3 (lit 4.3) (lit 1.3) (lit (-1.25)) in
  SetTransformations scaleXYZ XrotationDegrees YrotationDegrees
                     ZrotationDegrees positionXYZ ;;
  SetShaderColor (lit 0.18) (lit 0.12) (lit 0.09) (lit 1.0) ;;
  SetShaderMaterial indeterminate "wood" ;;
  m_basicMeshes DrawBoxMesh ;;
  let scaleXYZ := mk_vec3 (lit 0.5) (lit 4.5) (lit 0.5) in
  let XrotationDegrees := (lit 0.0) in
  let YrotationDegrees := (lit 0.0) in
  let ZrotationDegrees := (lit 0.0) in
  let positionXYZ := mk_vec3 (lit 10.1) (lit 1.3) (lit (-6.75)) in
  SetTransformations scaleXYZ XrotationDegrees YrotationDegrees
                     ZrotationDegrees positionXYZ ;;
  SetShaderColor (lit 0.18) (lit 0.12) (lit 0.09) (lit 1.0) ;;
  SetShaderMaterial indeterminate "wood" ;;
  m_basicMeshes DrawBoxMesh ;;
  let scaleXYZ := mk_vec3 (lit 0.5) (lit 4.5) (lit 0.5) in
  let XrotationDegrees := (lit 0.0) in
  let YrotationDegrees := (lit 0.0) in
  let ZrotationDegrees := (lit 0.0) in
  let positionXYZ := mk_vec3 (lit 4.3) (lit 1.3) (lit (-6.75)) in
  SetTransformations scaleXYZ XrotationDegrees YrotationDegrees
                     ZrotationDegrees positionXYZ ;;
  SetShaderColor (lit 0.18) (lit 0.12) (lit 0.09) (lit 1.0) ;;
  SetShaderMaterial indeterminate "wood" ;;
  m_basicMeshes DrawBoxMesh ;;
  let scaleXYZ := mk_vec3 (lit 0.5) (lit 8.0) (lit 0.5) in
  let XrotationDegrees := (lit 0.0) in
  let YrotationDegrees := (lit 0.0) in
  let ZrotationDegrees := (lit (-10.0)) in
  let positionXYZ := mk_vec3 (lit 10.75) (lit 7.5) (lit (-6.75)) in
  SetTransformations scaleXYZ XrotationDegrees YrotationDegrees
                     ZrotationDegrees positionXYZ ;;
  SetShaderColor (lit 0.18) (lit 0.12) (lit 0.09) (lit 1.0) ;;
  SetShaderMaterial indeterminate "wood" ;;
  m_basicMeshes DrawBoxMesh ;;
  let scaleXYZ := mk_vec3 (lit 0.5) (lit 8.0) (lit 0.5) in
  let XrotationDegrees := (lit 0.0) in
  let YrotationDegrees := (lit 0.0) in
  let ZrotationDegrees := (lit (-10.0)) in
  let positionXYZ := mk_vec3 (lit 10.75) (lit 7.5) (lit (-1.25)) in
  SetTransformations scaleXYZ XrotationDegrees YrotationDegrees
                     ZrotationDegrees positionXYZ ;;
  SetShaderColor (lit 0.18) (lit 0.12) (lit 0.09) (lit 1.0) ;;
  SetShaderMaterial indeterminate "wood" ;;
  m_basicMeshes DrawBoxMesh ;;
  let scaleXYZ := mk_vec3 (lit 0.3) (lit 5.0) (lit 0.5) in
  let XrotationDegrees := (lit 90.0) in
  let YrotationDegrees := (lit 0.0) in
  let ZrotationDegrees := (lit (-10.0)) in
  let positionXYZ := mk_vec3 (lit 11.25) (lit 10.5) (lit (-4.0)) in
  SetTransformations scaleXYZ XrotationDegrees YrotationDegrees
                     ZrotationDegrees positionXYZ ;;
  SetShaderColor (lit 0.18) (lit 0.12) (lit 0.09) (lit 1.0) ;;
  SetShaderMaterial indeterminate "wood" ;;
  m_basicMeshes DrawBoxMesh ;;
  let scaleXYZ := mk_vec3 (lit 0.3) (lit 5.0) (lit 0.5) in
  let XrotationDegrees := (lit 90.0) in
  let YrotationDegrees := (lit 0.0) in
  let ZrotationDegrees := (lit (-10.0)) in
  let positionXYZ := mk_vec3 (lit 11.0) (lit 9.0) (lit (-4.0)) in
  SetTransformations scaleXYZ XrotationDegrees YrotationDegrees
                     ZrotationDegrees positionXYZ ;;
  SetShaderColor (lit 0.18) (lit 0.12) (lit 0.09) (lit 1.0) ;;
  SetShaderMaterial indeterminate "wood" ;;
  m_basicMeshes DrawBoxMesh ;;
  let scaleXYZ := mk_vec3 (lit 0.3) (lit 5.0) (lit 0.5) in
  let XrotationDegrees := (lit 90.0) in
  let YrotationDegrees := (lit 0.0) in
  let ZrotationDegrees := (lit (-10.0)) in
  let positionXYZ := mk_vec3 (lit 10.75) (lit 7.5) (lit (-4.0)) in
  SetTransformations scaleXYZ XrotationDegrees YrotationDegrees
                     ZrotationDegrees positionXYZ ;;
  SetShaderColor (lit 0.18) (lit 0.12) (lit 0.09) (lit 1.0) ;;
  SetShaderMaterial indeterminate "wood" ;;
  m_basicMeshes DrawBoxMesh ;;
  let scaleXYZ := mk_vec3 (lit 0.3) (lit 5.0) (lit 0.5) in
  let XrotationDegrees := (lit 90.0) in
  let YrotationDegrees := (lit 0.0) in
  let ZrotationDegrees := (lit (-10.0)) in
  let positionXYZ := mk_vec3 (lit 10.5) (lit 6.0) (lit (-4.0)) in
  SetTransformations scaleXYZ XrotationDegrees YrotationDegrees
                     ZrotationDegrees positionXYZ ;;
  SetShaderColor (lit 0.18) (lit 0.12) (lit 0.09) (lit 1.0) ;;
  SetShaderMaterial indeterminate "wood" ;;
  m_basicMeshes DrawBoxMesh ;;
  let scaleXYZ := mk_vec3 (lit 0.3) (lit 5.0) (lit 0.5) in
  let XrotationDegrees := (lit 90.0) in
  let YrotationDegrees := (lit 0.0) in
  let ZrotationDegrees := (lit (-10.0)) in
  let positionXYZ := mk_vec3 (lit 10.25) (lit 4.5) (lit (-4.0)) in
  SetTransformations scaleXYZ XrotationDegrees YrotationDegrees
                     ZrotationDegrees positionXYZ ;;
  SetShaderColor (lit 0.18) (lit 0.12) (lit 0.09) (lit 1.0) ;;
  SetShaderMaterial indeterminate "wood" ;;
  m_basicMeshes DrawBoxMesh.

Definition RenderLeftWineGlass_body : M unit :=
  let XrotationDegrees := (lit 0.0) in
  let YrotationDegrees := (lit 0.0) in
  let ZrotationDegrees := (lit 0.0) in
  let scaleXYZ := mk_vec3 (lit 0.5) (lit 0.03) (lit 0.5) in
  let XrotationDegrees := (lit 0.0) in
  let YrotationDegrees := (lit 0.0) in
  let ZrotationDegrees := (lit 0.0) in
  let positionXYZ := mk_vec3 (lit (-2.9)) (lit 7.5) (lit (-1.5)) in
  SetTransformations scaleXYZ XrotationDegrees YrotationDegrees
                     ZrotationDegrees positionXYZ ;;
  SetShaderColor (lit 0.7) (lit 0.7) (lit 0.8) (lit 0.3) ;;
  SetShaderMaterial indeterminate "glass" ;;
  m_basicMeshes (DrawCylinderMesh None) ;;
  let scaleXYZ := mk_vec3 (lit 0.15) (lit 0.3) (lit 0.15) in
  let XrotationDegrees := (lit 0.0) in
  let YrotationDegrees := (lit 0.0) in
  let ZrotationDegrees := (lit 0.0) in
  let positionXYZ := mk_vec3 (lit (-2.9)) (lit 7.5) (lit (-1.5)) in
  SetTransformations scaleXYZ XrotationDegrees YrotationDegrees
                     ZrotationDegrees positionXYZ ;;
  SetShaderColor (lit 0.7) (lit 0.7) (lit 0.8) (lit 0.3) ;;
  SetShaderMaterial indeterminate "glass" ;;
  m_basicMeshes (DrawTaperedCylinderMesh (Some (false, false, true))) ;;
  let scaleXYZ := mk_vec3 (lit 0.07) (lit 1.0) (lit 0.07) in
  let XrotationDegrees := (lit 0.0) in
  let YrotationDegrees := (lit 0.0) in
  let ZrotationDegrees := (lit 0.0) in
  let positionXYZ := mk_vec3 (lit (-2.9)) (lit 7.8) (lit (-1.5)) in
  SetTransformations scaleXYZ XrotationDegrees YrotationDegrees
                     ZrotationDegrees positionXYZ ;;
  SetShaderColor (lit 0.7) (lit 0.7) (lit 0.8) (lit 0.4) ;;
  SetShaderMaterial indeterminate "glass" ;;
  m_basicMeshes (DrawCylinderMesh (Some (false, false, true))) ;;
  let scaleXYZ := mk_vec3 (lit 0.15) (lit 0.15) (lit 0.15) in
  let XrotationDegrees := (lit 180.0) in
  let YrotationDegrees := (lit 0.0) in
  let ZrotationDegrees := (lit 0.0) in
  let positionXYZ := mk_vec3 (lit (-2.9)) (lit 8.95) (lit (-1.5)) in
  SetTransformations scaleXYZ XrotationDegrees YrotationDegrees
                     ZrotationDegrees positionXYZ ;;
  SetShaderColor (lit 0.7) (lit 0.7) (lit 0.8) (lit 0.3) ;;
  SetShaderMaterial indeterminate "glass" ;;
  m_basicMeshes (DrawTaperedCylinderMesh (Some (false, false, true))) ;;
  let scaleXYZ := mk_vec3 (lit 0.6) (lit 0.8) (lit 0.6) in
  let XrotationDegrees := (lit 180.0) in
  let YrotationDegrees := (lit 0.0) in
  let ZrotationDegrees := (lit 0.0) in
  let positionXYZ := mk_vec3 (lit (-2.9)) (lit 9.72) (lit (-1.5)) in
  SetTransformations scaleXYZ XrotationDegrees YrotationDegrees
                     ZrotationDegrees positionXYZ ;;
  SetShaderColor (lit 0.2) (lit 0.0) (lit 0.1) (lit 0.9) ;;
  SetShaderMaterial indeterminate "glass" ;;
  m_basicMeshes DrawHalfSphereMesh ;;
  let scaleXYZ := mk_vec3 (lit 0.6) (lit 0.8) (lit 0.6) in
  let XrotationDegrees := (lit 0.0) in
  let YrotationDegrees := (lit 0.0) in
  let ZrotationDegrees := (lit 0.0) in
  let positionXYZ := mk_vec3 (lit (-2.9)) (lit 9.72) (lit (-1.5)) in
  SetTransformations scaleXYZ XrotationDegrees YrotationDegrees
                     ZrotationDegrees positionXYZ ;;
  SetShaderColor (lit 0.7) (lit 0.7) (lit 0.8) (lit 0.3) ;;
  SetShaderMaterial indeterminate "glass" ;;
  m_basicMeshes (DrawTaperedCylinderMesh (Some (false, false, true))).

Definition RenderRightWineGlass_body : M unit :=
  let XrotationDegrees := (lit 0.0) in
  let YrotationDegrees := (lit 0.0) in
  let ZrotationDegrees := (lit 0.0) in
  let scaleXYZ := mk_vec3 (lit 0.5) (lit 0.03) (lit 0.5) in
  let XrotationDegrees := (lit 0.0) in
  let YrotationDegrees := (lit 0.0) in
  let ZrotationDegrees := (lit 0.0) in
  let positionXYZ := mk_vec3 (lit 3.3) (lit 7.5) (lit (-6.0)) in
  SetTransformations scaleXYZ XrotationDegrees YrotationDegrees
                     ZrotationDegrees positionXYZ ;;
  SetShaderColor (lit 0.7) (lit 0.7) (lit 0.8) (lit 0.3) ;;
  SetShaderMaterial indeterminate "glass" ;;
  m_basicMeshes (DrawCylinderMesh None) ;;
  let scaleXYZ := mk_vec3 (lit 0.15) (lit 0.3) (lit 0.15) in
  let XrotationDegrees := (lit 0.0) in
  let YrotationDegrees := (lit 0.0) in
  let ZrotationDegrees := (lit 0.0) in
  let positionXYZ := mk_vec3 (lit 3.3) (lit 7.5) (lit (-6.0)) in
  SetTransformations scaleXYZ XrotationDegrees YrotationDegrees
                     ZrotationDegrees positionXYZ ;;
  SetShaderColor (lit 0.7) (lit 0.7) (lit 0.8) (lit 0.3) ;;
  SetShaderMaterial indeterminate "glass" ;;
  m_basicMeshes (DrawTaperedCylinderMesh (Some (false, false, true))) ;;
  let scaleXYZ := mk_vec3 (lit 0.07) (lit 1.0) (lit 0.07) in
  let XrotationDegrees := (lit 0.0) in
  let YrotationDegrees := (lit 0.0) in
  let ZrotationDegrees := (lit 0.0) in
  let positionXYZ := mk_vec3 (lit 3.3) (lit 7.8) (lit (-6.0)) in
  SetTransformations scaleXYZ XrotationDegrees YrotationDegrees
                     ZrotationDegrees positionXYZ ;;
  SetShaderColor (lit 0.7) (lit 0.7) (lit 0.8) (lit 0.4) ;;
  SetShaderMaterial indeterminate "glass" ;;
  m_basicMeshes (DrawCylinderMesh (Some (false, false, true))) ;;
  let scaleXYZ := mk_vec3 (lit 0.15) (lit 0.15) (lit 0.15) in
  let XrotationDegrees := (lit 180.0) in
  let YrotationDegrees := (lit 0.0) in
  let ZrotationDegrees := (lit 0.0) in
  let positionXYZ := mk_vec3 (lit 3.3) (lit 8.95) (lit (-6.0)) in
  SetTransformations scaleXYZ XrotationDegrees YrotationDegrees
                     ZrotationDegrees positionXYZ ;;
  SetShaderColor (lit 0.7) (lit 0.7) (lit 0.8) (lit 0.3) ;;
  SetShaderMaterial indeterminate "glass" ;;
  m_basicMeshes (DrawTaperedCylinderMesh (Some (false, false, true))) ;;
  let scaleXYZ := mk_vec3 (lit 0.6) (lit 0.8) (lit 0.6) in
  let XrotationDegrees := (lit 180.0) in
  let YrotationDegrees := (lit 0.0) in
  let ZrotationDegrees := (lit 0.0) in
  let positionXYZ := mk_vec3 (lit 3.3) (lit 9.72) (lit (-6.0)) in
  SetTransformations scaleXYZ XrotationDegrees YrotationDegrees
                     ZrotationDegrees positionXYZ ;;
  SetShaderColor (lit 0.2) (lit 0.0) (lit 0.1) (lit 0.9) ;;
  SetShaderMaterial indeterminate "glass" ;;
  m_basicMeshes DrawHalfSphereMesh ;;
  let scaleXYZ := mk_vec3 (lit 0.6) (lit 0.8) (lit 0.6) in
  let XrotationDegrees := (lit 0.0) in
  let YrotationDegrees := (lit 0.0) in
  let ZrotationDegrees := (lit 0.0) in
  let positionXYZ := mk_vec3 (lit 3.3) (lit 9.72) (lit (-6.0)) in
  SetTransformations scaleXYZ XrotationDegrees YrotationDegrees
                     ZrotationDegrees positionXYZ ;;
  SetShaderColor (lit 0.7) (lit 0.7) (lit 0.8) (lit 0.3) ;;
  SetShaderMaterial indeterminate "glass" ;;
  m_basicMeshes (DrawTaperedCylinderMesh (Some (false, false, true))).

Definition RenderLeftPlate_body : M unit :=
  let XrotationDegrees := (lit 0.0) in
  let YrotationDegrees := (lit 0.0) in
  let ZrotationDegrees := (lit 0.0) in
  let scaleXYZ := mk_vec3 (lit 2.0) (lit 0.1) (lit 2.0) in
  let XrotationDegrees := (lit 0.0) in
  let YrotationDegrees := (lit 0.0) in
  let ZrotationDegrees := (lit 0.0) in
  let positionXYZ := mk_vec3 (lit (-6.0)) (lit 7.5) (lit (-3.5)) in
  SetTransformations scaleXYZ XrotationDegrees YrotationDegrees
                     ZrotationDegrees positionXYZ ;;
  SetShaderColor (lit 0.898) (lit 0.902) (lit 0.910) (lit 1.0) ;;
  SetShaderMaterial indeterminate "plate" ;;
  m_basicMeshes (DrawCylinderMesh (Some (false, true, true))) ;;
  SetShaderTexture "pasta" ;;
  SetTextureUVScale (lit 1.0) (lit 1.0) ;;
  SetShaderMaterial indeterminate "plate" ;;
  m_basicMeshes (DrawCylinderMesh (Some (true, false, false))) ;;
  let scaleXYZ := mk_vec3 (lit 0.18) (lit 0.18) (lit 0.18) in
  let XrotationDegrees := (lit 0.0) in
  let YrotationDegrees := (lit 0.0) in
  let ZrotationDegrees := (lit 0.0) in
  let positionXYZ := mk_vec3 (lit (-6.5)) (lit 7.7) (lit (-3.5)) in
  SetTransformations scaleXYZ XrotationDegrees YrotationDegrees
                     ZrotationDegrees positionXYZ ;;
  SetShaderTexture "meatball" ;;
  SetTextureUVScale (lit 1.0) (lit 1.0) ;;
  SetShaderMaterial indeterminate "meatball" ;;
  m_basicMeshes DrawSphereMesh ;;
  let scaleXYZ := mk_vec3 (lit 0.18) (lit 0.18) (lit 0.18) in
  let XrotationDegrees := (lit 0.0) in
  let YrotationDegrees := (lit 0.0) in
  let ZrotationDegrees := (lit 0.0) in
  let positionXYZ := mk_vec3 (lit (-5.8)) (lit 7.7) (lit (-3.9)) in
  SetTransformations scaleXYZ XrotationDegrees YrotationDegrees
                     ZrotationDegrees positionXYZ ;;
  SetShaderTexture "meatball" ;;
  SetTextureUVScale (lit 1.0) (lit 1.0) ;;
  SetShaderMaterial indeterminate "meatball" ;;
  m_basicMeshes DrawSphereMesh ;;
  let scaleXYZ := mk_vec3 (lit 0.18) (lit 0.18) (lit 0.18) in
  let XrotationDegrees := (lit 0.0) in
  let YrotationDegrees := (lit 0.0) in
  let ZrotationDegrees := (lit 0.0) in
  let positionXYZ := mk_vec3 (lit (-5.8)) (lit 7.7) (lit (-3.2)) in
  SetTransformations scaleXYZ XrotationDegrees YrotationDegrees
                     ZrotationDegrees positionXYZ ;;
  SetShaderTexture "meatball" ;;
  SetTextureUVScale (lit 1.0) (lit 1.0) ;;
  SetShaderMaterial indeterminate "meatball" ;;
  m_basicMeshes DrawSphereMesh.

Definition RenderRightPlate_body : M unit :=
  let XrotationDegrees := (lit 0.0) in
  let YrotationDegrees := (lit 0.0) in
  let ZrotationDegrees := (lit 0.0) in
  let scaleXYZ := mk_vec3 (lit 2.0) (lit 0.1) (lit 2.0) in
  let XrotationDegrees := (lit 0.0) in
  let YrotationDegrees := (lit 0.0) in
  let ZrotationDegrees := (lit 0.0) in
  let positionXYZ := mk_vec3 (lit 6.0) (lit 7.5) (lit (-3.5)) in
  SetTransformations scaleXYZ XrotationDegrees YrotationDegrees
                     ZrotationDegrees positionXYZ ;;
  SetShaderColor (lit 0.898) (lit 0.902) (lit 0.910) (lit 1.0) ;;
  SetShaderMaterial indeterminate "plate" ;;
  m_basicMeshes (DrawCylinderMesh (Some (false, true, true))) ;;
  SetShaderTexture "pasta" ;;
  SetTextureUVScale (lit 1.0) (lit 1.0) ;;
  SetShaderMaterial indeterminate "plate" ;;
  m_basicMeshes (DrawCylinderMesh (Some (true, false, false))) ;;
  let scaleXYZ := mk_vec3 (lit 0.18) (lit 0.18) (lit 0.18) in
  let XrotationDegrees := (lit 0.0) in
  let YrotationDegrees := (lit 0.0) in
  let ZrotationDegrees := (lit 0.0) in
  let positionXYZ := mk_vec3 (lit 6.5) (lit 7.7) (lit (-3.5)) in
  SetTransformations scaleXYZ XrotationDegrees YrotationDegrees
                     ZrotationDegrees positionXYZ ;;
  SetShaderTexture "meatball" ;;
  SetTextureUVScale (lit 1.0) (lit 1.0) ;;
  SetShaderMaterial indeterminate "meatball" ;;
  m_basicMeshes DrawSphereMesh ;;
  let scaleXYZ := mk_vec3 (lit 0.18) (lit 0.18) (lit 0.18) in
  let XrotationDegrees := (lit 0.0) in
  let YrotationDegrees := (lit 0.0) in
  let ZrotationDegrees := (lit 0.0) in
  let positionXYZ := mk_vec3 (lit 5.8) (lit 7.7) (lit (-3.9)) in
  SetTransformations scaleXYZ XrotationDegrees YrotationDegrees
                     ZrotationDegrees positionXYZ ;;
  SetShaderTexture "meatball" ;;
  SetTextureUVScale (lit 1.0) (lit 1.0) ;;
  SetShaderMaterial indeterminate "meatball" ;;
  m_basicMeshes DrawSphereMesh ;;
  let scaleXYZ := mk_vec3 (lit 0.18) (lit 0.18) (lit 0.18) in
  let XrotationDegrees := (lit 0.0) in
  let YrotationDegrees := (lit 0.0) in
  let ZrotationDegrees := (lit 0.0) in
  let positionXYZ := mk_vec3 (lit 5.8) (lit 7.7) (lit (-3.2)) in
  SetTransformations scaleXYZ XrotationDegrees YrotationDegrees
                     ZrotationDegrees positionXYZ ;;
  SetShaderTexture "meatball" ;;
  SetTextureUVScale (lit 1.0) (lit 1.0) ;;
  SetShaderMaterial indeterminate "meatball" ;;
  m_basicMeshes DrawSphereMesh.

Definition RenderLeftFork_body : M unit :=
  let XrotationDegrees := (lit 0.0) in
  let YrotationDegrees := (lit 0.0) in
  let ZrotationDegrees := (lit 0.0) in
  let scaleXYZ := mk_vec3 (lit 0.15) (lit 1.25) (lit 0.1) in
  let XrotationDegrees := (lit 90.0) in
  let YrotationDegrees := (lit (-90.0)) in
  let ZrotationDegrees := (lit 0.0) in
  let positionXYZ := mk_vec3 (lit (-6.5)) (lit 7.5) (lit (-1.0)) in
  SetTransformations scaleXYZ XrotationDegrees YrotationDegrees
                     ZrotationDegrees positionXYZ ;;
  SetShaderTexture "metal_fork" ;;
  SetTextureUVScale (lit 0.5) (lit 4.0) ;;
  SetShaderMaterial indeterminate "fork" ;;
  m_basicMeshes DrawBoxMesh ;;
  let scaleXYZ := mk_vec3 (lit 0.5) (lit 0.105) (lit 0.6) in
  let XrotationDegrees := (lit 0.0) in
  let YrotationDegrees := (lit 90.0) in
  let ZrotationDegrees := (lit 180.0) in
  let positionXYZ := mk_vec3 (lit (-5.9)) (lit 7.5) (lit (-1.0)) in
  SetTransformations scaleXYZ XrotationDegrees YrotationDegrees
                     ZrotationDegrees positionXYZ ;;
  SetShaderTexture "metal_fork" ;;
  SetTextureUVScale (lit 1.0) (lit 1.0) ;;
  SetShaderMaterial indeterminate "fork" ;;
  m_basicMeshes DrawPrismMesh ;;
  let scaleXYZ := mk_vec3 (lit 0.04) (lit 0.45) (lit 0.03) in
  let XrotationDegrees := (lit 90.0) in
  let YrotationDegrees := (lit 90.0) in
  let ZrotationDegrees := (lit 0.0) in
  let positionXYZ := mk_vec3 (lit (-5.6)) (lit 7.51) (lit (-1.2)) in
  SetTransformations scaleXYZ XrotationDegrees YrotationDegrees
                     ZrotationDegrees positionXYZ ;;
  SetShaderTexture "metal_fork" ;;
  SetTextureUVScale (lit 1.0) (lit 1.0) ;;
  SetShaderMaterial indeterminate "fork" ;;
  m_basicMeshes (DrawTaperedCylinderMesh None) ;;
  let scaleXYZ := mk_vec3 (lit 0.04) (lit 0.45) (lit 0.03) in
  let XrotationDegrees := (lit 90.0) in
  let YrotationDegrees := (lit 90.0) in
  let ZrotationDegrees := (lit 0.0) in
  let positionXYZ := mk_vec3 (lit (-5.6)) (lit 7.51) (lit (-1.07)) in
  SetTransformations scaleXYZ XrotationDegrees YrotationDegrees
                     ZrotationDegrees positionXYZ ;;
  SetShaderTexture "metal_fork" ;;
  SetTextureUVScale (lit 1.0) (lit 1.0) ;;
  SetShaderMaterial indeterminate "fork" ;;
  m_basicMeshes (DrawTaperedCylinderMesh None) ;;
  let scaleXYZ := mk_vec3 (lit 0.04) (lit 0.45) (lit 0.03) in
  let XrotationDegrees := (lit 90.0) in
  let YrotationDegrees := (lit 90.0) in
  let ZrotationDegrees := (lit 0.0) in
  let positionXYZ := mk_vec3 (lit (-5.6)) (lit 7.51) (lit (-0.94)) in
  SetTransformations scaleXYZ XrotationDegrees YrotationDegrees
                     ZrotationDegrees positionXYZ ;;
  SetShaderTexture "metal_fork" ;;
  SetTextureUVScale (lit 1.0) (lit 1.0) ;;
  SetShaderMaterial indeterminate "fork" ;;
  m_basicMeshes (DrawTaperedCylinderMesh None) ;;
  let scaleXYZ := mk_vec3 (lit 0.04) (lit 0.45) (lit 0.03) in
  let XrotationDegrees := (lit 90.0) in
  let YrotationDegrees := (lit 90.0) in
  let ZrotationDegrees := (lit 0.0) in
  let positionXYZ := mk_vec3 (lit (-5.6)) (lit 7.51) (lit (-0.8)) in
  SetTransformations scaleXYZ XrotationDegrees YrotationDegrees
                     ZrotationDegrees positionXYZ ;;
  SetShaderTexture "metal_fork" ;;
  SetTextureUVScale (lit 1.0) (lit 1.0) ;;
  SetShaderMaterial indeterminate "fork" ;;
  m_basicMeshes (DrawTaperedCylinderMesh None).

Definition RenderRightFork_body : M unit :=
  let XrotationDegrees := (lit 0.0) in
  let YrotationDegrees := (lit 0.0) in
  let ZrotationDegrees := (lit 0.0) in
  let scaleXYZ := mk_vec3 (lit 0.15) (lit 1.25) (lit 0.1) in
  let XrotationDegrees := (lit 90.0) in
  let YrotationDegrees := (lit (-90.0)) in
  let ZrotationDegrees := (lit 0.0) in
  let positionXYZ := mk_vec3 (lit 6.5) (lit 7.5) (lit (-6.0)) in
  SetTransformations scaleXYZ XrotationDegrees YrotationDegrees
                     ZrotationDegrees positionXYZ ;;
  SetShaderTexture "metal_fork" ;;
  SetTextureUVScale (lit 0.5) (lit 4.0) ;;
  SetShaderMaterial indeterminate "fork" ;;
  m_basicMeshes DrawBoxMesh ;;
  let scaleXYZ := mk_vec3 (lit 0.5) (lit 0.105) (lit 0.6) in
  let XrotationDegrees := (lit 0.0) in
  let YrotationDegrees := (lit (-90.0)) in
  let ZrotationDegrees := (lit 180.0) in
  let positionXYZ := mk_vec3 (lit 5.9) (lit 7.5) (lit (-6.0)) in
  SetTransformations scaleXYZ XrotationDegrees YrotationDegrees
                     ZrotationDegrees positionXYZ ;;
  SetShaderTexture "metal_fork" ;;
  SetTextureUVScale (lit 1.0) (lit 1.0) ;;
  SetShaderMaterial indeterminate "fork" ;;
  m_basicMeshes DrawPrismMesh ;;
  let scaleXYZ := mk_vec3 (lit 0.04) (lit 0.45) (lit 0.03) in
  let XrotationDegrees := (lit 90.0) in
  let YrotationDegrees := (lit (-90.0)) in
  let ZrotationDegrees := (lit 0.0) in
  let positionXYZ := mk_vec3 (lit 5.6) (lit 7.51) (lit (-6.2)) in
  SetTransformations scaleXYZ XrotationDegrees YrotationDegrees
                     ZrotationDegrees positionXYZ ;;
  SetShaderTexture "metal_fork" ;;
  SetTextureUVScale (lit 1.0) (lit 1.0) ;;
  SetShaderMaterial indeterminate "fork" ;;
  m_basicMeshes (DrawTaperedCylinderMesh None) ;;
  let scaleXYZ := mk_vec3 (lit 0.04) (lit 0.45) (lit 0.03) in
  let XrotationDegrees := (lit 90.0) in
  let YrotationDegrees := (lit (-90.0)) in
  let ZrotationDegrees := (lit 0.0) in
  let positionXYZ := mk_vec3 (lit 5.6) (lit 7.51) (lit (-6.07)) in
  SetTransformations scaleXYZ XrotationDegrees YrotationDegrees
                     ZrotationDegrees positionXYZ ;;
  SetShaderTexture "metal_fork" ;;
  SetTextureUVScale (lit 1.0) (lit 1.0) ;;
  SetShaderMaterial indeterminate "fork" ;;
  m_basicMeshes (DrawTaperedCylinderMesh None) ;;
  let scaleXYZ := mk_vec3 (lit 0.04) (lit 0.45) (lit 0.03) in
  let XrotationDegrees := (lit 90.0) in
  let YrotationDegrees := (lit (-90.0)) in
  let ZrotationDegrees := (lit 0.0) in
  let positionXYZ := mk_vec3 (lit 5.6) (lit 7.51) (lit (-5.94)) in
  SetTransformations scaleXYZ XrotationDegrees YrotationDegrees
                     ZrotationDegrees positionXYZ ;;
  SetShaderTexture "metal_fork" ;;
  SetTextureUVScale (lit 1.0) (lit 1.0) ;;
  SetShaderMaterial indeterminate "fork" ;;
  m_basicMeshes (DrawTaperedCylinderMesh None) ;;
  let scaleXYZ := mk_vec3 (lit 0.04) (lit 0.45) (lit 0.03) in
  let XrotationDegrees := (lit 90.0) in
  let YrotationDegrees := (lit (-90.0)) in
  let ZrotationDegrees := (lit 0.0) in
  let positionXYZ := mk_vec3 (lit 5.6) (lit 7.51) (lit (-5.8)) in
  SetTransformations scaleXYZ XrotationDegrees YrotationDegrees
                     ZrotationDegrees positionXYZ ;;
  SetShaderTexture "metal_fork" ;;
  SetTextureUVScale (lit 1.0) (lit 1.0) ;;
  SetShaderMaterial indeterminate "fork" ;;
  m_basicMeshes (DrawTaperedCylinderMesh None).

(** The routine behind each name, and the frame that calls them all. *)
Definition render_body (r : routine) : M unit :=
  match r with
  | RenderFloor => RenderFloor_body
  | RenderBackWall => RenderBackWall_body
  | RenderRightWall => RenderRightWall_body
  | RenderTable => RenderTable_body
  | RenderClock => RenderClock_body
  | RenderWineBottle => RenderWineBottle_body
  | RenderCandle => RenderCandle_body
  | RenderLeftChair => RenderLeftChair_body
  | RenderRightChair => RenderRightChair_body
  | RenderLeftWineGlass => RenderLeftWineGlass_body
  | RenderRightWineGlass => RenderRightWineGlass_body
  | RenderLeftPlate => RenderLeftPlate_body
  | RenderRightPlate => RenderRightPlate_body
  | RenderLeftFork => RenderLeftFork_body
  | RenderRightFork => RenderRightFork_body
  end.

Definition RenderFrame (time : float) : M unit :=
  RenderScene render_body time.

(** One frame after the other, at the given times. *)
Fixpoint frames (times : list float) : M unit :=
  match times with
  | [] => ret tt
  | time :: rest => RenderFrame time ;; frames rest
  end.

End Routines.
End Scene.

(** ** Notions used to state the further properties *)

Section SceneNotions.
Context `{G : Glm} `{D : Driver} `{!GlmCos} `{!ShapeMeshes}.

Notation "x <- m ;; k" := (bind m (fun x => k))
  (at level 100, m at next level, right associativity).
Notation "m ;; k" := (bind m (fun _ => k))
  (at level 100, right associativity).

(** The materials of DefineObjectMaterials, in the order they are pushed. *)
Definition scene_materials : list OBJECT_MATERIAL :=
  [material 0.7 0.7 0.7  0.4 0.4 0.4  20.0 "tile";
   material 0.7 0.7 0.7  0.8 0.8 0.8  60.0 "wood";
   material 0.7 0.7 0.7  1.0 1.0 1.0  95.0 "glass";
   material 0.5 0.5 0.5  0.05 0.05 0.05  20.0 "wall";
   material 1.0 0.95 0.85  0.3 0.3 0.3  4.0 "candle";
   material 1.0 0.6 0.1  1.0 0.8 0.4  80.0 "flame";
   material 0.85 0.85 0.85  0.15 0.15 0.15  40.0 "baseboard";
   material 0.9 0.9 0.9  0.1 0.1 0.1  5.0 "cushion";
   material 0.4 0.2 0.1  0.1 0.05 0.03  8.0 "meatball";
   material 0.9 0.9 0.88  0.2 0.2 0.2  12.0 "plate";
   material 0.6 0.6 0.6  0.9 0.9 0.9  64.0 "fork"].

(** A run of [push_back]s. *)
Fixpoint push_all (l : list OBJECT_MATERIAL) : M unit :=
  match l with
  | [] => ret tt
  | m :: l' =>
      match l' with
      | [] => push_back m
      | _ => push_back m ;; push_all l'
      end
  end.

(** The files and tags of LoadSceneTextures, in the order they are loaded. *)
Definition scene_textures : list (string * string) :=
  [("textures/tile.jpg", "floor_tile"); ("textures/clock.jpg", "clock_face");
   ("textures/wood_clock.jpg", "clock_side");
   ("textures/candle_color.jpg", "candle_side");
   ("textures/candle_top.jpg", "candle_top");
   ("textures/baseboard.png", "baseboard"); ("textures/stella.png", "wine_lable");
   ("textures/cap.png", "wine_cap"); ("textures/stripe.png", "chair_cushion");
   ("textures/pasta.jpg", "pasta"); ("textures/meatball.png", "meatball");
   ("textures/stainless.png", "metal_fork")].

(** Loads whose results are ignored, followed by [k]. *)
Fixpoint load_then (l : list (string * string)) (k : M unit) : M unit :=
  match l with
  | [] => k
  | (filename, tag) :: l' => CreateGLTexture filename tag ;; load_then l' k
  end.

Definition loadable (filename : string) : Prop :=
  exists image, stbi_load filename = Some image /\
                (img_colorChannels image = 3 \/ img_colorChannels image = 4).

(** The three pushes of SetShaderMaterial. *)
Definition material_uniforms (m : OBJECT_MATERIAL) : list uniform :=
  [setVec3Value "material.diffuseColor" (diffuseColor m);
   setVec3Value "material.specularColor" (specularColor m);
   setFloatValue "material.shininess" (shininess m)].

(** The pushes of SetupSceneLights, in order. *)
Definition light_uniforms : list uniform :=
  [setBoolValue "bUseLighting" true;
   setVec3Value "directionalLight.direction"
     (mk_vec3 (lit (-0.2)) (lit (-0.7)) (lit (-0.4)));
   setVec3Value "directionalLight.ambient" (mk_vec3 (lit 0.15) (lit 0.15) (lit 0.15));
   setVec3Value "directionalLight.diffuse" (mk_vec3 (lit 0.5) (lit 0.5) (lit 0.5));
   setVec3Value "directionalLight.specular" (mk_vec3 (lit 0.5) (lit 0.5) (lit 0.5));
   setBoolValue "directionalLight.bActive" true;
   setVec3Value "pointLights[0].position" (mk_vec3 (lit (-5.0)) (lit 35.0) (lit 0.5));
   setVec3Value "pointLights[0].ambient" (mk_vec3 (lit 0.14) (lit 0.09) (lit 0.055));
   setVec3Value "pointLights[0].diffuse" (mk_vec3 (lit 0.75) (lit 0.5) (lit 0.3));
   setVec3Value "pointLights[0].specular" (mk_vec3 (lit 0.35) (lit 0.25) (lit 0.17));
   setFloatValue "pointLights[0].constant" (lit 1.0);
   setFloatValue "pointLights[0].linear" (lit 0.09);
   setFloatValue "pointLights[0].quadratic" (lit 0.032);
   setBoolValue "pointLights[0].bActive" true;
   setVec3Value "spotLight.position" (mk_vec3 (lit 0.0) (lit 10.0) (lit (-8.5)));
   setVec3Value "spotLight.direction" (mk_vec3 (lit 0.0) (lit (-0.7)) (lit 0.0));
   setVec3Value "spotLight.ambient" (mk_vec3 (lit 0.2) (lit 0.15) (lit 0.1));
   setVec3Value "spotLight.diffuse" (mk_vec3 (lit 2.0) (lit 1.5) (lit 0.75));
   setVec3Value "spotLight.specular" (mk_vec3 (lit 2.0) (lit 1.5) (lit 0.75));
   setFloatValue "spotLight.constant" (lit 1.0);
   setFloatValue "spotLight.linear" (lit 0.03);
   setFloatValue "spotLight.quadratic" (lit 0.06);
   setFloatValue "spotLight.cutOff" (glm_cos (glm_radians (lit 45.0)));
   setFloatValue "spotLight.outerCutOff" (glm_cos (glm_radians (lit 55.0)));
   setBoolValue "spotLight.bActive" true].

(** A run of calls on the shader manager. *)
Fixpoint shader_calls (l : list uniform) : M unit :=
  match l with
  | [] => ret tt
  | u :: l' =>
      match l' with
      | [] => shader_call u
      | _ => shader_call u ;; shader_calls l'
      end
  end.

(** The name a push goes to. *)
Definition uniform_name (u : uniform) : string :=
  match u with
  | setMat4Value name _ | setIntValue name _ | setBoolValue name _
  | setFloatValue name _ | setVec2Value name _ | setVec3Value name _
  | setVec4Value name _ | setSampler2DValue name _ => name
  end.

(** The uniforms written by the five setters. *)
Definition setter_names : list string :=
  ["model"; "bUseTexture"; "objectColor"; "objectTexture"; "UVscale";
   "material.diffuseColor"; "material.specularColor"; "material.shininess"].

(** A sampler push that names a texture unit. *)
Definition resolved (u : uniform) : Prop :=
  match u with
  | setSampler2DValue _ v => 0 <= v
  | _ => True
  end.

Definition from_setter (u : uniform) : Prop := uniform_name u ∈ setter_names.

(** A setter uniform that is not a dangling sampler. *)
Definition from_setter_resolved (u : uniform) : Prop :=
  from_setter u /\ resolved u.

(** The last push that went to a uniform. *)
Definition last_pushed (name : string) (log : list uniform) : option uniform :=
  last (List.filter (fun u => String.eqb (uniform_name u) name) log).

(** The textures and materials of the scene are registered. *)
Definition scene_ready (s : SceneManager) : Prop :=
  wf s /\
  (forall tag, tag ∈ map snd scene_textures -> tag ∈ map tex_tag (registered s)) /\
  (forall tag, tag ∈ map mat_tag scene_materials ->
               tag ∈ map mat_tag (m_objectMaterials s)).

(** ShapeMeshes keeps to itself: its calls return and leave the manager,
    the shader's uniforms and the texture state alone. *)
Definition meshes_inert : Prop :=
  forall c s, m_basicMeshes c s = Returns tt s.

Definition stable (I : SceneManager -> Prop) : Prop :=
  forall s x, I s -> I (set_shader x s).

(** [m] touches neither the shader-manager pointer nor the materials:
    when it returns, both are as they were. *)
Definition registry_only {A} (m : M A) : Prop :=
  forall s a s',
    m s = Returns a s' ->
    m_pShaderManager s' = m_pShaderManager s /\
    m_objectMaterials s' = m_objectMaterials s.

(** [m] and [m'] run alike from every state satisfying [I] that has a
    shader manager attached: both return, having done nothing but push the
    same uniforms, each of which satisfies [P]. *)
Definition steps (I : SceneManager -> Prop) (P : uniform -> Prop)
    (m m' : M unit) : Prop :=
  forall s log,
    I s -> m_pShaderManager s = Some log ->
    exists new,
      m s = Returns tt (set_shader (Some (log ++ new)) s) /\
      m' s = Returns tt (set_shader (Some (log ++ new)) s) /\
      Forall P new.

End SceneNotions.

(** * Properties *)

Section Properties.
Context `{G : Glm} `{D : Driver}.

Notation "x <- m ;; k" := (bind m (fun x => k))
  (at level 100, m at next level, right associativity).
Notation "m ;; k" := (bind m (fun _ => k))
  (at level 100, right associativity).
Infix "*m" := mat4_mul (at level 40, left associativity).

(** ** Record bookkeeping *)

Lemma set_gl_id s : set_gl (gl_context s) s = s.
Proof. by destruct s. Qed.

Lemma set_gl_set_gl h h' s : set_gl h (set_gl h' s) = set_gl h s.
Proof. done. Qed.

Lemma bind_unit_ret (m : M unit) s : (m ;; ret tt) s = m s.
Proof. unfold bind, ret. by destruct (m s) as [[] ?|]. Qed.

Lemma shader_not_null_None s :
  m_pShaderManager s = None -> shader_not_null s = Returns false s.
Proof. intros E. unfold shader_not_null, bind, get, ret. by rewrite E. Qed.

Lemma shader_not_null_Some s log :
  m_pShaderManager s = Some log -> shader_not_null s = Returns true s.
Proof. intros E. unfold shader_not_null, bind, get, ret. by rewrite E. Qed.

Lemma set_shader_set_shader a b s : set_shader a (set_shader b s) = set_shader a s.
Proof. done. Qed.

Lemma shader_call_eval s log u :
  m_pShaderManager s = Some log ->
  shader_call u s = Returns tt (set_shader (Some (log ++ [u])) s).
Proof. intros E. unfold shader_call. by rewrite E. Qed.

(** ** Transformations *)

(** C1 (as amended): with a shader manager attached, SetTransformations
    pushes exactly one uniform, the matrix named "model", whose value is
    Translate(position) * RotateZ * RotateY * RotateX * Scale(scale), each
    rotation about its own axis by the angle converted with
    [glm::radians]; nothing else changes. *)
Theorem SetTransformations_pushes_model_matrix
    (s : SceneManager) (log : list uniform)
    (scaleXYZ positionXYZ : vec3) (rotX rotY rotZ : float) :
  m_pShaderManager s = Some log ->
  SetTransformations scaleXYZ rotX rotY rotZ positionXYZ s =
    Returns tt (set_shader (Some (log ++ [setMat4Value "model"
      (glm_translate positionXYZ
       *m glm_rotate (glm_radians rotZ) (mk_vec3 (lit 0.0) (lit 0.0) (lit 1.0))
       *m glm_rotate (glm_radians rotY) (mk_vec3 (lit 0.0) (lit 1.0) (lit 0.0))
       *m glm_rotate (glm_radians rotX) (mk_vec3 (lit 1.0) (lit 0.0) (lit 0.0))
       *m glm_scale scaleXYZ)])) s).
Proof.
  intros E. unfold SetTransformations, bind.
  rewrite (shader_not_null_Some _ _ E).
  unfold shader_call. by rewrite E.
Qed.

(** ** Stepping through a method *)

Lemma bind_eq {A B} (m : M A) (k : A -> M B) s :
  (x <- m ;; k x) s =
    match m s with Returns a s' => k a s' | Undefined f => Undefined f end.
Proof. done. Qed.

Lemma bind_Returns {A B} (m : M A) (k : A -> M B) s a s' :
  m s = Returns a s' -> (x <- m ;; k x) s = k a s'.
Proof. intros E. by rewrite bind_eq, E. Qed.

Lemma bind_Undefined {A B} (m : M A) (k : A -> M B) s f :
  m s = Undefined f -> (x <- m ;; k x) s = Undefined f.
Proof. intros E. by rewrite bind_eq, E. Qed.

Lemma while_S {L} fuel (cond : L -> M bool) (body : L -> M L) l s :
  while (S fuel) cond body l s =
    (c <- cond l ;;
     if c : bool then l' <- body l ;; while fuel cond body l' else ret l) s.
Proof. done. Qed.

(** A loop whose condition fails returns its locals at once. *)
Lemma while_exit {L} fuel (cond : L -> M bool) (body : L -> M L) l s :
  cond l s = Returns false s ->
  while (S fuel) cond body l s = Returns l s.
Proof. intros E. rewrite while_S. by rewrite (bind_Returns _ _ _ _ _ E). Qed.

(** One turn of a loop whose condition holds. *)
Lemma while_turn {L} fuel (cond : L -> M bool) (body : L -> M L) l l' s :
  cond l s = Returns true s ->
  body l s = Returns l' s ->
  while (S fuel) cond body l s = while fuel cond body l' s.
Proof.
  intros Ec Eb. rewrite while_S, (bind_Returns _ _ _ _ _ Ec).
  by rewrite (bind_Returns _ _ _ _ _ Eb).
Qed.

(** ** Material lookup *)

Lemma FindMaterial_loop tag s rest : forall pre fuel material,
  m_objectMaterials s = pre ++ rest ->
  (length rest + 2 <= fuel)%nat ->
  exists index bFound,
    while fuel FindMaterial_cond (FindMaterial_body tag)
          (material, Z.of_nat (length pre), false) s
    = Returns (found_material tag rest material, index, bFound) s.
Proof.
  induction rest as [|m rest IH]; intros pre fuel material Hs Hfuel;
    (destruct fuel as [|fuel]; [simpl in Hfuel; lia|]).
  - exists (Z.of_nat (length pre)), false. apply while_exit.
    unfold FindMaterial_cond. rewrite bind_eq. unfold get, ret.
    rewrite Hs, app_nil_r, (proj2 (Z.ltb_ge _ _)); [done | lia].
  - assert (Hcond : FindMaterial_cond (material, Z.of_nat (length pre), false) s
                    = Returns true s).
    { unfold FindMaterial_cond. rewrite bind_eq. unfold get, ret.
      rewrite (proj2 (Z.ltb_lt _ _)); [done|].
      rewrite Hs, length_app. simpl. lia. }
    assert (Hm : m_objectMaterials s !! Z.to_nat (Z.of_nat (length pre)) = Some m).
    { by rewrite Nat2Z.id, Hs, list_lookup_middle. }
    unfold found_material. cbn [List.find]. unfold has_tag at 1.
    destruct (String.eqb (mat_tag m) tag) eqn:Etag.
    + exists (Z.of_nat (length pre)), true.
      rewrite (while_turn _ _ _ _ (copy_material m material, Z.of_nat (length pre), true) _ Hcond).
      * destruct fuel as [|fuel]; [simpl in Hfuel; lia|].
        apply while_exit. unfold FindMaterial_cond. rewrite bind_eq.
        unfold get, ret. by rewrite andb_false_r.
      * unfold FindMaterial_body. rewrite bind_eq. unfold get.
        by rewrite Hm, Etag.
    + rewrite (while_turn _ _ _ _ (material, Z.of_nat (length pre) + 1, false) _ Hcond).
      * specialize (IH (pre ++ [m]) fuel material).
        rewrite length_app, Nat2Z.inj_add in IH. simpl in IH.
        apply IH; [by rewrite <- app_assoc | simpl in Hfuel; lia].
      * unfold FindMaterial_body. rewrite bind_eq. unfold get.
        by rewrite Hm, Etag.
Qed.

(** FindMaterial as a function of the registry: [false] on an empty
    registry, [true] otherwise, whether or not a tag matched. *)
Lemma FindMaterial_spec tag material s :
  FindMaterial tag material s =
    Returns (negb (bool_decide (m_objectMaterials s = [])),
             found_material tag (m_objectMaterials s) material) s.
Proof.
  unfold FindMaterial. rewrite bind_eq. unfold get.
  destruct (m_objectMaterials s) as [|m l] eqn:E; [done|].
  rewrite <- E.
  replace (Z.of_nat (length (m_objectMaterials s)) =? 0) with false
    by (rewrite E; done).
  destruct (FindMaterial_loop tag s (m_objectMaterials s) []
              (S (S (length (m_objectMaterials s)))) material)
    as (index & bFound & Hloop); [done | lia |].
  simpl length in Hloop. simpl Z.of_nat in Hloop.
  rewrite (bind_Returns _ _ _ _ _ Hloop). unfold ret. simpl. by rewrite E.
Qed.

Lemma found_material_first tag pre m post material :
  Forall (fun x => mat_tag x <> tag) pre -> mat_tag m = tag ->
  found_material tag (pre ++ m :: post) material = copy_material m material.
Proof.
  intros Hpre Hm. unfold found_material.
  induction Hpre as [|x pre Hx _ IH]; simpl.
  - unfold has_tag. by rewrite (proj2 (String.eqb_eq _ _) Hm).
  - unfold has_tag at 1. by rewrite (proj2 (String.eqb_neq _ _) Hx).
Qed.

Lemma found_material_none tag l material :
  Forall (fun x => mat_tag x <> tag) l -> found_material tag l material = material.
Proof.
  intros Hl. unfold found_material.
  induction Hl as [|x l Hx _ IH]; simpl; [done|].
  unfold has_tag at 1. by rewrite (proj2 (String.eqb_neq _ _) Hx).
Qed.

(** ** Texture lookup *)

Lemma registered_length s : wf s -> length (registered s) = Z.to_nat (m_loadedTextures s).
Proof.
  intros [Hn Hlen]. unfold registered. rewrite length_take_le; [done|].
  rewrite Hlen. unfold TEXTURE_SLOTS in *. lia.
Qed.

Lemma registered_lookup s i e :
  registered s !! i = Some e -> m_textureIDs s !! i = Some e.
Proof. unfold registered. rewrite lookup_take_Some. tauto. Qed.

(** Reading a registered slot is within the array. *)
Lemma texture_at_registered s i e :
  wf s -> registered s !! i = Some e -> texture_at (Z.of_nat i) s = Returns e s.
Proof.
  intros Hwf Hi. unfold texture_at.
  assert (i < length (registered s))%nat by (by eapply lookup_lt_Some).
  rewrite registered_length in * by done. destruct Hwf as [Hn _].
  rewrite bool_decide_true by lia.
  by rewrite Nat2Z.id, (registered_lookup _ _ _ Hi).
Qed.

Lemma find_texture_loop pick tag s rest : forall pre fuel result,
  wf s ->
  registered s = pre ++ rest ->
  (length rest + 2 <= fuel)%nat ->
  exists index bFound,
    while fuel find_texture_cond (find_texture_body pick tag)
          (result, Z.of_nat (length pre), false) s
    = Returns (scan pick tag (Z.of_nat (length pre)) rest result, index, bFound) s.
Proof.
  induction rest as [|e rest IH]; intros pre fuel result Hwf Hs Hfuel;
    (destruct fuel as [|fuel]; [simpl in Hfuel; lia|]);
    pose proof (registered_length s Hwf) as Hlen;
    rewrite Hs, length_app in Hlen; simpl in Hlen.
  - exists (Z.of_nat (length pre)), false. apply while_exit.
    unfold find_texture_cond. rewrite bind_eq. unfold get, ret.
    rewrite (proj2 (Z.ltb_ge _ _)); [done | lia].
  - assert (Hcond : find_texture_cond (result, Z.of_nat (length pre), false) s
                    = Returns true s).
    { unfold find_texture_cond. rewrite bind_eq. unfold get, ret.
      rewrite (proj2 (Z.ltb_lt _ _)); [done | lia]. }
    assert (He : texture_at (Z.of_nat (length pre)) s = Returns e s).
    { apply texture_at_registered; [done|]. by rewrite Hs, list_lookup_middle. }
    cbn [scan].
    destruct (String.eqb (tex_tag e) tag) eqn:Etag.
    + exists (Z.of_nat (length pre)), true.
      rewrite (while_turn _ _ _ _
                 (pick (Z.of_nat (length pre)) e, Z.of_nat (length pre), true) _ Hcond).
      * destruct fuel as [|fuel]; [simpl in Hfuel; lia|].
        apply while_exit. unfold find_texture_cond. rewrite bind_eq.
        unfold get, ret. by rewrite andb_false_r.
      * unfold find_texture_body. by rewrite (bind_Returns _ _ _ _ _ He), Etag.
    + rewrite (while_turn _ _ _ _ (result, Z.of_nat (length pre) + 1, false) _ Hcond).
      * specialize (IH (pre ++ [e]) fuel result).
        rewrite length_app, Nat2Z.inj_add in IH. simpl in IH.
        apply IH; [done | by rewrite <- app_assoc | simpl in Hfuel; lia].
      * unfold find_texture_body. by rewrite (bind_Returns _ _ _ _ _ He), Etag.
Qed.

(** Both lookups as functions of the registered entries. *)
Lemma find_texture_spec pick tag s :
  wf s ->
  find_texture pick tag s = Returns (scan pick tag 0 (registered s) (-1)) s.
Proof.
  intros Hwf. unfold find_texture. rewrite bind_eq. unfold get.
  destruct (find_texture_loop pick tag s (registered s) []
              (S (S (Z.to_nat (m_loadedTextures s)))) (-1))
    as (index & bFound & Hloop); [done | done | |].
  { rewrite registered_length by done. lia. }
  simpl length in Hloop. simpl Z.of_nat in Hloop.
  by rewrite (bind_Returns _ _ _ _ _ Hloop).
Qed.

Lemma scan_first pick tag index pre e post result :
  Forall (fun x => tex_tag x <> tag) pre -> tex_tag e = tag ->
  scan pick tag index (pre ++ e :: post) result
  = pick (index + Z.of_nat (length pre)) e.
Proof.
  intros Hpre He. revert index.
  induction Hpre as [|x pre Hx _ IH]; intros index; simpl.
  - rewrite (proj2 (String.eqb_eq _ _) He). f_equal. lia.
  - rewrite (proj2 (String.eqb_neq _ _) Hx), IH. f_equal. lia.
Qed.

Lemma scan_none pick tag index l result :
  Forall (fun x => tex_tag x <> tag) l -> scan pick tag index l result = result.
Proof.
  intros Hl. revert index.
  induction Hl as [|x l Hx _ IH]; intros index; simpl; [done|].
  by rewrite (proj2 (String.eqb_neq _ _) Hx).
Qed.

(** A tag carried by no registered texture: both lookups return -1. *)
Lemma FindTexture_unregistered s tag :
  wf s ->
  Forall (fun e => tex_tag e <> tag) (registered s) ->
  FindTextureID tag s = Returns (-1) s /\ FindTextureSlot tag s = Returns (-1) s.
Proof.
  intros Hwf Hno. unfold FindTextureID, FindTextureSlot.
  by rewrite !find_texture_spec, !scan_none.
Qed.

(** On an empty material registry FindMaterial reports "not found" and
    leaves the reference parameter alone. *)
Lemma FindMaterial_empty s tag material :
  m_objectMaterials s = [] -> FindMaterial tag material s = Returns (false, material) s.
Proof. intros E. rewrite FindMaterial_spec, E. done. Qed.

(** C3: on a non-empty material registry none of whose entries carries
    the tag, FindMaterial leaves the reference parameter unmodified but
    returns true, not the not-found result. *)
Theorem FindMaterial_unmatched_tag_returns_true
    (s : SceneManager) (tag : string) (material : OBJECT_MATERIAL) :
  m_objectMaterials s <> [] ->
  Forall (fun m => mat_tag m <> tag) (m_objectMaterials s) ->
  FindMaterial tag material s = Returns (true, material) s.
Proof.
  intros Hne Hno. rewrite FindMaterial_spec, found_material_none by done.
  by rewrite bool_decide_false.
Qed.

(** C6: when some entry carries the queried tag, the lookups return the
    data of the first such entry in registration order: FindTextureID its
    handle (as an int), FindTextureSlot its index, and FindMaterial true
    with the entry's diffuse colour, specular colour and shininess copied
    into the reference parameter. *)
Theorem lookups_return_first_match (s : SceneManager) (tag : string) :
  wf s ->
  (forall pre e post,
      registered s = pre ++ e :: post ->
      Forall (fun x => tex_tag x <> tag) pre ->
      tex_tag e = tag ->
      FindTextureID tag s = Returns (to_int (tex_ID e)) s /\
      FindTextureSlot tag s = Returns (Z.of_nat (length pre)) s) /\
  (forall pre m post material,
      m_objectMaterials s = pre ++ m :: post ->
      Forall (fun x => mat_tag x <> tag) pre ->
      mat_tag m = tag ->
      FindMaterial tag material s =
        Returns (true, mk_material (diffuseColor m) (specularColor m)
                                   (shininess m) (mat_tag material)) s).
Proof.
  intros Hwf. split.
  - intros pre e post Hs Hpre He. unfold FindTextureID, FindTextureSlot.
    rewrite !find_texture_spec, Hs by done.
    by rewrite !scan_first.
  - intros pre m post material Hs Hpre Hm.
    rewrite FindMaterial_spec, Hs, found_material_first by done.
    rewrite bool_decide_false; [done | by destruct pre].
Qed.

(** ** The null-pointer guards *)

(** C10: with a null shader-manager pointer, SetTransformations,
    SetShaderColor, SetShaderTexture and SetTextureUVScale return normally
    and leave everything as it was; SetShaderMaterial has no guard: as
    soon as a material is defined it calls through the null pointer. *)
Theorem setters_with_null_shader (s : SceneManager)
    (scaleXYZ positionXYZ : vec3) (rotX rotY rotZ red green blue alpha u v : float)
    (textureTag materialTag : string) (indeterminate : OBJECT_MATERIAL) :
  m_pShaderManager s = None ->
  SetTransformations scaleXYZ rotX rotY rotZ positionXYZ s = Returns tt s /\
  SetShaderColor red green blue alpha s = Returns tt s /\
  SetShaderTexture textureTag s = Returns tt s /\
  SetTextureUVScale u v s = Returns tt s /\
  (m_objectMaterials s <> [] ->
   SetShaderMaterial indeterminate materialTag s = Undefined NullDereference).
Proof.
  intros Hnull. pose proof (shader_not_null_None s Hnull) as Hguard.
  repeat split.
  - unfold SetTransformations. by rewrite (bind_Returns _ _ _ _ _ Hguard).
  - unfold SetShaderColor. by rewrite (bind_Returns _ _ _ _ _ Hguard).
  - unfold SetShaderTexture. by rewrite (bind_Returns _ _ _ _ _ Hguard).
  - unfold SetTextureUVScale. by rewrite (bind_Returns _ _ _ _ _ Hguard).
  - intros Hne. unfold SetShaderMaterial. rewrite bind_eq. unfold get.
    destruct (m_objectMaterials s) as [|m l] eqn:E; [done|]. rewrite <- E.
    replace (0 <? Z.of_nat (length (m_objectMaterials s))) with true
      by (rewrite E; done).
    rewrite (bind_Returns _ _ _ _ _ (FindMaterial_spec _ _ _)).
    rewrite bool_decide_false by (by rewrite E). simpl negb. cbv iota beta.
    apply bind_Undefined. unfold shader_call. by rewrite Hnull.
Qed.

(** ** Loading a texture *)

(** C4: an image that decodes but has neither 3 nor 4 channels makes
    CreateGLTexture return false with the array of entries and the count
    of loaded textures as they were. *)
Theorem CreateGLTexture_unsupported_channels
    (s : SceneManager) (filename tag : string) (image : Image) :
  stbi_load filename = Some image ->
  img_colorChannels image <> 3 ->
  img_colorChannels image <> 4 ->
  exists s',
    CreateGLTexture filename tag s = Returns false s' /\
    m_textureIDs s' = m_textureIDs s /\
    m_loadedTextures s' = m_loadedTextures s.
Proof.
  intros Himg H3 H4. unfold CreateGLTexture. rewrite Himg.
  cbv [bind print gl_gen gl modify get ret].
  rewrite (proj2 (Z.eqb_neq _ _) H3), (proj2 (Z.eqb_neq _ _) H4).
  eexists. split; [reflexivity|]. done.
Qed.

(** C9: the array has sixteen elements, and a load that decodes a
    3- or 4-channel image while sixteen textures are registered does not
    return: it stores outside the array. *)
Theorem CreateGLTexture_when_full_is_undefined
    (s : SceneManager) (filename tag : string) (image : Image) :
  stbi_load filename = Some image ->
  img_colorChannels image = 3 \/ img_colorChannels image = 4 ->
  m_loadedTextures s = 16 ->
  (forall p g c, length (m_textureIDs (SceneManager_new p g c)) = 16%nat) /\
  CreateGLTexture filename tag s = Undefined OutOfBounds.
Proof.
  intros Himg Hch Hfull. split; [done|].
  unfold CreateGLTexture. rewrite Himg.
  cbv [bind print gl_gen gl modify get ret store_texture texture_at].
  assert (Hoob : bool_decide (0 <= m_loadedTextures s < TEXTURE_SLOTS) = false).
  { apply bool_decide_false. rewrite Hfull. unfold TEXTURE_SLOTS. lia. }
  destruct Hch as [-> | ->]; simpl; by rewrite Hoob.
Qed.

(** What a successful load did to the registry. *)
Lemma CreateGLTexture_true filename tag s s1 :
  CreateGLTexture filename tag s = Returns true s1 ->
  0 <= m_loadedTextures s < TEXTURE_SLOTS /\
  (Z.to_nat (m_loadedTextures s) < length (m_textureIDs s))%nat /\
  m_textureIDs s1 =
    <[Z.to_nat (m_loadedTextures s) := mk_texture tag (gen_name (gl_context s))]>
      (m_textureIDs s) /\
  m_loadedTextures s1 = m_loadedTextures s + 1.
Proof.
  unfold CreateGLTexture.
  destruct (stbi_load filename) as [image|]; [|discriminate].
  destruct s as [sh n arr mats g c].
  cbv [bind print gl_gen gl modify get ret store_texture texture_at
       set_gl set_console set_textures set_loaded]. cbn.
  destruct (img_colorChannels image =? 3);
    [|destruct (img_colorChannels image =? 4)]; cbn; try discriminate.
  all: destruct (bool_decide (0 <= n < TEXTURE_SLOTS)) eqn:Hn;
    [apply bool_decide_eq_true in Hn | discriminate].
  all: destruct (arr !! Z.to_nat n) as [e|] eqn:He; [|discriminate].
  all: pose proof (lookup_lt_Some _ _ _ He) as Hlt; cbn.
  all: rewrite list_lookup_insert_eq by done.
  all: intros [= <-]; cbn; by rewrite list_insert_insert_eq.
Qed.

(** A run of successful registrations keeps the invariant and appends
    its entries, in order, to the registered ones. *)
Lemma Registered_registry s regs s' :
  Registered s regs s' ->
  wf s ->
  wf s' /\ registered s' = registered s ++ map entry_of regs.
Proof.
  induction 1 as [s | s s1 s2 filename tag rest Hload _ IH]; intros Hwf.
  - by rewrite app_nil_r.
  - destruct (CreateGLTexture_true _ _ _ _ Hload) as (Hn & Hlt & Harr & Hcount).
    destruct Hwf as [_ Hlen].
    assert (Hwf1 : wf s1).
    { split; [rewrite Hcount; lia | by rewrite Harr, length_insert]. }
    destruct (IH Hwf1) as [Hwf2 Hreg]. split; [done|].
    rewrite Hreg. cbn [map]. rewrite (cons_middle _ (registered s)), app_assoc.
    f_equal. unfold registered.
    rewrite Hcount, Harr, Z2Nat.inj_add, Nat.add_1_r by lia.
    erewrite take_S_r by (by apply list_lookup_insert_eq).
    by rewrite take_insert_ge.
Qed.

Lemma SceneManager_new_wf p g c : wf (SceneManager_new p g c).
Proof. split; [done | apply length_replicate]. Qed.

(** ** Binding *)

Lemma BindGLTextures_loop s rest : forall pre h,
  wf s ->
  registered s = pre ++ rest ->
  for_loop (length rest) (Z.of_nat (length pre))
    (fun i => gl (glActiveTexture (GL_TEXTURE0 + i)) ;;
              e <- texture_at i ;;
              gl (glBindTexture GL_TEXTURE_2D (tex_ID e)))
    (set_gl h s)
  = Returns tt (set_gl (h ++ bind_calls (Z.of_nat (length pre)) rest) s).
Proof.
  induction rest as [|e rest IH]; intros pre h Hwf Hs.
  - cbn. by rewrite app_nil_r.
  - cbn [for_loop length bind_calls]. rewrite bind_eq.
    assert (He : forall h', texture_at (Z.of_nat (length pre)) (set_gl h' s)
                            = Returns e (set_gl h' s)).
    { intros h'. apply texture_at_registered; [done|].
      change (registered (set_gl h' s)) with (registered s).
      by rewrite Hs, list_lookup_middle. }
    rewrite bind_eq. unfold gl at 1, modify. rewrite bind_eq.
    cbn [gl_context set_gl]. rewrite set_gl_set_gl, He.
    unfold gl at 1, modify. cbn [gl_context set_gl]. rewrite set_gl_set_gl.
    specialize (IH (pre ++ [e])).
    rewrite length_app, Nat2Z.inj_add in IH. cbn in IH.
    rewrite IH; [| done | by rewrite <- app_assoc].
    by rewrite <- !app_assoc.
Qed.

(** BindGLTextures selects unit after unit and binds the registered
    handles to them, in registration order. *)
Lemma BindGLTextures_spec s :
  wf s ->
  BindGLTextures s
  = Returns tt (set_gl (gl_context s ++ bind_calls 0 (registered s)) s).
Proof.
  intros Hwf. unfold BindGLTextures. rewrite bind_eq. unfold get.
  rewrite <- (registered_length s Hwf).
  rewrite <- (set_gl_id s) at 2.
  by apply (BindGLTextures_loop s (registered s) []).
Qed.

(** Binding a run of entries from slot [i] on leaves the lower units
    alone ... *)
Lemma bind_calls_frame l : forall i st key,
  key < GL_TEXTURE0 + i ->
  (fold_left gl_step (bind_calls i l) st).2 !! key = st.2 !! key.
Proof.
  induction l as [|e l IH]; intros i st key Hkey; [done|].
  cbn [bind_calls fold_left gl_step]. rewrite IH by lia.
  cbn. apply lookup_insert_ne. lia.
Qed.

(** ... and binds the k-th entry of the run to unit [i + k]. *)
Lemma bind_calls_units l : forall i st k e,
  l !! k = Some e ->
  (fold_left gl_step (bind_calls i l) st).2 !! (GL_TEXTURE0 + i + Z.of_nat k)
  = Some (tex_ID e).
Proof.
  induction l as [|x l IH]; intros i st k e Hk; [done|].
  cbn [bind_calls fold_left gl_step]. destruct k as [|k].
  - injection Hk as ->. rewrite bind_calls_frame by lia.
    cbn. rewrite Z.add_0_r. apply lookup_insert_eq.
  - cbn in Hk. replace (GL_TEXTURE0 + i + Z.of_nat (S k))
      with (GL_TEXTURE0 + (i + 1) + Z.of_nat k) by lia.
    by apply IH.
Qed.

(** C2: after a run of successful registrations with pairwise distinct
    tags on a new manager, FindTextureSlot of the tag of the k-th
    registration (counting from 0) returns k, and BindGLTextures leaves
    the handle generated for that registration bound on texture unit
    GL_TEXTURE0 + k. *)
Theorem slot_index_is_registration_order
    (p : option (list uniform)) (g : list GLcall) (c : list message)
    (regs : list (string * string * Z)) (s : SceneManager)
    (k : nat) (filename tag : string) (handle : Z) :
  Registered (SceneManager_new p g c) regs s ->
  NoDup (map (fun r => r.1.2) regs) ->
  regs !! k = Some (filename, tag, handle) ->
  FindTextureSlot tag s = Returns (Z.of_nat k) s /\
  exists s',
    BindGLTextures s = Returns tt s' /\
    texture_units (gl_context s') !! (GL_TEXTURE0 + Z.of_nat k) = Some handle.
Proof.
  intros Hrun Hdup Hk.
  destruct (Registered_registry _ _ _ Hrun (SceneManager_new_wf p g c))
    as [Hwf Hreg].
  change (registered (SceneManager_new p g c)) with (@nil TEXTURE_INFO) in Hreg.
  cbn [app] in Hreg.
  pose proof (take_drop_middle _ _ _ Hk) as Hsplit.
  assert (Hklen : length (take k regs) = k).
  { apply length_take_le. apply Nat.lt_le_incl. by eapply lookup_lt_Some. }
  split.
  - unfold FindTextureSlot. rewrite find_texture_spec, Hreg, <- Hsplit by done.
    rewrite map_app. cbn [map].
    rewrite scan_first; [by rewrite length_map, Hklen | | done].
    rewrite <- Hsplit, map_app in Hdup. cbn [map] in Hdup.
    apply NoDup_app in Hdup as (_ & Hdisj & _).
    apply Forall_forall. intros e He.
    apply list_elem_of_fmap in He as (r & -> & Hr).
    intros Heq. apply (Hdisj (r.1.2)).
    + apply list_elem_of_fmap. by exists r.
    + cbn in Heq. rewrite Heq. left.
  - eexists. split; [by apply BindGLTextures_spec|].
    cbn [gl_context set_gl]. unfold texture_units. rewrite fold_left_app.
    rewrite <- (Z.add_0_r GL_TEXTURE0) at 2.
    rewrite (bind_calls_units _ 0 _ k (entry_of (filename, tag, handle))); [done|].
    by rewrite Hreg, list_lookup_fmap, Hk.
Qed.

(** ** Destroying *)

Lemma gen_names_length n : forall h, length (gen_names n h) = n.
Proof. induction n as [|n IH]; intros h; cbn; [done | by rewrite IH]. Qed.

(** Every name is the driver's answer to the history extended by the
    generation calls before it. *)
Lemma gen_names_lookup n : forall h i name,
  gen_names n h !! i = Some name ->
  name = gen_name (h ++ map glGenTextures (take i (gen_names n h))).
Proof.
  induction n as [|n IH]; intros h i name Hi; [done|].
  cbn [gen_names] in *. destruct i as [|i].
  - injection Hi as <-. cbn. by rewrite app_nil_r.
  - cbn in Hi. apply IH in Hi. cbn [take map].
    by rewrite (cons_middle _ h), app_assoc.
Qed.

Lemma gl_gen_eval s :
  gl_gen s = Returns (gen_name (gl_context s))
               (set_gl (gl_context s ++ [glGenTextures (gen_name (gl_context s))]) s).
Proof. done. Qed.

Lemma store_texture_eval i f s e :
  0 <= i < TEXTURE_SLOTS ->
  m_textureIDs s !! Z.to_nat i = Some e ->
  store_texture i f s
  = Returns tt (set_textures (<[Z.to_nat i := f e]> (m_textureIDs s)) s).
Proof.
  intros Hi He. unfold store_texture, texture_at. rewrite bind_eq.
  by rewrite bool_decide_true, He.
Qed.

Lemma DestroyGLTextures_loop rest : forall done tail sh n mats h c,
  (length done + length rest <= Z.to_nat TEXTURE_SLOTS)%nat ->
  for_loop (length rest) (Z.of_nat (length done))
    (fun i => name <- gl_gen ;;
              store_texture i (fun e => mk_texture (tex_tag e) name))
    (mk_scene sh n (done ++ rest ++ tail) mats h c)
  = Returns tt
      (mk_scene sh n
         (done ++ zip_with rehandle rest (gen_names (length rest) h) ++ tail)
         mats (h ++ map glGenTextures (gen_names (length rest) h)) c).
Proof.
  induction rest as [|e rest IH]; intros done tail sh n mats h c Hlen.
  - cbn. by rewrite app_nil_r.
  - cbn [for_loop length gen_names zip_with map]. cbn in Hlen.
    rewrite bind_eq, bind_eq, gl_gen_eval.
    erewrite store_texture_eval; cycle 1.
    { unfold TEXTURE_SLOTS in *. lia. }
    { cbn. by rewrite Nat2Z.id, list_lookup_middle. }
    unfold set_textures, set_gl.
    cbn [m_textureIDs gl_context m_pShaderManager m_loadedTextures
         m_objectMaterials console].
    rewrite Nat2Z.id.
    replace (<[length done := _]> (done ++ e :: rest ++ tail))
      with ((done ++ [mk_texture (tex_tag e) (gen_name h)]) ++ rest ++ tail); cycle 1.
    { rewrite <- app_assoc. cbn.
      rewrite <- (Nat.add_0_r (length done)) at 1. by rewrite insert_app_r. }
    specialize (IH (done ++ [mk_texture (tex_tag e) (gen_name h)]) tail sh n mats
                   (h ++ [glGenTextures (gen_name h)]) c).
    rewrite length_app, Nat2Z.inj_add in IH. change (Z.of_nat (length [_])) with 1 in IH.
    rewrite IH by (cbn; lia). by rewrite <- !app_assoc.
Qed.

(** C7: DestroyGLTextures issues, for the loaded entries in order, one
    glGenTextures call each and nothing else (in particular no
    glDeleteTextures); the name the driver generates for the i-th call
    overwrites the handle stored in entry i.  Tags, the count and the
    unused entries stay as they were. *)
Theorem DestroyGLTextures_regenerates_handles (s : SceneManager) :
  wf s ->
  exists s' names,
    DestroyGLTextures s = Returns tt s' /\
    length names = Z.to_nat (m_loadedTextures s) /\
    gl_context s' = gl_context s ++ map glGenTextures names /\
    (forall name, glDeleteTextures name ∉ map glGenTextures names) /\
    (forall i name, names !! i = Some name ->
       name = gen_name (gl_context s ++ map glGenTextures (take i names))) /\
    (forall i e, registered s !! i = Some e ->
       exists name, names !! i = Some name /\
                    m_textureIDs s' !! i = Some (mk_texture (tex_tag e) name)) /\
    (forall i, (Z.to_nat (m_loadedTextures s) <= i)%nat ->
       m_textureIDs s' !! i = m_textureIDs s !! i) /\
    m_loadedTextures s' = m_loadedTextures s /\
    ((forall h, gen_name h ∉ generated h) ->
     forall i e e', registered s !! i = Some e ->
       tex_ID e ∈ generated (gl_context s) ->
       m_textureIDs s' !! i = Some e' -> tex_ID e' <> tex_ID e).
Proof.
  intros Hwf. pose proof (registered_length s Hwf) as Hreg.
  destruct Hwf as [Hn Hlen]. destruct s as [sh n arr mats h c].
  unfold registered in *.
  cbn [m_textureIDs m_loadedTextures gl_context] in *.
  set (reg := take (Z.to_nat n) arr) in *.
  set (names := gen_names (Z.to_nat n) h).
  assert (Hnames : length names = length reg)
    by (rewrite Hreg; apply gen_names_length).
  exists (mk_scene sh n (zip_with rehandle reg names ++ drop (Z.to_nat n) arr)
                   mats (h ++ map glGenTextures names) c), names.
  split; [|repeat split].
  - unfold DestroyGLTextures. rewrite bind_eq. unfold get.
    cbn [m_loadedTextures].
    pose proof (DestroyGLTextures_loop reg [] (drop (Z.to_nat n) arr)
                  sh n mats h c) as Hloop.
    cbn [app length Z.of_nat] in Hloop. rewrite Hreg in Hloop.
    fold names in Hloop. unfold reg at 1 in Hloop. rewrite take_drop in Hloop.
    apply Hloop. unfold TEXTURE_SLOTS in *. lia.
  - by rewrite Hnames.
  - intros name [x [Hx _]]%list_elem_of_fmap. discriminate.
  - intros i name Hi. by apply gen_names_lookup.
  - intros i e Hi. pose proof (lookup_lt_Some _ _ _ Hi) as Hlt.
    destruct (lookup_lt_is_Some_2 names i) as [name Hname]; [by rewrite Hnames|].
    exists name. split; [done|]. cbn.
    rewrite lookup_app_l by (by rewrite length_zip_with, Hnames, Nat.min_id).
    by rewrite lookup_zip_with, Hi, Hname.
  - intros i Hi. cbn.
    rewrite lookup_app_r by (rewrite length_zip_with, Hnames, Nat.min_id; lia).
    rewrite length_zip_with, Hnames, Nat.min_id, Hreg, lookup_drop.
    f_equal. lia.
  - intros Hfresh i e e' Hi Hold He'. cbn in He'.
    pose proof (lookup_lt_Some _ _ _ Hi) as Hlt.
    destruct (lookup_lt_is_Some_2 names i) as [name Hname]; [by rewrite Hnames|].
    rewrite lookup_app_l in He'
      by (by rewrite length_zip_with, Hnames, Nat.min_id).
    rewrite lookup_zip_with, Hi, Hname in He'. injection He' as <-. cbn.
    pose proof (gen_names_lookup _ _ _ _ Hname) as Hgen. intros Heq.
    apply (Hfresh (h ++ map glGenTextures (take i names))).
    fold names in Hgen. rewrite <- Hgen, Heq. unfold generated. rewrite omap_app.
    apply elem_of_app. by left.
Qed.

(** ** The frame *)

(** With a shader manager attached, RenderScene pushes the two spotlight
    flicker uniforms and goes on with the fifteen routines in their order. *)
Lemma RenderScene_with_shader
    (render : routine -> M unit) (time : float)
    (s : SceneManager) (log : list uniform) :
  m_pShaderManager s = Some log ->
  RenderScene render time s =
    in_order render render_order
      (set_shader (Some (log ++ flicker_uniforms time)) s).
Proof.
  intros E. unfold RenderScene.
  rewrite (bind_Returns _ _ _ _ _ (shader_call_eval s log _ E)).
  erewrite bind_Returns by (by apply shader_call_eval).
  rewrite set_shader_set_shader, <- app_assoc.
  change (log ++ [?u1] ++ [?u2]) with (log ++ flicker_uniforms time).
  generalize (set_shader (Some (log ++ flicker_uniforms time)) s). intros s0.
  cbn [in_order render_order]. unfold bind, ret.
  repeat match goal with
         | |- context [render ?r ?st] =>
             destruct (render r st) as [[] ?|]; [|done]
         end.
  done.
Qed.

(** The first statement that touches the shader manager is an unguarded
    call through the pointer. *)
Lemma RenderScene_without_shader
    (render : routine -> M unit) (time : float) (s : SceneManager) :
  m_pShaderManager s = None ->
  RenderScene render time s = Undefined NullDereference.
Proof.
  intros E. unfold RenderScene. apply bind_Undefined.
  unfold shader_call. by rewrite E.
Qed.

(** C8 (amended): every invocation of RenderScene on a manager whose
    shader-manager pointer is non-null first pushes the two spotlight
    flicker uniforms (diffuse, then ambient) and then calls the fifteen
    per-object routines one after the other in the order floor, back wall,
    right wall, table, clock, wine bottle, candle, left chair, right chair,
    left and right wine glass, left and right plate, left and right fork,
    whatever the state and the time; an invocation with a null pointer is
    undefined at the first push and calls no routine. *)
Theorem RenderScene_fixed_order
    (render : routine -> M unit) (time : float) (s : SceneManager) :
  RenderScene render time s =
    match m_pShaderManager s with
    | Some log =>
        in_order render
          [RenderFloor; RenderBackWall; RenderRightWall; RenderTable; RenderClock;
           RenderWineBottle; RenderCandle; RenderLeftChair; RenderRightChair;
           RenderLeftWineGlass; RenderRightWineGlass; RenderLeftPlate;
           RenderRightPlate; RenderLeftFork; RenderRightFork]
          (set_shader (Some (log ++ flicker_uniforms time)) s)
    | None => Undefined NullDereference
    end.
Proof.
  destruct (m_pShaderManager s) as [log|] eqn:E.
  - exact (RenderScene_with_shader render time s log E).
  - exact (RenderScene_without_shader render time s E).
Qed.

End Properties.

(** * The spotlight flicker in single precision *)

Section FlickerRange.
Import Binary32.
Context {L : Libm} {G : @Glm binary32} {D : Driver}.

(** ** Rounding to nearest in binary32 *)

Lemma digits2_pos_bounds (p : positive) :
  2 ^ (Zpos (digits2_pos p) - 1) <= Zpos p < 2 ^ Zpos (digits2_pos p).
Proof.
  induction p as [p IH|p IH|]; cbn [digits2_pos].
  - rewrite Pos2Z.inj_succ, (Pos2Z.inj_xI p).
    replace (Z.succ (Zpos (digits2_pos p)) - 1) with (Z.succ (Zpos (digits2_pos p) - 1)) by lia.
    rewrite !Z.pow_succ_r by lia. lia.
  - rewrite Pos2Z.inj_succ, (Pos2Z.inj_xO p).
    replace (Z.succ (Zpos (digits2_pos p)) - 1) with (Z.succ (Zpos (digits2_pos p) - 1)) by lia.
    rewrite !Z.pow_succ_r by lia. lia.
  - cbn. lia.
Qed.

Lemma digits2_pos_unique (p : positive) (d : Z) :
  2 ^ (d - 1) <= Zpos p < 2 ^ d -> Zpos (digits2_pos p) = d.
Proof.
  intros [Hlo Hhi]. pose proof (digits2_pos_bounds p) as [Hlo' Hhi'].
  destruct (Z.lt_trichotomy (Zpos (digits2_pos p)) d) as [Hlt|[Heq|Hgt]]; [|done|].
  - assert (2 ^ Zpos (digits2_pos p) <= 2 ^ (d - 1)) by (apply Z.pow_le_mono_r; lia). lia.
  - assert (0 <= d \/ d < 0) as [Hd|Hd] by lia.
    + assert (2 ^ d <= 2 ^ (Zpos (digits2_pos p) - 1)) by (apply Z.pow_le_mono_r; lia). lia.
    + rewrite (Z.pow_neg_r 2 d) in Hhi by lia. lia.
Qed.

Lemma digits2_pos_le (p : positive) (d : Z) :
  Zpos p < 2 ^ d -> Zpos (digits2_pos p) <= d.
Proof.
  intros Hhi. pose proof (digits2_pos_bounds p) as [Hlo' _].
  destruct (Z_le_gt_dec (Zpos (digits2_pos p)) d) as [|Hgt]; [done|].
  assert (0 <= d \/ d < 0) as [Hd|Hd] by lia.
  - assert (2 ^ d <= 2 ^ (Zpos (digits2_pos p) - 1)) by (apply Z.pow_le_mono_r; lia). lia.
  - rewrite (Z.pow_neg_r 2 d) in Hhi by lia. lia.
Qed.

Lemma digits2_pos_ge (p : positive) (d : Z) :
  2 ^ (d - 1) <= Zpos p -> d <= Zpos (digits2_pos p).
Proof.
  intros Hlo. pose proof (digits2_pos_bounds p) as [_ Hhi'].
  destruct (Z_le_gt_dec d (Zpos (digits2_pos p))) as [|Hgt]; [done|].
  assert (2 ^ Zpos (digits2_pos p) <= 2 ^ (d - 1)) by (apply Z.pow_le_mono_r; lia). lia.
Qed.

Lemma shr_1_shifted (m0 k : Z) (mrs : shr_record) :
  0 <= m0 -> 0 <= k -> shifted m0 k mrs -> shifted m0 (k + 1) (shr_1 mrs).
Proof.
  intros Hm0 Hk [Hm Hex]. destruct mrs as [m r s]. cbn [shr_m shr_r shr_s] in *.
  assert (0 < 2 ^ k) as Hpow by (apply Z.pow_pos_nonneg; lia).
  assert (0 <= m) as Hmpos by (subst m; apply Z.div_pos; lia).
  assert (m0 / 2 ^ (k + 1) = m / 2) as Hdiv.
  { rewrite Z.pow_add_r, Z.pow_1_r by lia. rewrite <- Z.div_div by lia. by subst m. }
  assert (m0 mod 2 ^ (k + 1) = 0 -> m0 mod 2 ^ k = 0 /\ m mod 2 = 0) as Hmod.
  { intros H0. apply Z.mod_divide in H0; [|lia]. destruct H0 as [q Hq].
    rewrite Z.pow_add_r, Z.pow_1_r in Hq by lia.
    assert (m0 = (2 * q) * 2 ^ k) as Hq' by lia.
    split.
    - rewrite Hq'. apply Z.mod_mul. lia.
    - subst m. rewrite Hq', Z.div_mul by lia. rewrite Z.mul_comm. apply Z.mod_mul. lia. }
  unfold shifted. rewrite Hdiv.
  destruct m as [|p|p]; [| |lia].
  - cbn [shr_1 shr_m shr_r shr_s]. split; [done|].
    intros H0. destruct (Hmod H0) as [H1 _]. destruct (Hex H1) as [-> ->]. done.
  - destruct p as [p|p|]; cbn [shr_1 shr_m shr_r shr_s].
    + split; [by rewrite (Pos2Z.inj_xI p); apply Z.div_unique with 1; lia|].
      intros H0. destruct (Hmod H0) as [_ H2]. rewrite Pos2Z.inj_xI in H2.
      rewrite Z.add_comm, Z.mul_comm, Z.mod_add in H2 by lia. done.
    + split; [by rewrite (Pos2Z.inj_xO p); apply Z.div_unique with 0; lia|].
      intros H0. destruct (Hmod H0) as [H1 _]. destruct (Hex H1) as [-> ->]. done.
    + split; [done|]. intros H0. destruct (Hmod H0) as [_ H2]. done.
Qed.

Lemma iter_pos_shr_1_shifted (m0 : Z) (p : positive) :
  0 <= m0 ->
  forall k mrs, 0 <= k -> shifted m0 k mrs ->
    shifted m0 (k + Zpos p) (SpecFloat.iter_pos shr_1 p mrs).
Proof.
  intros Hm0. induction p as [p IH|p IH|]; intros k mrs Hk Hs; cbn [SpecFloat.iter_pos].
  - replace (k + Zpos p~1) with (k + 1 + Zpos p + Zpos p) by lia.
    apply IH; [lia|]. apply IH; [lia|]. by apply shr_1_shifted.
  - replace (k + Zpos p~0) with (k + Zpos p + Zpos p) by lia.
    apply IH; [lia|]. by apply IH.
  - by apply shr_1_shifted.
Qed.

(** Rounding to nearest even after the shift: the result is the quotient
    or its successor, and the quotient itself when the division is exact. *)
Lemma round_after_shift (m : positive) (e n : Z) :
  0 <= n ->
  exists m1,
    Zpos m / 2 ^ n <= m1 <= Zpos m / 2 ^ n + 1 /\
    (Zpos m mod 2 ^ n = 0 -> m1 = Zpos m / 2 ^ n) /\
    forall mrs e',
      shr (shr_record_of_loc (Zpos m) loc_Exact) e n = (mrs, e') ->
      e' = e + n /\ round_nearest_even (shr_m mrs) (loc_of_shr_record mrs) = m1.
Proof.
  intros Hn. destruct n as [|p|p]; [| |lia].
  - exists (Zpos m). rewrite Z.pow_0_r, Z.div_1_r. split; [lia|]. split; [done|].
    intros mrs e' [= <- <-]. split; [lia|]. done.
  - pose proof (iter_pos_shr_1_shifted (Zpos m) p ltac:(lia) 0
                  (shr_record_of_loc (Zpos m) loc_Exact) ltac:(lia)) as Hs.
    destruct Hs as [Hm Hex].
    { split; cbn; [by rewrite Z.div_1_r|done]. }
    rewrite Z.add_0_l in Hm, Hex.
    set (mrs0 := SpecFloat.iter_pos shr_1 p (shr_record_of_loc (Zpos m) loc_Exact)) in *.
    exists (round_nearest_even (shr_m mrs0) (loc_of_shr_record mrs0)).
    split; [|split].
    + rewrite <- Hm. destruct mrs0 as [m' [] []]; cbn; try destruct (Z.even m'); lia.
    + intros H0. destruct (Hex H0) as [Hr Hs]. rewrite <- Hm.
      destruct mrs0 as [m' r s]. cbn in Hr, Hs. by subst.
    + intros mrs e' [= <- <-]. done.
Qed.


Lemma fexp_binary32 (x : Z) : fexp prec emax x = Z.max (x - 24) (-149).
Proof. reflexivity. Qed.

(** What [binary_round_aux] returns for an exact positive mantissa that is
    at least as fine as the target exponent [e1], below overflow. *)
Lemma binary_round_aux_exact (sx : bool) (m : positive) (e : Z) :
  let e1 := Z.max (Zpos (digits2_pos m) + e - 24) (-149) in
  e <= e1 < 104 ->
  exists m1,
    Zpos m / 2 ^ (e1 - e) <= m1 <= Zpos m / 2 ^ (e1 - e) + 1 /\
    (Zpos m mod 2 ^ (e1 - e) = 0 -> m1 = Zpos m / 2 ^ (e1 - e)) /\
    m1 < 2 ^ 24 + 1 /\
    binary_round_aux prec emax sx (Zpos m) e loc_Exact =
      if m1 =? 0 then S754_zero sx
      else if m1 <? 2 ^ 24 then S754_finite sx (Z.to_pos m1) e1
      else S754_finite sx 8388608 (e1 + 1).
Proof.
  intros e1 He1.
  destruct (round_after_shift m e (e1 - e)) as (m1 & Hm1 & Hexact & Hshr); [lia|].
  exists m1. split; [exact Hm1|]. split; [exact Hexact|].
  pose proof (digits2_pos_bounds m) as [_ Hhi].
  assert (0 < 2 ^ (e1 - e)) as Hpow by (apply Z.pow_pos_nonneg; lia).
  assert (Zpos m / 2 ^ (e1 - e) < 2 ^ 24) as Hq.
  { apply Z.div_lt_upper_bound; [lia|]. rewrite <- Z.pow_add_r by lia.
    eapply Z.lt_le_trans; [exact Hhi|]. apply Z.pow_le_mono_r; lia. }
  assert (0 <= Zpos m / 2 ^ (e1 - e)) as Hq0 by (apply Z.div_pos; lia).
  split; [lia|].
  unfold binary_round_aux, shr_fexp at 1. rewrite fexp_binary32. cbn [Zdigits2].
  fold e1. destruct (shr _ e (e1 - e)) as [mrs e'] eqn:Hs.
  destruct (Hshr mrs e' eq_refl) as [-> ->].
  replace (e + (e1 - e)) with e1 by lia.
  unfold shr_fexp. rewrite fexp_binary32.
  destruct m1 as [|p1|p1]; [| |lia].
  - cbn [Zdigits2 shr_record_of_loc]. unfold shr.
    destruct (Z.max (0 + e1 - 24) (-149) - e1) eqn:Hn; [done| lia |done].
  - cbn [Zdigits2 shr_record_of_loc].
    change (Z.pos p1 =? 0) with false. cbn match.
    destruct (Z.ltb_spec (Zpos p1) (2 ^ 24)) as [Hlt|Hge].
    + pose proof (digits2_pos_le p1 24 Hlt) as Hd. unfold shr.
      destruct (Z.max (Zpos (digits2_pos p1) + e1 - 24) (-149) - e1) eqn:Hn;
        [|lia|]; cbn [shr_m]; unfold prec, emax;
        (destruct (Z.leb_spec e1 (128 - 24)); [done|lia]).
    + assert (Zpos p1 = 2 ^ 24) as Hp1 by lia.
      change (2 ^ 24) with (Zpos 16777216) in Hp1. injection Hp1 as ->.
      change (Zpos (digits2_pos 16777216)) with 25.
      replace (Z.max (25 + e1 - 24) (-149) - e1) with 1 by lia.
      cbn [shr SpecFloat.iter_pos shr_1 shr_m]. unfold prec, emax.
      destruct (Z.leb_spec (e1 + 1) (128 - 24)); [done|lia].
Qed.

Lemma pos_iter_xO (p d : positive) :
  Zpos (Pos.iter xO p d) = Zpos p * 2 ^ Zpos d.
Proof.
  induction d as [|d IH] using Pos.peano_ind.
  - cbn. lia.
  - rewrite Pos.iter_succ, Pos2Z.inj_xO, IH, Pos2Z.inj_succ, Z.pow_succ_r by lia. lia.
Qed.

(** The product [0.1f * v] for a finite [v] of magnitude at most 1 is zero
    or a float of magnitude at most [0.1f]: rounding does not step over
    the representable bound. *)
Lemma mul_tenth_bounded (s : bool) (m : positive) (e : Z) :
  Zpos m <= 2 ^ (- e) ->
  let y := SFmul prec emax (S754_finite false 13421773 (-27)) (S754_finite s m e) in
  y = S754_zero s \/
  exists my ey,
    y = S754_finite s my ey /\ ey <= -27 /\ Zpos my <= 13421773 * 2 ^ (-27 - ey).
Proof.
  intros Hm y. subst y. unfold SFmul. cbn [xorb].
  assert (e <= 0) as He.
  { destruct (Z_le_gt_dec e 0); [done|]. rewrite Z.pow_neg_r in Hm by lia. lia. }
  assert (0 < 2 ^ (- e)) as Hpe by (apply Z.pow_pos_nonneg; lia).
  set (pm := (13421773 * m)%positive).
  assert (Zpos pm = 13421773 * Zpos m) as Hpm by (subst pm; apply Pos2Z.inj_mul).
  set (d := Zpos (digits2_pos pm)).
  assert (24 <= d) as Hd24.
  { apply digits2_pos_ge. change (2 ^ (24 - 1)) with 8388608. lia. }
  assert (d <= 24 - e) as Hdle.
  { apply digits2_pos_le. replace (24 - e) with (24 + - e) by lia.
    rewrite Z.pow_add_r by lia. change (2 ^ 24) with 16777216. nia. }
  destruct (binary_round_aux_exact s pm (-27 + e)) as (m1 & Hm1 & Hexact & Hm1hi & ->);
    [fold d; lia|].
  fold d in Hm1, Hexact |- *.
  set (e1 := Z.max (d + (-27 + e) - 24) (-149)) in *.
  set (n := e1 - (-27 + e)) in *.
  assert (0 <= n) as Hn by lia.
  assert (0 < 2 ^ n) as Hpn by (apply Z.pow_pos_nonneg; lia).
  assert (e1 <= -27) as He1 by lia.
  set (B := 13421773 * 2 ^ (-27 - e1)).
  assert (0 < 2 ^ (-27 - e1)) as HpB by (apply Z.pow_pos_nonneg; lia).
  assert (B * 2 ^ n = 13421773 * 2 ^ (- e)) as HB.
  { subst B. rewrite <- Z.mul_assoc, <- Z.pow_add_r by lia. do 2 f_equal. lia. }
  assert (Zpos pm <= B * 2 ^ n) as Hle by (rewrite HB, Hpm; lia).
  assert (Zpos pm / 2 ^ n <= B) as Hq.
  { apply Z.div_le_upper_bound; lia. }
  assert (0 <= Zpos pm / 2 ^ n) as Hq0 by (apply Z.div_pos; lia).
  assert (m1 <= B) as Hm1B.
  { destruct (Z_lt_le_dec (Zpos pm / 2 ^ n) B) as [Hlt|Hge]; [lia|].
    assert (Zpos pm / 2 ^ n = B) as Heq by lia.
    pose proof (Z.mul_div_le (Zpos pm) (2 ^ n) Hpn) as Hfloor.
    rewrite Heq in Hfloor.
    assert (Zpos pm = B * 2 ^ n) as Hex by lia.
    rewrite Hexact; [lia|]. rewrite Hex. apply Z.mod_mul. lia. }
  destruct (Z.eqb_spec m1 0) as [H0|H0]; [by left|right].
  destruct (Z.ltb_spec m1 (2 ^ 24)) as [Hlt|Hge].
  - exists (Z.to_pos m1), e1. split; [done|]. split; [done|].
    rewrite Z2Pos.id by lia. exact Hm1B.
  - exists 8388608%positive, (e1 + 1). split; [done|].
    assert (m1 = 2 ^ 24) as -> by lia. change (2 ^ 24) with 16777216 in *.
    subst B.
    assert (1 <= -27 - e1) as Hgap.
    { destruct (Z_le_gt_dec 1 (-27 - e1)); [done|].
      replace (-27 - e1) with 0 in Hm1B by lia. cbn in Hm1B. lia. }
    split; [lia|].
    replace (-27 - e1) with (Z.succ (-27 - (e1 + 1))) in Hm1B by lia.
    rewrite Z.pow_succ_r in Hm1B by lia. lia.
Qed.

(** Adding to [0.9f] a float of magnitude at most [0.1f]: the sum rounds
    to a float between [13421772 * 2 ^ -24] and [1.0]. *)
Lemma add_nine_tenths_bounded (s : bool) (my : positive) (ey : Z) :
  ey <= -27 -> Zpos my <= 13421773 * 2 ^ (-27 - ey) ->
  exists mr er,
    SFadd prec emax (S754_finite false 15099494 (-24)) (S754_finite s my ey)
      = S754_finite false mr er /\
    ((er = -24 /\ 13421772 <= Zpos mr < 2 ^ 24) \/
     (er = -23 /\ mr = 8388608%positive)).
Proof.
  intros Hey Hmy. unfold SFadd. rewrite Z.min_r by lia.
  unfold shl_align. rewrite Z.sub_diag.
  destruct (ey - -24) as [|k|k] eqn:Hk; [lia|lia|].
  cbn [fst]. unfold cond_Zopp. rewrite pos_iter_xO.
  set (T := 2 ^ (-27 - ey)) in *.
  assert (0 < T) as HT by (apply Z.pow_pos_nonneg; lia).
  assert (2 ^ Zpos k = 8 * T) as H2k.
  { subst T. replace (Zpos k) with (3 + (-27 - ey)) by lia.
    rewrite Z.pow_add_r by lia. done. }
  rewrite H2k.
  set (S := 15099494 * (8 * T) + (if s then - Zpos my else Zpos my)).
  assert (107374179 * T <= S <= 134217725 * T) as HS by (subst S; destruct s; lia).
  destruct S as [|pS|pS] eqn:HSeq; [lia| |lia].
  cbn [binary_normalize]. unfold binary_round.
  assert (Zpos (digits2_pos pS) = Zpos k + 24) as Hd.
  { apply digits2_pos_unique.
    replace (Zpos k + 24 - 1) with (26 + (-27 - ey)) by lia.
    replace (Zpos k + 24) with (27 + (-27 - ey)) by lia.
    rewrite !Z.pow_add_r by lia. fold T.
    change (2 ^ 26) with 67108864. change (2 ^ 27) with 134217728. lia. }
  rewrite fexp_binary32, Hd.
  replace (Z.max (Zpos k + 24 + ey - 24) (-149)) with (-24) by lia.
  unfold shl_align. destruct (-24 - ey) as [|k'|k'] eqn:Hk'; [lia| |lia].
  destruct (binary_round_aux_exact false pS ey) as (m1 & Hm1 & _ & _ & ->);
    [rewrite Hd; lia|].
  rewrite Hd in Hm1 |- *.
  replace (Z.max (Zpos k + 24 + ey - 24) (-149)) with (-24) in * by lia.
  replace (-24 - ey) with (Zpos k) in Hm1 by lia. rewrite H2k in Hm1.
  assert (13421772 <= Zpos pS / (8 * T)) as Hlo.
  { apply Z.div_le_lower_bound; lia. }
  assert (Zpos pS / (8 * T) < 16777216) as Hhi.
  { apply Z.div_lt_upper_bound; lia. }
  destruct (Z.eqb_spec m1 0) as [H0|H0]; [lia|].
  change (2 ^ 24) with 16777216.
  destruct (Z.ltb_spec m1 16777216) as [Hlt|Hge].
  - exists (Z.to_pos m1), (-24). split; [done|]. left. split; [done|].
    rewrite Z2Pos.id by lia. lia.
  - exists 8388608%positive, (-23). split; [done|]. right. done.
Qed.

Lemma compare_cont_Z (a b : positive) :
  Pos.compare_cont Eq a b = (Zpos a ?= Zpos b).
Proof. reflexivity. Qed.

Lemma SFleb_same_exponent (m1 m2 : positive) (e : Z) :
  (m1 <= m2)%positive ->
  SFleb (S754_finite false m1 e) (S754_finite false m2 e) = true.
Proof.
  intros Hle. unfold SFleb, SFcompare. rewrite Z.compare_refl.
  rewrite compare_cont_Z.
  destruct (Z.compare_spec (Zpos m1) (Zpos m2)); [done|done|lia].
Qed.

Lemma SFleb_lower_exponent (m1 m2 : positive) (e1 e2 : Z) :
  e1 < e2 ->
  SFleb (S754_finite false m1 e1) (S754_finite false m2 e2) = true.
Proof.
  intros Hlt. unfold SFleb, SFcompare.
  by rewrite (proj2 (Z.compare_lt_iff e1 e2) Hlt).
Qed.

(** A valid single-precision number between [-1.0] and [1.0] is a zero or
    has magnitude [m * 2 ^ e] with [m <= 2 ^ (- e)]. *)
Lemma unit_range_cases (v : spec_float) :
  valid_binary prec emax v = true ->
  SFleb (S754_finite true 8388608 (-23)) v = true ->
  SFleb v (S754_finite false 8388608 (-23)) = true ->
  (exists s, v = S754_zero s) \/
  (exists s m e, v = S754_finite s m e /\ Zpos m <= 2 ^ (- e)).
Proof.
  intros Hvalid Hlo Hhi. destruct v as [s|s| |s m e].
  - left. by exists s.
  - destruct s; discriminate.
  - discriminate.
  - right. exists s, m, e. split; [done|].
    cbn [valid_binary] in Hvalid. unfold bounded, canonical_mantissa in Hvalid.
    apply andb_prop in Hvalid as [Hcanon _]. apply Z.eqb_eq in Hcanon.
    rewrite fexp_binary32 in Hcanon.
    pose proof (digits2_pos_bounds m) as [_ Hm].
    assert (Zpos m < 2 ^ 24) as Hm24.
    { eapply Z.lt_le_trans; [exact Hm|]. apply Z.pow_le_mono_r; lia. }
    assert (e < -23 -> Zpos m <= 2 ^ (- e)) as Hsmall.
    { intros He. apply Z.lt_le_incl. eapply Z.lt_le_trans; [exact Hm24|].
      apply Z.pow_le_mono_r; lia. }
    unfold SFleb, SFcompare in Hlo, Hhi. rewrite compare_cont_Z in Hlo, Hhi.
    change (2 ^ (- -23)) with 8388608 in Hsmall |- *.
    destruct s.
    + destruct (Z.compare_spec (-23) e) as [<-|He|He]; [|discriminate|by apply Hsmall].
      change (2 ^ (- -23)) with 8388608.
      destruct (Z.compare_spec 8388608 (Zpos m)); [lia|discriminate|lia].
    + destruct (Z.compare_spec e (-23)) as [->|He|He]; [|by apply Hsmall|discriminate].
      change (2 ^ (- -23)) with 8388608.
      destruct (Z.compare_spec (Zpos m) 8388608); [lia|lia|discriminate].
Qed.

Lemma b32_literals :
  b32_lit 0.9 = S754_finite false 15099494 (-24) /\
  b32_lit 0.1 = S754_finite false 13421773 (-27) /\
  b32_lit 1.0 = S754_finite false 8388608 (-23) /\
  b32_lit (-1.0) = S754_finite true 8388608 (-23).
Proof. by vm_compute. Qed.

(** The flicker expression for a sine between -1 and 1: a positive float
    with exponent -24 and mantissa from 13421772 on, or 1.0. *)
Lemma flicker_between (v : spec_float) :
  valid_binary prec emax v = true ->
  SFleb (b32_lit (-1.0)) v = true ->
  SFleb v (b32_lit 1.0) = true ->
  exists mr er,
    SFadd prec emax (b32_lit 0.9) (SFmul prec emax (b32_lit 0.1) v)
      = S754_finite false mr er /\
    ((er = -24 /\ 13421772 <= Zpos mr < 2 ^ 24) \/
     (er = -23 /\ mr = 8388608%positive)).
Proof.
  destruct b32_literals as (-> & -> & -> & ->).
  intros Hvalid Hlo Hhi.
  destruct (unit_range_cases v Hvalid Hlo Hhi) as [[s ->]|(s & m & e & -> & Hm)].
  - cbn [SFmul SFadd]. eexists _, _. split; [reflexivity|]. left. by vm_compute.
  - destruct (mul_tenth_bounded s m e Hm) as [->|(my & ey & -> & Hey & Hmy)].
    + cbn [SFadd]. eexists _, _. split; [reflexivity|]. left. by vm_compute.
    + exact (add_nine_tenths_bounded s my ey Hey Hmy).
Qed.

Lemma between_SFleb (mr : positive) (er : Z) :
  (er = -24 /\ 13421772 <= Zpos mr < 2 ^ 24) \/ (er = -23 /\ mr = 8388608%positive) ->
  SFleb flicker_floor (S754_finite false mr er) = true /\
  SFleb (S754_finite false mr er) (b32_lit 1.0) = true.
Proof.
  destruct b32_literals as (_ & _ & -> & _).
  intros [[-> Hmr]|[-> ->]].
  - split; [apply SFleb_same_exponent; lia | by apply SFleb_lower_exponent].
  - split; [by apply SFleb_lower_exponent | by apply SFleb_same_exponent].
Qed.

Lemma between_SF2Q (mr : positive) (er : Z) :
  (er = -24 /\ 13421772 <= Zpos mr < 2 ^ 24) \/ (er = -23 /\ mr = 8388608%positive) ->
  (13421772 # 16777216 <= SF2Q (S754_finite false mr er) <= 1)%Q.
Proof.
  intros [[-> Hmr]|[-> ->]]; [|by vm_compute].
  change (2 ^ 24) with 16777216 in Hmr.
  unfold SF2Q, cond_Zopp. change (2 ^ (-24))%Q with (1 # 16777216)%Q.
  unfold Qle, Qmult, inject_Z. cbn [Qnum Qden]. lia.
Qed.

(** C5 (amended): for every elapsed time the flicker multiplier computed
    in RenderScene is the single-precision value of
    [0.9f + 0.1f * sin(time * 15.0f)]; whenever the sine is a number
    between -1 and 1 the multiplier lies between [13421772 * 2 ^ -24]
    (0.79999995..., below 0.8, taken at sine -1) and 1.0 (taken at sine 1);
    with a shader manager attached each frame pushes the spotlight's
    diffuse and ambient colours multiplied by it, and with a null pointer
    the frame is undefined before anything is pushed. *)
Theorem flicker_binary32_range
    (render : routine -> M unit) (time : spec_float) (s : SceneManager) :
  let sine := sinf (SFmul prec emax time (b32_lit 15.0)) in
  valid_binary prec emax sine = true ->
  SFleb (b32_lit (-1.0)) sine = true ->
  SFleb sine (b32_lit 1.0) = true ->
  flicker time
    = SFadd prec emax (b32_lit 0.9) (SFmul prec emax (b32_lit 0.1) sine) /\
  SFleb flicker_floor (flicker time) = true /\
  SFleb (flicker time) (b32_lit 1.0) = true /\
  (13421772 # 16777216 <= SF2Q (flicker time) <= 1)%Q /\
  (sine = b32_lit (-1.0) -> flicker time = flicker_floor) /\
  (sine = b32_lit 1.0 -> flicker time = b32_lit 1.0) /\
  RenderScene render time s =
    match m_pShaderManager s with
    | Some log =>
        in_order render render_order
          (set_shader
             (Some (log ++
                [setVec3Value "spotLight.diffuse"
                   (vec3_mul_scalar (mk_vec3 (lit 0.9) (lit 0.55) (lit 0.2))
                                    (flicker time));
                 setVec3Value "spotLight.ambient"
                   (vec3_mul_scalar (mk_vec3 (lit 0.08) (lit 0.05) (lit 0.02))
                                    (flicker time))]))
             s)
    | None => Undefined NullDereference
    end.
Proof.
  intros sine Hvalid Hlo Hhi.
  assert (flicker time
          = SFadd prec emax (b32_lit 0.9) (SFmul prec emax (b32_lit 0.1) sine))
    as Hflicker by reflexivity.
  split; [exact Hflicker|].
  destruct (flicker_between sine Hvalid Hlo Hhi) as (mr & er & Hvalue & Hrange).
  rewrite Hflicker.
  split; [rewrite Hvalue; by apply between_SFleb|].
  split; [rewrite Hvalue; by apply between_SFleb|].
  split; [rewrite Hvalue; by apply between_SF2Q|].
  split; [intros ->; by vm_compute|]. split; [intros ->; by vm_compute|].
  rewrite <- Hflicker.
  destruct (m_pShaderManager s) as [log|] eqn:E.
  - exact (RenderScene_with_shader render time s log E).
  - exact (RenderScene_without_shader render time s E).
Qed.

End FlickerRange.

(** * The properties on the symbolic platform *)

Module Witnesses.
Import Symbolic.

Definition floor_scale : vec3 := mk_vec3 (SLit 20.0) (SLit 1.0) (SLit 15.0).
Definition floor_position : vec3 := mk_vec3 (SLit 0.0) (SLit (-1.0)) (SLit 0.0).

(** The floor's transformation, pushed to a live shader manager. *)
Lemma SetTransformations_pushes_model_matrix_witness :
  SetTransformations floor_scale (SLit 0.0) (SLit 0.0) (SLit 0.0) floor_position fresh
  = Returns tt (set_shader (Some [setMat4Value "model"
      (SProduct (SProduct (SProduct (SProduct
         (STranslate floor_position)
         (SRotate (SRadians (SLit 0.0)) (mk_vec3 (SLit 0.0) (SLit 0.0) (SLit 1.0))))
         (SRotate (SRadians (SLit 0.0)) (mk_vec3 (SLit 0.0) (SLit 1.0) (SLit 0.0))))
         (SRotate (SRadians (SLit 0.0)) (mk_vec3 (SLit 1.0) (SLit 0.0) (SLit 0.0))))
         (SScale floor_scale))]) fresh).
Proof.
  apply (SetTransformations_pushes_model_matrix fresh []). reflexivity.
Defined.

(** C1 as stated fails on a manager built with a null shader manager:
    the call returns and no model matrix has been pushed anywhere. *)
Lemma SetTransformations_null_shader_pushes_nothing :
  exists s',
    SetTransformations floor_scale (SLit 0.0) (SLit 0.0) (SLit 0.0) floor_position
                       no_shader = Returns tt s' /\
    ~ (exists log m, m_pShaderManager s' = Some (log ++ [setMat4Value "model" m])).
Proof.
  exists no_shader. split; [reflexivity|].
  intros (log & m & Hlog). discriminate Hlog.
Qed.
(** Three registrations with distinct tags: the third tag sits in slot 2
    and its handle, 3, ends up on unit GL_TEXTURE0 + 2. *)
Definition three_registrations : list (string * string * Z) :=
  [("textures/tile.jpg", "floor_tile", gen_name (gl_context fresh));
   ("textures/baseboard.png", "baseboard", gen_name (gl_context loaded1));
   ("textures/pasta.jpg", "pasta", gen_name (gl_context loaded2))].

Lemma three_registered : Registered fresh three_registrations loaded3.
Proof.
  unfold three_registrations.
  apply (Registered_cons fresh loaded1 loaded3
           "textures/tile.jpg" "floor_tile"); [by vm_compute|].
  apply (Registered_cons loaded1 loaded2 loaded3
           "textures/baseboard.png" "baseboard"); [by vm_compute|].
  apply (Registered_cons loaded2 loaded3 loaded3
           "textures/pasta.jpg" "pasta"); [by vm_compute|].
  apply Registered_nil.
Qed.

Lemma slot_index_is_registration_order_witness :
  FindTextureSlot "pasta" loaded3 = Returns 2 loaded3 /\
  exists s',
    BindGLTextures loaded3 = Returns tt s' /\
    texture_units (gl_context s') !! (GL_TEXTURE0 + 2) = Some 3.
Proof.
  apply (slot_index_is_registration_order (Some []) [] [] three_registrations
           loaded3 2 "textures/pasta.jpg" "pasta" 3).
  - exact three_registered.
  - apply (bool_decide_unpack _). by vm_compute.
  - by vm_compute.
Defined.

(** "steel" names no material of the scene, and yet the answer is true. *)
Lemma FindMaterial_unmatched_tag_returns_true_witness :
  FindMaterial "steel" grey prepared = Returns (true, grey) prepared.
Proof.
  apply FindMaterial_unmatched_tag_returns_true.
  - by vm_compute.
  - vm_compute. repeat constructor; discriminate.
Defined.

Lemma CreateGLTexture_unsupported_channels_witness :
  exists s',
    CreateGLTexture "textures/gray.png" "gray" prepared = Returns false s' /\
    m_textureIDs s' = m_textureIDs prepared /\
    m_loadedTextures s' = m_loadedTextures prepared.
Proof.
  apply (CreateGLTexture_unsupported_channels prepared "textures/gray.png" "gray"
           {| img_width := 2; img_height := 2; img_colorChannels := 1;
              img_data := [0; 85; 170; 255] |}).
  - by vm_compute.
  - by vm_compute.
  - by vm_compute.
Defined.

Lemma prepared_wf : wf prepared.
Proof. split; [split; by vm_compute | by vm_compute]. Qed.

(** "meatball" is both a texture (slot 10, handle 11) and a material. *)
Lemma lookups_return_first_match_witness :
  FindTextureID "meatball" prepared = Returns 11 prepared /\
  FindTextureSlot "meatball" prepared = Returns 10 prepared /\
  FindMaterial "meatball" grey prepared =
    Returns (true, material 0.4 0.2 0.1 0.1 0.05 0.03 8.0 "grey") prepared.
Proof.
  destruct (lookups_return_first_match prepared "meatball" prepared_wf)
    as [Htex Hmat].
  destruct (Htex (take 10 (registered prepared))
                 (mk_texture "meatball" 11)
                 (drop 11 (registered prepared))) as [Hid Hslot].
  { by vm_compute. }
  { vm_compute. repeat constructor; discriminate. }
  { by vm_compute. }
  split; [exact Hid|]. split; [exact Hslot|].
  apply (Hmat (take 8 (m_objectMaterials prepared))
              (material 0.4 0.2 0.1 0.1 0.05 0.03 8.0 "meatball")
              (drop 9 (m_objectMaterials prepared)) grey).
  - by vm_compute.
  - vm_compute. repeat constructor; discriminate.
  - by vm_compute.
Defined.

(** Destroying the twelve scene textures generates the names 13 to 24. *)
Lemma DestroyGLTextures_regenerates_handles_witness :
  exists s',
    DestroyGLTextures prepared = Returns tt s' /\
    m_textureIDs s' !! 0%nat = Some (mk_texture "floor_tile" 13) /\
    m_loadedTextures s' = 12.
Proof.
  destruct (DestroyGLTextures_regenerates_handles prepared prepared_wf)
    as (s' & names & Hrun & _ & _ & _ & _ & _ & _ & Hcount & _).
  exists s'. split; [exact Hrun|].
  split; [|exact Hcount].
  vm_compute in Hrun. injection Hrun as <-. by vm_compute.
Defined.

(** With the stand-in routines the log shows the order of a frame. *)
Lemma RenderScene_fixed_order_witness :
  RenderScene announce (SLit 0.0) fresh
  = Returns tt (set_shader
      (Some (flicker_uniforms (SLit 0.0) ++
             map (fun r => setBoolValue (routine_name r) true) render_order))
      fresh) /\
  RenderScene announce (SLit 0.0) no_shader = Undefined NullDereference.
Proof.
  split.
  - rewrite (RenderScene_fixed_order announce (SLit 0.0) fresh). by vm_compute.
  - rewrite (RenderScene_fixed_order announce (SLit 0.0) no_shader). reflexivity.
Defined.

(** C8 as stated fails on a manager built with a null shader manager: the
    invocation is undefined at the first flicker push, so it neither
    updates the uniforms nor reaches a routine, although the fifteen
    routines in their order would return from every state. *)
Lemma RenderScene_null_shader_runs_no_routine :
  RenderScene idle (SLit 0.0) no_shader = Undefined NullDereference /\
  (forall s, in_order idle render_order s = Returns tt s) /\
  ~ (exists s1, RenderScene idle (SLit 0.0) no_shader
                = in_order idle render_order s1).
Proof.
  split; [reflexivity|]. split; [intros s; reflexivity|].
  intros (s1 & Hrun). discriminate Hrun.
Qed.

Lemma CreateGLTexture_when_full_is_undefined_witness :
  m_loadedTextures full = 16 /\
  CreateGLTexture "textures/stripe.png" "one_too_many" full = Undefined OutOfBounds.
Proof.
  split; [by vm_compute|].
  apply (CreateGLTexture_when_full_is_undefined full "textures/stripe.png"
           "one_too_many"
           {| img_width := 1; img_height := 1; img_colorChannels := 4;
              img_data := [10; 20; 30; 255] |}).
  - by vm_compute.
  - right. by vm_compute.
  - by vm_compute.
Defined.

Lemma setters_with_null_shader_witness :
  SetTransformations floor_scale (SLit 0.0) (SLit 0.0) (SLit 0.0) floor_position
                     materials_no_shader = Returns tt materials_no_shader /\
  SetShaderColor (SLit 1.0) (SLit 1.0) (SLit 1.0) (SLit 1.0) materials_no_shader
    = Returns tt materials_no_shader /\
  SetShaderTexture "floor_tile" materials_no_shader = Returns tt materials_no_shader /\
  SetTextureUVScale (SLit 2.0) (SLit 1.5) materials_no_shader
    = Returns tt materials_no_shader /\
  SetShaderMaterial grey "tile" materials_no_shader = Undefined NullDereference.
Proof.
  destruct (setters_with_null_shader materials_no_shader floor_scale floor_position
              (SLit 0.0) (SLit 0.0) (SLit 0.0) (SLit 1.0) (SLit 1.0) (SLit 1.0)
              (SLit 1.0) (SLit 2.0) (SLit 1.5) "floor_tile" "tile" grey eq_refl)
    as (H1 & H2 & H3 & H4 & H5).
  split; [exact H1|]. split; [exact H2|]. split; [exact H3|]. split; [exact H4|].
  apply H5. by vm_compute.
Defined.
End Witnesses.

(** * The flicker on a binary32 platform *)

Module FlickerWitnesses.
Import Binary32.

#[local] Existing Instance table_libm.
#[local] Existing Instance binary32_glm.
#[local] Existing Instance Symbolic.counting_driver.

Lemma flicker_binary32_range_witness :
  flicker crest_time = b32_lit 1.0 /\
  SFleb flicker_floor (flicker crest_time) = true /\
  SFleb (flicker crest_time) (b32_lit 1.0) = true /\
  (13421772 # 16777216 <= SF2Q (flicker crest_time) <= 1)%Q /\
  RenderScene idle crest_time (SceneManager_new (Some []) [] [])
  = Returns tt (set_shader
      (Some [setVec3Value "spotLight.diffuse"
               (mk_vec3 (b32_lit 0.9) (b32_lit 0.55) (b32_lit 0.2));
             setVec3Value "spotLight.ambient"
               (mk_vec3 (b32_lit 0.08) (b32_lit 0.05) (b32_lit 0.02))])
      (SceneManager_new (Some []) [] [])).
Proof.
  destruct (flicker_binary32_range idle crest_time (SceneManager_new (Some []) [] []))
    as (_ & Hfloor & Hone & Hvalue & _ & Hcrest & Hrun); [by vm_compute ..|].
  split; [apply Hcrest; by vm_compute|].
  split; [exact Hfloor|]. split; [exact Hone|]. split; [exact Hvalue|].
  rewrite Hrun. reflexivity.
Defined.

(** C5 as stated fails in single precision: at 0.31415927 s the sine is
    -1 and the multiplier is [13421772 * 2 ^ -24], which is below 0.8 and
    below the float [0.8f]; it is this value that the frame pushes.  On a
    manager built with a null shader manager nothing is applied at all. *)
Lemma flicker_below_point_eight :
  sinf (SFmul prec emax trough_time (b32_lit 15.0)) = b32_lit (-1.0) /\
  flicker trough_time = S754_finite false 13421772 (-24) /\
  (SF2Q (flicker trough_time) < 0.8)%Q /\
  SFltb (flicker trough_time) (b32_lit 0.8) = true /\
  RenderScene idle trough_time (SceneManager_new (Some []) [] [])
  = Returns tt (set_shader
      (Some [setVec3Value "spotLight.diffuse"
               (vec3_mul_scalar (mk_vec3 (b32_lit 0.9) (b32_lit 0.55) (b32_lit 0.2))
                                (S754_finite false 13421772 (-24)));
             setVec3Value "spotLight.ambient"
               (vec3_mul_scalar (mk_vec3 (b32_lit 0.08) (b32_lit 0.05) (b32_lit 0.02))
                                (S754_finite false 13421772 (-24)))])
      (SceneManager_new (Some []) [] [])) /\
  RenderScene idle trough_time (SceneManager_new None [] [])
  = Undefined NullDereference.
Proof.
  split; [by vm_compute|]. split; [by vm_compute|]. split; [by vm_compute|].
  split; [by vm_compute|]. split; reflexivity.
Qed.

End FlickerWitnesses.

(** * Further properties of the registries and setters *)

Section RegistryProperties.
Context `{G : Glm} `{D : Driver}.

Notation "x <- m ;; k" := (bind m (fun x => k))
  (at level 100, m at next level, right associativity).
Notation "m ;; k" := (bind m (fun _ => k))
  (at level 100, right associativity).

(** ** The scan, case by case *)

(** The fallback of a scan is the scan of whatever comes after. *)
Lemma scan_app pick tag l1 : forall index l2 result,
  scan pick tag index (l1 ++ l2) result
  = scan pick tag index l1 (scan pick tag (index + Z.of_nat (length l1)) l2 result).
Proof.
  induction l1 as [|e l1 IH]; intros index l2 result; cbn [app scan length].
  - by rewrite Z.add_0_r.
  - destruct (String.eqb (tex_tag e) tag); [done|].
    rewrite IH. do 2 f_equal. lia.
Qed.

(** A scan either finds no entry with the tag, or stops at the first. *)
Lemma scan_cases pick tag l : forall index result,
  (Forall (fun x => tex_tag x <> tag) l /\ scan pick tag index l result = result) \/
  (exists pre e post,
      l = pre ++ e :: post /\ Forall (fun x => tex_tag x <> tag) pre /\
      tex_tag e = tag /\
      scan pick tag index l result = pick (index + Z.of_nat (length pre)) e).
Proof.
  induction l as [|x l IH]; intros index result; cbn [scan].
  - left. by split.
  - destruct (String.eqb (tex_tag x) tag) eqn:E.
    + right. exists [], x, l. apply String.eqb_eq in E.
      repeat split; [done..|]. cbn. by rewrite Z.add_0_r.
    + apply String.eqb_neq in E.
      destruct (IH (index + 1) result) as [[Hno Hr] | (pre & e & post & -> & Hpre & He & Hr)].
      * left. split; [by constructor | done].
      * right. exists (x :: pre), e, post. repeat split; [by constructor | done |].
        rewrite Hr. cbn [length]. f_equal. lia.
Qed.

(** ** Lookups *)

(** X1: On a well-formed registry FindTextureSlot always returns, and its
    result is either -1, exactly when no registered entry carries the tag,
    or an index below the count of loaded textures whose entry carries the
    tag and whose handle is what FindTextureID returns. *)
Theorem FindTextureSlot_characterised (s : SceneManager) (tag : string) :
  wf s ->
  exists k,
    FindTextureSlot tag s = Returns k s /\
    -1 <= k < m_loadedTextures s /\
    (k = -1 <-> Forall (fun e => tex_tag e <> tag) (registered s)) /\
    (0 <= k ->
     exists e, m_textureIDs s !! Z.to_nat k = Some e /\ tex_tag e = tag /\
               FindTextureID tag s = Returns (to_int (tex_ID e)) s).
Proof.
  intros Hwf. pose proof (registered_length s Hwf) as Hlen.
  unfold FindTextureSlot, FindTextureID. rewrite !find_texture_spec by done.
  destruct (scan_cases (fun index _ => index) tag (registered s) 0 (-1))
    as [[Hno Hr] | (pre & e & post & Hsplit & Hpre & He & Hr)].
  - exists (-1). rewrite Hr. destruct Hwf as [Hn _].
    repeat split; [lia | lia | done | lia].
  - eexists. split; [by rewrite Hr|]. rewrite Hsplit, length_app in Hlen.
    cbn in Hlen. repeat split; try lia.
    + intros Hall. rewrite Hsplit in Hall.
      apply Forall_app in Hall as [_ Hall]. by inversion Hall.
    + intros _. exists e. rewrite Z.add_0_l, Nat2Z.id. repeat split; [|done|].
      * apply registered_lookup. by rewrite Hsplit, list_lookup_middle.
      * by rewrite Hsplit, scan_first.
Qed.

(** ** Loading with room left *)

Lemma registered_snoc s s' x :
  wf s ->
  m_loadedTextures s < TEXTURE_SLOTS ->
  m_loadedTextures s' = m_loadedTextures s + 1 ->
  m_textureIDs s' = <[Z.to_nat (m_loadedTextures s) := x]> (m_textureIDs s) ->
  wf s' /\ registered s' = registered s ++ [x].
Proof.
  intros [Hn Hlen] Hroom Hcount Harr. unfold TEXTURE_SLOTS in *.
  assert (Hlt : (Z.to_nat (m_loadedTextures s) < length (m_textureIDs s))%nat)
    by (rewrite Hlen; lia).
  split.
  - split; [unfold TEXTURE_SLOTS; lia | by rewrite Harr, length_insert].
  - unfold registered. rewrite Hcount, Harr, Z2Nat.inj_add, Nat.add_1_r by lia.
    erewrite take_S_r by (by apply list_lookup_insert_eq).
    by rewrite take_insert_ge.
Qed.

(** With room left a load always returns: true exactly for an image of
    3 or 4 channels, whose entry is then appended; everything else about
    the manager is as before. *)
Lemma CreateGLTexture_room (s : SceneManager) (filename tag : string) :
  wf s ->
  m_loadedTextures s < 16 ->
  exists b s',
    CreateGLTexture filename tag s = Returns b s' /\
    (b = true <-> exists image, stbi_load filename = Some image /\
                    (img_colorChannels image = 3 \/ img_colorChannels image = 4)) /\
    wf s' /\
    registered s' =
      registered s ++ (if b then [mk_texture tag (gen_name (gl_context s))] else []) /\
    m_loadedTextures s' = m_loadedTextures s + (if b then 1 else 0) /\
    m_pShaderManager s' = m_pShaderManager s /\
    m_objectMaterials s' = m_objectMaterials s.
Proof.
  intros Hwf Hroom. pose proof Hwf as [Hn Hlen].
  assert (Hlt : (Z.to_nat (m_loadedTextures s) < length (m_textureIDs s))%nat)
    by (rewrite Hlen; unfold TEXTURE_SLOTS; lia).
  destruct (lookup_lt_is_Some_2 _ _ Hlt) as [e0 He0].
  unfold CreateGLTexture.
  destruct s as [sh n arr mats g c].
  cbn [m_loadedTextures m_textureIDs gl_context] in *.
  destruct (stbi_load filename) as [image|] eqn:Himg; cycle 1.
  { exists false. eexists. split; [reflexivity|]. cbn.
    split; [|by rewrite app_nil_r, Z.add_0_r].
    split; [done|]. by intros (image & [=] & _). }
  cbv [bind print gl_gen gl modify get ret store_texture texture_at
       set_gl set_console set_textures set_loaded]. cbn.
  unfold TEXTURE_SLOTS in Hn.
  destruct (img_colorChannels image =? 3) eqn:E3;
    [|destruct (img_colorChannels image =? 4) eqn:E4]; cbn.
  1,2: rewrite bool_decide_true by (unfold TEXTURE_SLOTS; lia); rewrite He0; cbn.
  1,2: rewrite list_lookup_insert_eq by done; cbn.
  1,2: rewrite list_insert_insert_eq.
  1,2: exists true; eexists; split; [reflexivity|].
  1,2: edestruct (registered_snoc (mk_scene sh n arr mats g c)) as [Hwf' Hreg'];
         [exact Hwf | cbn; unfold TEXTURE_SLOTS; lia | | |];
         [| | split; [|split; [exact Hwf'|split; [exact Hreg'|done]]]];
         [reflexivity | reflexivity |].
  - split; [|done]. intros _. exists image. split; [done|]. left. lia.
  - split; [|done]. intros _. exists image. split; [done|]. right. lia.
  - exists false. eexists. split; [reflexivity|]. cbn.
    split; [|by rewrite app_nil_r, Z.add_0_r].
    split; [done|]. intros (image' & [= <-] & [?|?]); lia.
Qed.

(** X2: On a well-formed registry CreateGLTexture has undefined behaviour
    in exactly one situation: sixteen textures are registered and the file
    decodes to 3 or 4 channels.  In every other case it returns. *)
Theorem CreateGLTexture_faults_only_when_full
    (s : SceneManager) (filename tag : string) :
  wf s ->
  (exists f, CreateGLTexture filename tag s = Undefined f) <->
  (m_loadedTextures s = 16 /\
   exists image, stbi_load filename = Some image /\
                 (img_colorChannels image = 3 \/ img_colorChannels image = 4)).
Proof.
  intros Hwf. pose proof Hwf as [Hn Hlen]. unfold TEXTURE_SLOTS in Hn.
  destruct (decide (m_loadedTextures s < 16)) as [Hroom | Hfull].
  - destruct (CreateGLTexture_room s filename tag Hwf Hroom) as (b & s' & Hrun & _).
    rewrite Hrun. split; [by intros [f [=]] | lia].
  - assert (Hcount : m_loadedTextures s = 16) by lia.
    unfold CreateGLTexture.
    destruct (stbi_load filename) as [image|] eqn:Himg; cycle 1.
    { split; [by intros [f [=]] | by intros (_ & image & [=] & _)]. }
    cbv [bind print gl_gen gl modify get ret store_texture texture_at]. cbn.
    assert (Hoob : bool_decide (0 <= m_loadedTextures s < TEXTURE_SLOTS) = false).
    { apply bool_decide_false. unfold TEXTURE_SLOTS. lia. }
    destruct (img_colorChannels image =? 3) eqn:E3;
      [|destruct (img_colorChannels image =? 4) eqn:E4]; cbn; rewrite ?Hoob.
    + split; [|by eauto]. intros _. split; [done|].
      exists image. split; [done|]. left. lia.
    + split; [|by eauto]. intros _. split; [done|].
      exists image. split; [done|]. right. lia.
    + split; [by intros [f [=]]|].
      intros (_ & image' & [= <-] & [?|?]); lia.
Qed.

(** What a successful load appends, from the load itself. *)
Lemma CreateGLTexture_appends filename tag s s' :
  wf s ->
  CreateGLTexture filename tag s = Returns true s' ->
  wf s' /\
  registered s' = registered s ++ [mk_texture tag (gen_name (gl_context s))].
Proof.
  intros Hwf Hload.
  destruct (CreateGLTexture_true _ _ _ _ Hload) as (Hn & _ & Harr & Hcount).
  apply registered_snoc; [done | lia | done | done].
Qed.

(** X3: After a successful load under a tag no registered entry carried,
    FindTextureSlot of that tag returns the count of textures there were
    before the load, and FindTextureID the handle the driver generated for
    it. *)
Theorem registration_then_lookup
    (s s' : SceneManager) (filename tag : string) :
  wf s ->
  Forall (fun e => tex_tag e <> tag) (registered s) ->
  CreateGLTexture filename tag s = Returns true s' ->
  FindTextureSlot tag s' = Returns (m_loadedTextures s) s' /\
  FindTextureID tag s' = Returns (to_int (gen_name (gl_context s))) s'.
Proof.
  intros Hwf Hnew Hload.
  destruct (CreateGLTexture_appends _ _ _ _ Hwf Hload) as [Hwf' Hreg].
  pose proof (registered_length s Hwf) as Hlen. destruct Hwf as [Hn _].
  unfold FindTextureSlot, FindTextureID.
  rewrite !find_texture_spec, Hreg, !scan_first by done.
  rewrite Hlen. split; do 2 f_equal. lia.
Qed.

(** X4: A successful load never changes what a tag that was already found
    resolves to, even when the new texture is registered under that same
    tag: the later entry is shadowed by the earlier one. *)
Theorem registration_keeps_earlier_lookups
    (s s' : SceneManager) (filename tag tag' : string) (k i : Z) :
  wf s ->
  CreateGLTexture filename tag s = Returns true s' ->
  FindTextureSlot tag' s = Returns k s ->
  FindTextureID tag' s = Returns i s ->
  k <> -1 ->
  FindTextureSlot tag' s' = Returns k s' /\ FindTextureID tag' s' = Returns i s'.
Proof.
  intros Hwf Hload Hslot Hid Hk.
  destruct (CreateGLTexture_appends _ _ _ _ Hwf Hload) as [Hwf' Hreg].
  unfold FindTextureSlot, FindTextureID in *.
  rewrite find_texture_spec in Hslot, Hid by done.
  injection Hslot as Hslot. injection Hid as Hid.
  rewrite !find_texture_spec, Hreg by done.
  destruct (scan_cases (fun index _ => index) tag' (registered s) 0 (-1))
    as [[_ Hr] | (pre & e & post & Hsplit & Hpre & He & _)]; [congruence|].
  rewrite Hsplit, <- !app_assoc in *. cbn [app].
  rewrite !scan_first in * by done. by subst.
Qed.

(** ** Binding, in general *)

(** Units at or above the end of the run are left alone as well. *)
Lemma bind_calls_frame_above l : forall i st key,
  GL_TEXTURE0 + i + Z.of_nat (length l) <= key ->
  (fold_left gl_step (bind_calls i l) st).2 !! key = st.2 !! key.
Proof.
  induction l as [|e l IH]; intros i st key Hkey; [done|].
  cbn [bind_calls fold_left gl_step]. cbn [length] in Hkey.
  rewrite IH by lia. cbn. apply lookup_insert_ne. lia.
Qed.

Lemma texture_units_after_binding h l key :
  texture_units (h ++ bind_calls 0 l) !! key =
    match decide (GL_TEXTURE0 <= key < GL_TEXTURE0 + Z.of_nat (length l)) with
    | left _ => tex_ID <$> l !! Z.to_nat (key - GL_TEXTURE0)
    | right _ => texture_units h !! key
    end.
Proof.
  unfold texture_units. rewrite fold_left_app.
  destruct (decide _) as [Hin | Hout].
  - destruct (lookup_lt_is_Some_2 l (Z.to_nat (key - GL_TEXTURE0))) as [e He]; [lia|].
    rewrite He. cbn.
    rewrite <- (bind_calls_units l 0 (fold_left gl_step h (GL_TEXTURE0, ∅)) _ e He).
    f_equal. lia.
  - destruct (decide (key < GL_TEXTURE0)).
    + by rewrite bind_calls_frame by lia.
    + by rewrite bind_calls_frame_above by lia.
Qed.

(** X5: On a well-formed registry BindGLTextures returns, leaves the
    registry alone, binds the handle of entry k to unit GL_TEXTURE0 + k for
    every registered entry, and leaves the binding of every other unit as
    it was. *)
Theorem BindGLTextures_binds_loaded_units_only (s : SceneManager) :
  wf s ->
  exists s',
    BindGLTextures s = Returns tt s' /\
    m_textureIDs s' = m_textureIDs s /\
    m_loadedTextures s' = m_loadedTextures s /\
    (forall k e, registered s !! k = Some e ->
       texture_units (gl_context s') !! (GL_TEXTURE0 + Z.of_nat k) = Some (tex_ID e)) /\
    (forall key, ~ (GL_TEXTURE0 <= key < GL_TEXTURE0 + m_loadedTextures s) ->
       texture_units (gl_context s') !! key = texture_units (gl_context s) !! key).
Proof.
  intros Hwf. pose proof (registered_length s Hwf) as Hlen. destruct (Hwf) as [Hn _].
  eexists. split; [by apply BindGLTextures_spec|]. cbn.
  split; [done|]. split; [done|]. split.
  - intros k e Hk. pose proof (lookup_lt_Some _ _ _ Hk).
    rewrite texture_units_after_binding, decide_True by lia.
    replace (Z.to_nat (GL_TEXTURE0 + Z.of_nat k - GL_TEXTURE0)) with k by lia.
    by rewrite Hk.
  - intros key Hkey. rewrite texture_units_after_binding, decide_False; [done|].
    rewrite Hlen. lia.
Qed.

(** X6: Binding twice leaves the same texture on every unit as binding
    once. *)
Theorem BindGLTextures_idempotent (s : SceneManager) :
  wf s ->
  exists s1 s2,
    BindGLTextures s = Returns tt s1 /\
    BindGLTextures s1 = Returns tt s2 /\
    texture_units (gl_context s2) = texture_units (gl_context s1).
Proof.
  intros Hwf.
  eexists _, _. split; [by apply BindGLTextures_spec|].
  split; [by apply BindGLTextures_spec|].
  cbn [gl_context set_gl].
  change (registered (set_gl _ s)) with (registered s).
  apply map_eq. intros key.
  rewrite (texture_units_after_binding (gl_context s ++ _)).
  destruct (decide _) as [Hin | Hout]; [|done].
  by rewrite texture_units_after_binding, decide_True.
Qed.

(** ** Destroying, in general *)

Lemma DestroyGLTextures_spec s :
  wf s ->
  let names := gen_names (Z.to_nat (m_loadedTextures s)) (gl_context s) in
  DestroyGLTextures s
  = Returns tt
      (set_textures (zip_with rehandle (registered s) names
                       ++ drop (Z.to_nat (m_loadedTextures s)) (m_textureIDs s))
         (set_gl (gl_context s ++ map glGenTextures names) s)).
Proof.
  intros Hwf names. pose proof (registered_length s Hwf) as Hreg.
  destruct Hwf as [Hn Hlen]. destruct s as [sh n arr mats h c].
  unfold registered in *. cbn [m_textureIDs m_loadedTextures gl_context] in *.
  unfold DestroyGLTextures. rewrite bind_eq. unfold get. cbn [m_loadedTextures].
  pose proof (DestroyGLTextures_loop (take (Z.to_nat n) arr) []
                (drop (Z.to_nat n) arr) sh n mats h c) as Hloop.
  cbn [app length Z.of_nat] in Hloop. rewrite Hreg, take_drop in Hloop.
  apply Hloop. unfold TEXTURE_SLOTS in *. lia.
Qed.

Lemma scan_index_rehandle tag l : forall names index result,
  length names = length l ->
  scan (fun i _ => i) tag index (zip_with rehandle l names) result
  = scan (fun i _ => i) tag index l result.
Proof.
  induction l as [|e l IH]; intros [|name names] index result Hlen;
    try done. cbn [zip_with scan rehandle tex_tag].
  destruct (String.eqb (tex_tag e) tag); [done|]. apply IH. by injection Hlen.
Qed.

(** X7: DestroyGLTextures keeps the registry well formed and every tag in
    its slot: FindTextureSlot answers after it as it did before. *)
Theorem DestroyGLTextures_keeps_slots (s : SceneManager) :
  wf s ->
  exists s',
    DestroyGLTextures s = Returns tt s' /\
    wf s' /\
    forall tag, exists k,
      FindTextureSlot tag s = Returns k s /\ FindTextureSlot tag s' = Returns k s'.
Proof.
  intros Hwf. pose proof (registered_length s Hwf) as Hreg.
  pose proof Hwf as [Hn Hlen].
  eexists. split; [by apply DestroyGLTextures_spec|].
  set (names := gen_names _ _).
  assert (Hnames : length names = length (registered s))
    by (unfold names; by rewrite gen_names_length).
  assert (Hzip : length (zip_with rehandle (registered s) names)
                 = Z.to_nat (m_loadedTextures s))
    by (rewrite length_zip_with, Hnames, Nat.min_id; done).
  assert (Hwf' : wf (set_textures
                  (zip_with rehandle (registered s) names
                     ++ drop (Z.to_nat (m_loadedTextures s)) (m_textureIDs s))
                  (set_gl (gl_context s ++ map glGenTextures names) s))).
  { split; [done|]. cbn. rewrite length_app, length_drop, Hzip, Hlen.
    unfold TEXTURE_SLOTS in *. lia. }
  split; [done|]. intros tag. eexists.
  unfold FindTextureSlot. rewrite !find_texture_spec by done.
  split; [reflexivity|]. f_equal.
  unfold registered at 1. cbn [m_loadedTextures m_textureIDs set_textures set_gl].
  rewrite take_app_length' by done. by rewrite scan_index_rehandle.
Qed.

(** ** The setters with a shader manager attached *)

Lemma SetTransformations_eval s log scaleXYZ rx ry rz positionXYZ :
  m_pShaderManager s = Some log ->
  exists m, SetTransformations scaleXYZ rx ry rz positionXYZ s
            = Returns tt (set_shader (Some (log ++ [setMat4Value "model" m])) s).
Proof.
  intros E. eexists. unfold SetTransformations.
  rewrite (bind_Returns _ _ _ _ _ (shader_not_null_Some _ _ E)).
  by apply shader_call_eval.
Qed.

Lemma SetShaderColor_eval s log r g b a :
  m_pShaderManager s = Some log ->
  SetShaderColor r g b a s
  = Returns tt (set_shader (Some (log ++ [setIntValue "bUseTexture" 0;
                                           setVec4Value "objectColor" (mk_vec4 r g b a)])) s).
Proof.
  intros E. unfold SetShaderColor.
  rewrite (bind_Returns _ _ _ _ _ (shader_not_null_Some _ _ E)).
  rewrite (bind_Returns _ _ _ _ _ (shader_call_eval _ _ _ E)).
  erewrite shader_call_eval by done.
  by rewrite set_shader_set_shader, <- app_assoc.
Qed.

Lemma SetTextureUVScale_eval s log u v :
  m_pShaderManager s = Some log ->
  SetTextureUVScale u v s
  = Returns tt (set_shader (Some (log ++ [setVec2Value "UVscale" (mk_vec2 u v)])) s).
Proof.
  intros E. unfold SetTextureUVScale.
  rewrite (bind_Returns _ _ _ _ _ (shader_not_null_Some _ _ E)).
  by apply shader_call_eval.
Qed.

Lemma SetShaderTexture_eval s log tag :
  wf s ->
  m_pShaderManager s = Some log ->
  SetShaderTexture tag s
  = Returns tt (set_shader (Some (log ++
      [setIntValue "bUseTexture" 1;
       setSampler2DValue "objectTexture"
         (scan (fun i _ => i) tag 0 (registered s) (-1))])) s).
Proof.
  intros Hwf E. unfold SetShaderTexture.
  rewrite (bind_Returns _ _ _ _ _ (shader_not_null_Some _ _ E)).
  rewrite (bind_Returns _ _ _ _ _ (shader_call_eval _ _ _ E)).
  unfold FindTextureSlot. erewrite bind_Returns by (by apply find_texture_spec).
  change (registered (set_shader _ s)) with (registered s).
  erewrite shader_call_eval by done.
  by rewrite set_shader_set_shader, <- app_assoc.
Qed.

Lemma SetShaderMaterial_eval s log indeterminate tag :
  m_pShaderManager s = Some log ->
  m_objectMaterials s <> [] ->
  SetShaderMaterial indeterminate tag s
  = Returns tt (set_shader (Some (log ++ material_uniforms
      (found_material tag (m_objectMaterials s) indeterminate))) s).
Proof.
  intros E Hne. unfold SetShaderMaterial. rewrite bind_eq. unfold get.
  destruct (m_objectMaterials s) as [|m l] eqn:Emats; [done|]. rewrite <- Emats.
  replace (0 <? Z.of_nat (length (m_objectMaterials s))) with true
    by (rewrite Emats; done).
  rewrite (bind_Returns _ _ _ _ _ (FindMaterial_spec _ _ _)).
  rewrite bool_decide_false by (by rewrite Emats). cbn [negb].
  rewrite (bind_Returns _ _ _ _ _ (shader_call_eval _ _ _ E)).
  erewrite bind_Returns by (by apply shader_call_eval).
  erewrite shader_call_eval by done.
  by rewrite !set_shader_set_shader, <- !app_assoc.
Qed.

(** X8: With a shader manager attached SetShaderTexture pushes
    bUseTexture = 1 and then, as the sampler objectTexture, whatever
    FindTextureSlot returns for the tag; for a tag that is not registered
    that is -1, and the call still returns. *)
Theorem SetShaderTexture_pushes_slot_or_minus_one
    (s : SceneManager) (log : list uniform) (tag : string) :
  wf s ->
  m_pShaderManager s = Some log ->
  exists k,
    FindTextureSlot tag s = Returns k s /\
    SetShaderTexture tag s
    = Returns tt (set_shader (Some (log ++ [setIntValue "bUseTexture" 1;
                                             setSampler2DValue "objectTexture" k])) s) /\
    (Forall (fun e => tex_tag e <> tag) (registered s) -> k = -1).
Proof.
  intros Hwf E. eexists. unfold FindTextureSlot.
  split; [by apply find_texture_spec|].
  split; [by apply SetShaderTexture_eval|].
  intros Hno. by apply scan_none.
Qed.

(** X9: With a shader manager attached and the tag defined,
    SetShaderMaterial pushes the diffuse colour, specular colour and
    shininess of the first material carrying the tag, and nothing of its
    uninitialised local. *)
Theorem SetShaderMaterial_pushes_first_match
    (s : SceneManager) (log : list uniform) (indeterminate : OBJECT_MATERIAL)
    (tag : string) (pre post : list OBJECT_MATERIAL) (m : OBJECT_MATERIAL) :
  m_pShaderManager s = Some log ->
  m_objectMaterials s = pre ++ m :: post ->
  Forall (fun x => mat_tag x <> tag) pre ->
  mat_tag m = tag ->
  SetShaderMaterial indeterminate tag s
  = Returns tt (set_shader (Some (log ++
      [setVec3Value "material.diffuseColor" (diffuseColor m);
       setVec3Value "material.specularColor" (specularColor m);
       setFloatValue "material.shininess" (shininess m)])) s).
Proof.
  intros E Hmats Hpre Hm.
  rewrite (SetShaderMaterial_eval s log) by (by rewrite ?Hmats; destruct pre).
  by rewrite Hmats, found_material_first.
Qed.

(** X10: With a shader manager attached, materials defined and none of
    them carrying the tag, SetShaderMaterial pushes the three fields of its
    uninitialised local [material] to the shader. *)
Theorem SetShaderMaterial_unmatched_pushes_indeterminate
    (s : SceneManager) (log : list uniform) (indeterminate : OBJECT_MATERIAL)
    (tag : string) :
  m_pShaderManager s = Some log ->
  m_objectMaterials s <> [] ->
  Forall (fun x => mat_tag x <> tag) (m_objectMaterials s) ->
  SetShaderMaterial indeterminate tag s
  = Returns tt (set_shader (Some (log ++
      [setVec3Value "material.diffuseColor" (diffuseColor indeterminate);
       setVec3Value "material.specularColor" (specularColor indeterminate);
       setFloatValue "material.shininess" (shininess indeterminate)])) s).
Proof.
  intros E Hne Hno.
  rewrite (SetShaderMaterial_eval s log) by done.
  by rewrite found_material_none.
Qed.

(** Without materials SetShaderMaterial does nothing, whatever the
    shader-manager pointer. *)
Lemma SetShaderMaterial_without_materials
    (s : SceneManager) (indeterminate : OBJECT_MATERIAL) (tag : string) :
  m_objectMaterials s = [] ->
  SetShaderMaterial indeterminate tag s = Returns tt s.
Proof.
  intros E. unfold SetShaderMaterial. rewrite bind_eq. unfold get.
  by rewrite E.
Qed.

(** ** Defining the materials *)

Lemma push_all_spec l : forall s,
  push_all l s = Returns tt (set_materials (m_objectMaterials s ++ l) s).
Proof.
  induction l as [|m l IH]; intros s.
  - cbn. rewrite app_nil_r. by destruct s.
  - cbn [push_all]. destruct l as [|m' l]; [done|].
    rewrite bind_eq. unfold push_back at 1, modify. rewrite IH.
    cbn [m_objectMaterials set_materials]. by rewrite <- app_assoc.
Qed.

Lemma DefineObjectMaterials_spec s :
  DefineObjectMaterials s
  = Returns tt (set_materials (m_objectMaterials s ++ scene_materials) s).
Proof. exact (push_all_spec scene_materials s). Qed.

Lemma scene_materials_tags :
  map mat_tag scene_materials
  = ["tile"; "wood"; "glass"; "wall"; "candle"; "flame"; "baseboard";
     "cushion"; "meatball"; "plate"; "fork"].
Proof. reflexivity. Qed.

Lemma found_material_app tag l1 l2 material :
  Forall (fun x => mat_tag x <> tag) l1 ->
  found_material tag (l1 ++ l2) material = found_material tag l2 material.
Proof.
  intros Hl1. unfold found_material.
  induction Hl1 as [|x l1 Hx _ IH]; [done|]. cbn.
  unfold has_tag at 1. by rewrite (proj2 (String.eqb_neq _ _) Hx).
Qed.

Lemma found_material_member l m material :
  NoDup (map mat_tag l) -> m ∈ l ->
  found_material (mat_tag m) l material = copy_material m material.
Proof.
  intros Hdup Hm. apply list_elem_of_split in Hm as (pre & post & ->).
  apply found_material_first; [|done].
  rewrite map_app in Hdup. cbn [map] in Hdup.
  apply NoDup_app in Hdup as (_ & Hdisj & _).
  apply Forall_forall. intros x Hx Heq. apply (Hdisj (mat_tag x)).
  - apply list_elem_of_fmap. by exists x.
  - rewrite Heq. left.
Qed.

(** X11: DefineObjectMaterials always returns and appends its eleven
    materials after those already defined; each of them is then found under
    its own tag, unless an earlier definition carried that tag. *)
Theorem DefineObjectMaterials_then_FindMaterial
    (s : SceneManager) (m material : OBJECT_MATERIAL) :
  m ∈ scene_materials ->
  Forall (fun x => mat_tag x <> mat_tag m) (m_objectMaterials s) ->
  exists s',
    DefineObjectMaterials s = Returns tt s' /\
    m_objectMaterials s' = m_objectMaterials s ++ scene_materials /\
    FindMaterial (mat_tag m) material s'
    = Returns (true, mk_material (diffuseColor m) (specularColor m) (shininess m)
                                 (mat_tag material)) s'.
Proof.
  intros Hm Hold. eexists. split; [apply DefineObjectMaterials_spec|].
  split; [done|]. rewrite FindMaterial_spec. cbn [m_objectMaterials set_materials].
  rewrite found_material_app by done.
  rewrite found_material_member; [| |done].
  - rewrite bool_decide_false; [done|]. by destruct (m_objectMaterials s).
  - rewrite scene_materials_tags. apply (bool_decide_unpack _). by vm_compute.
Qed.

(** ** Loading the scene's textures *)

Lemma LoadSceneTextures_unfold :
  LoadSceneTextures = load_then scene_textures BindGLTextures.
Proof. reflexivity. Qed.

Lemma load_then_room l k : forall s,
  wf s ->
  m_loadedTextures s + Z.of_nat (length l) <= 16 ->
  exists s1,
    load_then l k s = k s1 /\
    wf s1 /\
    m_loadedTextures s <= m_loadedTextures s1 <= m_loadedTextures s + Z.of_nat (length l) /\
    m_pShaderManager s1 = m_pShaderManager s /\
    m_objectMaterials s1 = m_objectMaterials s /\
    (Forall (fun r => loadable r.1) l ->
     map tex_tag (registered s1) = map tex_tag (registered s) ++ map snd l).
Proof.
  induction l as [|[filename tag] l IH]; intros s Hwf Hroom.
  - exists s. cbn [load_then length map]. rewrite app_nil_r.
    split; [done|]. split; [done|]. split; [lia|]. done.
  - cbn [length] in Hroom.
    destruct (CreateGLTexture_room s filename tag Hwf) as
      (b & s0 & Hrun & Hb & Hwf0 & Hreg0 & Hcount0 & Hsh0 & Hmat0); [lia|].
    destruct (IH s0 Hwf0) as (s1 & Hk & Hwf1 & Hcount1 & Hsh1 & Hmat1 & Hreg1).
    { rewrite Hcount0. destruct b; lia. }
    exists s1. cbn [load_then]. rewrite (bind_Returns _ _ _ _ _ Hrun).
    split; [done|]. split; [done|].
    split; [rewrite Hcount0 in Hcount1; cbn [length]; destruct b; lia|].
    split; [congruence|]. split; [congruence|].
    intros Hall. inversion Hall as [|? ? Hhead Htail]; subst.
    rewrite Hreg1, Hreg0 by done.
    destruct b; [|discriminate (proj2 Hb Hhead)].
    by rewrite map_app, <- app_assoc.
Qed.

(** X12: With at most four textures registered, LoadSceneTextures
    returns whatever the files hold: it keeps the registry well formed,
    registers at most twelve textures and touches neither the materials nor
    the shader-manager pointer. *)
Theorem LoadSceneTextures_returns_with_room (s : SceneManager) :
  wf s ->
  m_loadedTextures s <= 4 ->
  exists s',
    LoadSceneTextures s = Returns tt s' /\
    wf s' /\
    m_loadedTextures s <= m_loadedTextures s' <= m_loadedTextures s + 12 /\
    m_pShaderManager s' = m_pShaderManager s /\
    m_objectMaterials s' = m_objectMaterials s.
Proof.
  intros Hwf Hroom. rewrite LoadSceneTextures_unfold.
  destruct (load_then_room scene_textures BindGLTextures s Hwf)
    as (s1 & Hk & Hwf1 & Hcount & Hsh & Hmat & _); [cbn; lia|].
  rewrite Hk. eexists. split; [by apply BindGLTextures_spec|].
  repeat split; try done; apply Hcount || apply Hwf1.
Qed.

(** With every file loadable, a new manager ends up with the twelve tags
    registered in load order. *)
Lemma LoadSceneTextures_all_loaded p g c :
  Forall (fun r => loadable r.1) scene_textures ->
  exists s',
    LoadSceneTextures (SceneManager_new p g c) = Returns tt s' /\
    wf s' /\
    map tex_tag (registered s') = map snd scene_textures /\
    (forall k e, registered s' !! k = Some e ->
       texture_units (gl_context s') !! (GL_TEXTURE0 + Z.of_nat k) = Some (tex_ID e)) /\
    m_pShaderManager s' = p /\
    m_objectMaterials s' = [].
Proof.
  intros Hall. rewrite LoadSceneTextures_unfold.
  destruct (load_then_room scene_textures BindGLTextures _ (SceneManager_new_wf p g c))
    as (s1 & Hk & Hwf1 & Hcount & Hsh & Hmat & Htags); [cbn; lia|].
  specialize (Htags Hall).
  change (map tex_tag (registered (SceneManager_new p g c))) with (@nil string) in Htags.
  cbn [app] in Htags.
  rewrite Hk. eexists. split; [by apply BindGLTextures_spec|].
  split; [done|]. split; [done|]. split; [|done].
  intros k e He. cbn [gl_context set_gl].
  change (registered (set_gl _ s1)) with (registered s1) in He.
  rewrite texture_units_after_binding, decide_True.
  - replace (Z.to_nat (GL_TEXTURE0 + Z.of_nat k - GL_TEXTURE0)) with k by lia.
    by rewrite He.
  - pose proof (lookup_lt_Some _ _ _ He). lia.
Qed.

(** X13: On a new manager, with each of the twelve files decoding to 3 or
    4 channels, LoadSceneTextures registers all twelve: the k-th tag in load
    order is found in slot k and its handle is bound on unit
    GL_TEXTURE0 + k. *)
Theorem LoadSceneTextures_slots_follow_load_order
    (p : option (list uniform)) (g : list GLcall) (c : list message) :
  Forall (fun r => loadable r.1) scene_textures ->
  exists s',
    LoadSceneTextures (SceneManager_new p g c) = Returns tt s' /\
    m_loadedTextures s' = 12 /\
    forall k tag, map snd scene_textures !! k = Some tag ->
      FindTextureSlot tag s' = Returns (Z.of_nat k) s' /\
      exists e, registered s' !! k = Some e /\ tex_tag e = tag /\
        texture_units (gl_context s') !! (GL_TEXTURE0 + Z.of_nat k) = Some (tex_ID e).
Proof.
  intros Hall.
  destruct (LoadSceneTextures_all_loaded p g c Hall)
    as (s' & Hrun & Hwf & Htags & Hunits & _).
  exists s'. split; [done|].
  pose proof (registered_length s' Hwf) as Hlen.
  split.
  { apply (f_equal length) in Htags. rewrite !length_map, Hlen in Htags.
    cbn in Htags. destruct Hwf as [? _]. lia. }
  intros k tag Hk. rewrite <- Htags, list_lookup_fmap in Hk.
  destruct (registered s' !! k) as [e|] eqn:He; [|done]. injection Hk as Htag.
  pose proof (take_drop_middle _ _ _ He) as Hsplit.
  assert (Hklen : length (take k (registered s')) = k).
  { apply length_take_le. apply Nat.lt_le_incl. by eapply lookup_lt_Some. }
  split; [|exists e; by eauto].
  unfold FindTextureSlot. rewrite find_texture_spec by done.
  rewrite <- Hsplit, scan_first; [by rewrite Hklen | | done].
  assert (Hdup : NoDup (map tex_tag (registered s'))).
  { rewrite Htags. apply (bool_decide_unpack _). by vm_compute. }
  rewrite <- Hsplit, map_app in Hdup. cbn [map] in Hdup.
  apply NoDup_app in Hdup as (_ & Hdisj & _).
  apply Forall_forall. intros x Hx Heq. apply (Hdisj (tex_tag x)).
  - apply list_elem_of_fmap. by exists x.
  - rewrite Heq, Htag. left.
Qed.

End RegistryProperties.

(** * Properties of scene preparation and of a frame *)

Section SceneProperties.
Context `{G : Glm} `{D : Driver} `{!GlmCos} `{!ShapeMeshes}.

Notation "x <- m ;; k" := (bind m (fun x => k))
  (at level 100, m at next level, right associativity).
Notation "m ;; k" := (bind m (fun _ => k))
  (at level 100, right associativity).

Lemma wf_stable : stable wf.
Proof. by intros s x Hwf. Qed.

Lemma scene_ready_stable : stable scene_ready.
Proof. by intros s x Hready. Qed.

Lemma set_shader_same s log :
  m_pShaderManager s = Some log -> set_shader (Some (log ++ [])) s = s.
Proof. intros E. rewrite app_nil_r, <- E. by destruct s. Qed.

Lemma steps_bind I P m1 m1' m2 m2' :
  stable I ->
  steps I P m1 m1' -> steps I P m2 m2' ->
  steps I P (m1 ;; m2) (m1' ;; m2').
Proof.
  intros HI Hfst Hsnd s log Hs E.
  destruct (Hfst s log Hs E) as (new1 & Hm1 & Hm1' & HP1).
  destruct (Hsnd (set_shader (Some (log ++ new1)) s) (log ++ new1))
    as (new2 & Hm2 & Hm2' & HP2); [by apply HI | done |].
  exists (new1 ++ new2).
  rewrite (bind_Returns _ _ _ _ _ Hm1), (bind_Returns _ _ _ _ _ Hm1').
  rewrite Hm2, Hm2', set_shader_set_shader, app_assoc.
  split; [done|]. split; [done|]. by apply Forall_app.
Qed.

Lemma steps_inert I P c :
  meshes_inert -> steps I P (m_basicMeshes c) (m_basicMeshes c).
Proof.
  intros Hinert s log _ E. exists []. rewrite Hinert, set_shader_same by done.
  by repeat split.
Qed.

(** ** The setters, step by step *)

Ltac setter_name :=
  unfold from_setter, setter_names; cbn [uniform_name];
  apply (bool_decide_unpack _); by vm_compute.
Ltac uniform_ok :=
  intros; first [ setter_name | split; [setter_name | by cbn] ].

Lemma steps_SetTransformations I P scaleXYZ rx ry rz positionXYZ :
  (forall m, P (setMat4Value "model" m)) ->
  steps I P (SetTransformations scaleXYZ rx ry rz positionXYZ)
            (SetTransformations scaleXYZ rx ry rz positionXYZ).
Proof.
  intros HP s log _ E.
  destruct (SetTransformations_eval s log scaleXYZ rx ry rz positionXYZ E) as [m Hm].
  eexists. split; [exact Hm|]. split; [exact Hm|]. by repeat constructor.
Qed.

Lemma steps_SetShaderColor I P r g b a :
  P (setIntValue "bUseTexture" 0) ->
  (forall v, P (setVec4Value "objectColor" v)) ->
  steps I P (SetShaderColor r g b a) (SetShaderColor r g b a).
Proof.
  intros HP1 HP2 s log _ E. eexists.
  split; [by apply SetShaderColor_eval|]. split; [by apply SetShaderColor_eval|].
  by repeat constructor.
Qed.

Lemma steps_SetTextureUVScale I P u v :
  (forall x, P (setVec2Value "UVscale" x)) ->
  steps I P (SetTextureUVScale u v) (SetTextureUVScale u v).
Proof.
  intros HP s log _ E. eexists.
  split; [by apply SetTextureUVScale_eval|]. split; [by apply SetTextureUVScale_eval|].
  by repeat constructor.
Qed.

(** Whatever the tag, SetShaderTexture returns ... *)
Lemma safe_SetShaderTexture tag :
  steps wf from_setter (SetShaderTexture tag) (SetShaderTexture tag).
Proof.
  intros s log Hwf E. eexists.
  split; [by apply SetShaderTexture_eval|]. split; [by apply SetShaderTexture_eval|].
  repeat constructor; setter_name.
Qed.

(** ... and with the tag registered it pushes a slot. *)
Lemma ready_SetShaderTexture tag :
  tag ∈ map snd scene_textures ->
  steps scene_ready from_setter_resolved (SetShaderTexture tag) (SetShaderTexture tag).
Proof.
  intros Htag s log (Hwf & Htex & _) E. eexists.
  split; [by apply SetShaderTexture_eval|]. split; [by apply SetShaderTexture_eval|].
  repeat constructor; try setter_name. cbn.
  destruct (scan_cases (fun i _ => i) tag (registered s) 0 (-1))
    as [[Hno _] | (pre & e & post & _ & _ & _ & Hr)]; [|rewrite Hr; lia].
  pose proof (Htex tag Htag) as Hin.
  apply list_elem_of_fmap in Hin. destruct Hin as (e & Hte & He).
  by destruct (proj1 (Forall_forall _ _) Hno e He).
Qed.

Lemma safe_SetShaderMaterial indeterminate tag :
  steps wf from_setter (SetShaderMaterial indeterminate tag)
                       (SetShaderMaterial indeterminate tag).
Proof.
  intros s log _ E.
  destruct (decide (m_objectMaterials s = [])) as [Hnone | Hsome].
  - exists []. rewrite SetShaderMaterial_without_materials, set_shader_same by done.
    by repeat split.
  - eexists.
    split; [by apply SetShaderMaterial_eval|].
    split; [by apply SetShaderMaterial_eval|].
    repeat constructor; setter_name.
Qed.

(** With the tag defined, what is pushed does not depend on what the
    uninitialised local held. *)
Lemma material_uniforms_found tag l indeterminate indeterminate' :
  tag ∈ map mat_tag l ->
  material_uniforms (found_material tag l indeterminate)
  = material_uniforms (found_material tag l indeterminate').
Proof.
  unfold found_material. induction l as [|m l IH]; cbn [map List.find].
  - by intros ?%elem_of_nil.
  - intros Htag. unfold has_tag at 1 3.
    destruct (String.eqb (mat_tag m) tag) eqn:Em; [done|].
    apply IH. apply elem_of_cons in Htag as [->|]; [|done].
    by rewrite String.eqb_refl in Em.
Qed.

Lemma ready_SetShaderMaterial indeterminate indeterminate' tag :
  tag ∈ map mat_tag scene_materials ->
  steps scene_ready from_setter_resolved
        (SetShaderMaterial indeterminate tag) (SetShaderMaterial indeterminate' tag).
Proof.
  intros Htag s log (_ & _ & Hmat) E.
  assert (Hne : m_objectMaterials s <> []).
  { intros Hnil. apply Hmat in Htag. rewrite Hnil in Htag. by apply elem_of_nil in Htag. }
  eexists.
  split; [by apply SetShaderMaterial_eval|].
  split; [rewrite (material_uniforms_found tag _ indeterminate indeterminate')
            by (by apply Hmat); by apply SetShaderMaterial_eval|].
  repeat constructor; setter_name.
Qed.

Ltac unfold_routine :=
  unfold RenderFloor_body, RenderBackWall_body, RenderRightWall_body,
    RenderTable_body, RenderClock_body, RenderWineBottle_body,
    RenderCandle_body, RenderLeftChair_body, RenderRightChair_body,
    RenderLeftWineGlass_body, RenderRightWineGlass_body,
    RenderLeftPlate_body, RenderRightPlate_body, RenderLeftFork_body,
    RenderRightFork_body.

Ltac known_tag := apply (bool_decide_unpack _); by vm_compute.

Ltac safe_step :=
  first [ apply steps_SetTransformations; uniform_ok
        | apply steps_SetShaderColor; uniform_ok
        | apply steps_SetTextureUVScale; uniform_ok
        | apply safe_SetShaderTexture
        | apply safe_SetShaderMaterial
        | apply steps_inert; assumption ].

Ltac ready_step :=
  first [ apply steps_SetTransformations; uniform_ok
        | apply steps_SetShaderColor; uniform_ok
        | apply steps_SetTextureUVScale; uniform_ok
        | apply ready_SetShaderTexture; known_tag
        | apply ready_SetShaderMaterial; known_tag
        | apply steps_inert; assumption ].

(** On a well-formed registry every routine returns, whatever is or is
    not registered, and pushes nothing but setter uniforms. *)
Lemma safe_routine indeterminate r :
  meshes_inert ->
  steps wf from_setter (render_body indeterminate r) (render_body indeterminate r).
Proof.
  intros Hinert. destruct r; cbn [render_body]; unfold_routine; cbv zeta;
    repeat (apply steps_bind; [apply wf_stable | safe_step |]); safe_step.
Qed.

(** With the scene's textures and materials registered, every tag a
    routine uses is found: no sampler is left at -1 and nothing of the
    uninitialised local reaches the shader. *)
Lemma ready_routine indeterminate indeterminate' r :
  meshes_inert ->
  steps scene_ready from_setter_resolved
        (render_body indeterminate r) (render_body indeterminate' r).
Proof.
  intros Hinert. destruct r; cbn [render_body]; unfold_routine; cbv zeta;
    repeat (apply steps_bind; [apply scene_ready_stable | ready_step |]); ready_step.
Qed.

(** The opening of a frame. *)
Lemma RenderScene_opening (render : routine -> M unit) time s log :
  m_pShaderManager s = Some log ->
  RenderScene render time s
  = (render RenderFloor ;; render RenderBackWall ;; render RenderRightWall ;;
     render RenderTable ;; render RenderClock ;; render RenderWineBottle ;;
     render RenderCandle ;; render RenderLeftChair ;; render RenderRightChair ;;
     render RenderLeftWineGlass ;; render RenderRightWineGlass ;;
     render RenderLeftPlate ;; render RenderRightPlate ;;
     render RenderLeftFork ;; render RenderRightFork)
      (set_shader (Some (log ++ flicker_uniforms time)) s).
Proof.
  intros E. unfold RenderScene.
  rewrite (bind_Returns _ _ _ _ _ (shader_call_eval s log _ E)).
  erewrite bind_Returns by (by apply shader_call_eval).
  by rewrite set_shader_set_shader, <- app_assoc.
Qed.

(** A frame, given how its routines step. *)
Lemma RenderFrame_steps I P indeterminate indeterminate' time s log :
  stable I ->
  (forall r, steps I P (render_body indeterminate r) (render_body indeterminate' r)) ->
  I s -> m_pShaderManager s = Some log ->
  exists new,
    RenderFrame indeterminate time s
    = Returns tt (set_shader (Some (log ++ flicker_uniforms time ++ new)) s) /\
    RenderFrame indeterminate' time s
    = Returns tt (set_shader (Some (log ++ flicker_uniforms time ++ new)) s) /\
    Forall P new.
Proof.
  intros HI Hr Hs E. unfold RenderFrame.
  rewrite !(RenderScene_opening _ time s log E).
  match goal with
  | |- exists new, ?m ?s1 = _ /\ ?m' ?s1 = _ /\ _ =>
      assert (Hall : steps I P m m')
  end.
  { repeat (apply steps_bind; [done | apply Hr |]); apply Hr. }
  destruct (Hall (set_shader (Some (log ++ flicker_uniforms time)) s)
                 (log ++ flicker_uniforms time)) as (new & Hm & Hm' & HP);
    [by apply HI | done |].
  exists new. rewrite Hm, Hm', set_shader_set_shader, <- app_assoc. done.
Qed.

(** ** Frames *)

(** X14: With a shader manager attached and a well-formed registry, a
    frame returns whatever textures and materials are or are not
    registered: it changes nothing but the shader's uniforms, pushing the
    two flicker uniforms and then only uniforms of the five setters. *)
Theorem frame_returns_on_any_registry
    (indeterminate : OBJECT_MATERIAL) (time : float)
    (s : SceneManager) (log : list uniform) :
  meshes_inert ->
  wf s ->
  m_pShaderManager s = Some log ->
  exists new,
    RenderFrame indeterminate time s
    = Returns tt (set_shader (Some (log ++ flicker_uniforms time ++ new)) s) /\
    Forall (fun u => uniform_name u ∈ setter_names) new.
Proof.
  intros Hinert Hwf E.
  destruct (RenderFrame_steps wf from_setter indeterminate indeterminate time s log)
    as (new & Hrun & _ & Hnew); [apply wf_stable | | done | done |].
  - intros r. by apply safe_routine.
  - exists new. split; [exact Hrun | exact Hnew].
Qed.

(** X15: Once the scene's twelve textures and eleven materials are
    registered, every tag the fifteen routines use is found: no sampler
    pushed during a frame is negative, and the frame does not depend on
    what the uninitialised local of SetShaderMaterial held. *)
Theorem frame_resolves_every_tag
    (indeterminate indeterminate' : OBJECT_MATERIAL) (time : float)
    (s : SceneManager) (log : list uniform) :
  meshes_inert ->
  scene_ready s ->
  m_pShaderManager s = Some log ->
  exists new,
    RenderFrame indeterminate time s
    = Returns tt (set_shader (Some (log ++ flicker_uniforms time ++ new)) s) /\
    RenderFrame indeterminate' time s = RenderFrame indeterminate time s /\
    (forall name v, setSampler2DValue name v ∈ new -> 0 <= v).
Proof.
  intros Hinert Hready E.
  destruct (RenderFrame_steps scene_ready from_setter_resolved
              indeterminate indeterminate' time s log)
    as (new & Hrun & Hrun' & Hnew); [apply scene_ready_stable | | done | done |].
  - intros r. by apply ready_routine.
  - exists new. split; [exact Hrun|]. split; [by rewrite Hrun, Hrun'|].
    intros name v Hin.
    destruct (proj1 (Forall_forall _ _) Hnew _ Hin) as [_ Hres]. exact Hres.
Qed.

Lemma filter_from_setter name new :
  name ∉ setter_names ->
  Forall from_setter new ->
  List.filter (fun u => String.eqb (uniform_name u) name) new = [].
Proof.
  intros Hname Hnew. induction Hnew as [|u new Hu _ IH]; [done|]. cbn.
  destruct (String.eqb (uniform_name u) name) eqn:E; [|done].
  apply String.eqb_eq in E. unfold from_setter in Hu. by rewrite E in Hu.
Qed.

(** X16: After a frame the last values pushed for spotLight.diffuse and
    spotLight.ambient are the flicker colours of that frame, whatever was
    pushed before (the values of SetupSceneLights included): no routine
    writes to either uniform. *)
Theorem frame_supersedes_spotlight_colours
    (indeterminate : OBJECT_MATERIAL) (time : float)
    (s : SceneManager) (log : list uniform) :
  meshes_inert ->
  wf s ->
  m_pShaderManager s = Some log ->
  exists s' log',
    RenderFrame indeterminate time s = Returns tt s' /\
    m_pShaderManager s' = Some log' /\
    last_pushed "spotLight.diffuse" log'
    = Some (setVec3Value "spotLight.diffuse"
              (vec3_mul_scalar (mk_vec3 (lit 0.9) (lit 0.55) (lit 0.2)) (flicker time))) /\
    last_pushed "spotLight.ambient" log'
    = Some (setVec3Value "spotLight.ambient"
              (vec3_mul_scalar (mk_vec3 (lit 0.08) (lit 0.05) (lit 0.02)) (flicker time))).
Proof.
  intros Hinert Hwf E.
  destruct (RenderFrame_steps wf from_setter indeterminate indeterminate time s log)
    as (new & Hrun & _ & Hnew); [apply wf_stable | | done | done |].
  { intros r. by apply safe_routine. }
  eexists _, _. split; [exact Hrun|]. split; [reflexivity|].
  unfold last_pushed. cbn [m_pShaderManager set_shader].
  rewrite !List.filter_app.
  rewrite !(filter_from_setter _ new)
    by (exact Hnew || (apply (bool_decide_unpack _); by vm_compute)).
  rewrite !app_nil_r. unfold flicker_uniforms.
  cbn [List.filter uniform_name].
  replace (String.eqb "spotLight.diffuse" "spotLight.diffuse") with true by (by vm_compute).
  replace (String.eqb "spotLight.ambient" "spotLight.ambient") with true by (by vm_compute).
  replace (String.eqb "spotLight.ambient" "spotLight.diffuse") with false by (by vm_compute).
  replace (String.eqb "spotLight.diffuse" "spotLight.ambient") with false by (by vm_compute).
  split; apply last_snoc.
Qed.

(** X17: RenderScene and SetupSceneLights call through the shader-manager
    pointer without testing it: with a null pointer both are undefined at
    their first statement. *)
Theorem RenderScene_needs_shader_manager
    (render : routine -> M unit) (time : float) (s : SceneManager) :
  m_pShaderManager s = None ->
  RenderScene render time s = Undefined NullDereference /\
  SetupSceneLights s = Undefined NullDereference.
Proof.
  intros E. split.
  - unfold RenderScene. apply bind_Undefined. unfold shader_call. by rewrite E.
  - unfold SetupSceneLights. apply bind_Undefined. unfold shader_call. by rewrite E.
Qed.

(** ** Preparing the scene *)

Lemma shader_calls_spec l : forall s log,
  m_pShaderManager s = Some log ->
  shader_calls l s = Returns tt (set_shader (Some (log ++ l)) s).
Proof.
  induction l as [|u l IH]; intros s log E.
  - cbn. by rewrite set_shader_same.
  - cbn [shader_calls]. destruct l as [|u' l]; [by apply shader_call_eval|].
    rewrite (bind_Returns _ _ _ _ _ (shader_call_eval s log u E)).
    erewrite IH by done.
    by rewrite set_shader_set_shader, <- app_assoc.
Qed.

Lemma SetupSceneLights_eval s log :
  m_pShaderManager s = Some log ->
  SetupSceneLights s = Returns tt (set_shader (Some (log ++ light_uniforms)) s).
Proof. exact (shader_calls_spec light_uniforms s log). Qed.

(** The seven mesh loads that end PrepareScene. *)
Lemma mesh_loads_inert s :
  meshes_inert ->
  (m_basicMeshes LoadPlaneMesh ;; m_basicMeshes LoadBoxMesh ;;
   m_basicMeshes LoadCylinderMesh ;; m_basicMeshes LoadTaperedCylinderMesh ;;
   m_basicMeshes LoadConeMesh ;; m_basicMeshes LoadSphereMesh ;;
   m_basicMeshes LoadPrismMesh) s = Returns tt s.
Proof.
  intros Hinert.
  repeat (rewrite (bind_Returns _ _ _ _ _ (Hinert _ _))). apply Hinert.
Qed.

(** The texture registry's methods leave the pointer and the materials
    alone, also on a registry that is not well formed. *)
Lemma registry_only_ret {A} (a : A) : registry_only (ret a).
Proof. intros s a' s' Hrun. by inversion Hrun. Qed.

Lemma registry_only_bind {A B} (m : M A) (k : A -> M B) :
  registry_only m -> (forall a, registry_only (k a)) ->
  registry_only (x <- m ;; k x).
Proof.
  intros Hm Hk s b s''. rewrite bind_eq.
  destruct (m s) as [a s'|f] eqn:E; [|done]. intros Hrun.
  destruct (Hk a s' b s'' Hrun) as [-> ->]. exact (Hm s a s' E).
Qed.

Lemma registry_only_get : registry_only get.
Proof. intros s a s' Hrun. by inversion Hrun. Qed.

Lemma registry_only_modify (f : SceneManager -> SceneManager) :
  (forall s, m_pShaderManager (f s) = m_pShaderManager s /\
             m_objectMaterials (f s) = m_objectMaterials s) ->
  registry_only (modify f).
Proof. intros Hf s a s' Hrun. inversion Hrun. apply Hf. Qed.

Lemma registry_only_gl c : registry_only (gl c).
Proof. by apply registry_only_modify. Qed.

Lemma registry_only_print m : registry_only (print m).
Proof. by apply registry_only_modify. Qed.

Lemma registry_only_set_loaded n : registry_only (modify (set_loaded n)).
Proof. by apply registry_only_modify. Qed.

Lemma registry_only_texture_at i : registry_only (texture_at i).
Proof.
  intros s a s'. unfold texture_at.
  destruct (bool_decide _); [|done].
  destruct (m_textureIDs s !! Z.to_nat i); [|done].
  intros Hrun. by inversion Hrun.
Qed.

Lemma registry_only_store_texture i f : registry_only (store_texture i f).
Proof.
  apply registry_only_bind; [apply registry_only_texture_at|].
  intros e. by apply registry_only_modify.
Qed.

Lemma registry_only_gl_gen : registry_only gl_gen.
Proof.
  apply registry_only_bind; [apply registry_only_get|]. intros s0.
  apply registry_only_bind; [apply registry_only_gl|]. intros _.
  apply registry_only_ret.
Qed.

Lemma registry_only_for_loop body :
  (forall i, registry_only (body i)) ->
  forall n i, registry_only (for_loop n i body).
Proof.
  intros Hbody. induction n as [|n IH]; intros i; cbn [for_loop].
  - apply registry_only_ret.
  - apply registry_only_bind; [apply Hbody|]. intros _. apply IH.
Qed.

Ltac registry_only_step :=
  first [ apply registry_only_ret | apply registry_only_get
        | apply registry_only_gl | apply registry_only_print
        | apply registry_only_gl_gen | apply registry_only_store_texture
        | apply registry_only_set_loaded | apply registry_only_texture_at
        | apply registry_only_bind; [|intros ?] ].

Lemma registry_only_CreateGLTexture filename tag :
  registry_only (CreateGLTexture filename tag).
Proof.
  unfold CreateGLTexture. destruct (stbi_load filename) as [image|].
  - do 8 registry_only_step; try registry_only_step.
    + destruct (img_colorChannels image =? 3); [repeat registry_only_step|].
      destruct (img_colorChannels image =? 4); repeat registry_only_step.
    + match goal with b : bool |- _ => destruct b end; repeat registry_only_step.
  - repeat registry_only_step.
Qed.

Lemma registry_only_BindGLTextures : registry_only BindGLTextures.
Proof.
  unfold BindGLTextures. apply registry_only_bind; [apply registry_only_get|].
  intros s0. apply registry_only_for_loop. intros i. repeat registry_only_step.
Qed.

Lemma registry_only_LoadSceneTextures : registry_only LoadSceneTextures.
Proof.
  unfold LoadSceneTextures.
  repeat (apply registry_only_bind; [apply registry_only_CreateGLTexture|intros _]).
  apply registry_only_BindGLTextures.
Qed.

Lemma SetupSceneLights_null s :
  m_pShaderManager s = None -> SetupSceneLights s = Undefined NullDereference.
Proof.
  intros E. unfold SetupSceneLights. apply bind_Undefined.
  unfold shader_call. by rewrite E.
Qed.

(** X18: PrepareScene tests the shader-manager pointer nowhere.  From
    every state it is LoadSceneTextures, then the eleven materials appended
    to the ones there were, then either the twenty-five light uniforms
    appended to the shader's log and the seven mesh loads, or, with a null
    pointer, a null dereference: a fault of the texture load comes first,
    the materials are defined by then, and no mesh is loaded.  On a
    well-formed registry with at most four textures and a null pointer the
    load returns, so the outcome is the null dereference, raised by
    SetupSceneLights on the state with the textures loaded and the
    materials defined. *)
Theorem PrepareScene_needs_shader_manager (s : SceneManager) :
  PrepareScene s =
    match LoadSceneTextures s with
    | Undefined f => Undefined f
    | Returns _ s1 =>
        match m_pShaderManager s with
        | None => Undefined NullDereference
        | Some log =>
            (m_basicMeshes LoadPlaneMesh ;; m_basicMeshes LoadBoxMesh ;;
             m_basicMeshes LoadCylinderMesh ;;
             m_basicMeshes LoadTaperedCylinderMesh ;;
             m_basicMeshes LoadConeMesh ;; m_basicMeshes LoadSphereMesh ;;
             m_basicMeshes LoadPrismMesh)
              (set_shader (Some (log ++ light_uniforms))
                 (set_materials (m_objectMaterials s ++ scene_materials) s1))
        end
    end /\
  (m_pShaderManager s = None -> wf s -> m_loadedTextures s <= 4 ->
   exists s1,
     LoadSceneTextures s = Returns tt s1 /\
     wf s1 /\
     m_loadedTextures s <= m_loadedTextures s1 <= m_loadedTextures s + 12 /\
     DefineObjectMaterials s1
       = Returns tt (set_materials (m_objectMaterials s ++ scene_materials) s1) /\
     SetupSceneLights (set_materials (m_objectMaterials s ++ scene_materials) s1)
       = Undefined NullDereference /\
     PrepareScene s = Undefined NullDereference).
Proof.
  assert (forall s1, LoadSceneTextures s = Returns tt s1 ->
            m_pShaderManager
              (set_materials (m_objectMaterials s ++ scene_materials) s1)
              = m_pShaderManager s /\
            DefineObjectMaterials s1
              = Returns tt (set_materials (m_objectMaterials s ++ scene_materials) s1))
    as Hdefined.
  { intros s1 Hload.
    destruct (registry_only_LoadSceneTextures s tt s1 Hload) as [Hsh Hmat].
    split; [exact Hsh|]. by rewrite DefineObjectMaterials_spec, Hmat. }
  assert (PrepareScene s =
    match LoadSceneTextures s with
    | Undefined f => Undefined f
    | Returns _ s1 =>
        match m_pShaderManager s with
        | None => Undefined NullDereference
        | Some log =>
            (m_basicMeshes LoadPlaneMesh ;; m_basicMeshes LoadBoxMesh ;;
             m_basicMeshes LoadCylinderMesh ;;
             m_basicMeshes LoadTaperedCylinderMesh ;;
             m_basicMeshes LoadConeMesh ;; m_basicMeshes LoadSphereMesh ;;
             m_basicMeshes LoadPrismMesh)
              (set_shader (Some (log ++ light_uniforms))
                 (set_materials (m_objectMaterials s ++ scene_materials) s1))
        end
    end) as Hsequence.
  { unfold PrepareScene. rewrite bind_eq.
    destruct (LoadSceneTextures s) as [[] s1|f] eqn:Hload; [|done].
    destruct (Hdefined s1 eq_refl) as [Hsh Hdef].
    rewrite (bind_Returns _ _ _ _ _ Hdef).
    destruct (m_pShaderManager s) as [log|] eqn:E.
    - by rewrite (bind_Returns _ _ _ _ _ (SetupSceneLights_eval _ log Hsh)).
    - apply bind_Undefined. by apply SetupSceneLights_null. }
  split; [exact Hsequence|].
  intros E Hwf Hroom.
  destruct (load_then_room scene_textures BindGLTextures s Hwf)
    as (s1 & Hk & Hwf1 & Hcount & _); [cbn; lia|].
  rewrite <- LoadSceneTextures_unfold, (BindGLTextures_spec s1 Hwf1) in Hk.
  exists (set_gl (gl_context s1 ++ bind_calls 0 (registered s1)) s1).
  destruct (Hdefined _ Hk) as [Hsh Hdef].
  split; [exact Hk|]. split; [exact Hwf1|]. split; [exact Hcount|].
  split; [exact Hdef|].
  split; [apply SetupSceneLights_null; by rewrite Hsh|].
  by rewrite Hsequence, Hk, E.
Qed.

(** On a new manager with a shader manager attached and every texture
    file loadable, PrepareScene returns with the scene ready. *)
Lemma PrepareScene_ready
    (log : list uniform) (g : list GLcall) (c : list message) :
  meshes_inert ->
  Forall (fun r => loadable r.1) scene_textures ->
  exists s',
    PrepareScene (SceneManager_new (Some log) g c) = Returns tt s' /\
    scene_ready s' /\
    m_loadedTextures s' = 12 /\
    m_objectMaterials s' = scene_materials /\
    m_pShaderManager s' = Some (log ++ light_uniforms).
Proof.
  intros Hinert Hall. unfold PrepareScene.
  destruct (LoadSceneTextures_all_loaded (Some log) g c Hall)
    as (s1 & Hrun & Hwf & Htags & _ & Hsh & Hmat).
  rewrite (bind_Returns _ _ _ _ _ Hrun).
  rewrite (bind_Returns _ _ _ _ _ (DefineObjectMaterials_spec s1)).
  erewrite bind_Returns by (by apply SetupSceneLights_eval).
  rewrite mesh_loads_inert by done.
  eexists. split; [reflexivity|]. rewrite Hmat. cbn [app].
  split; [|split; [|split; [reflexivity | reflexivity]]].
  - split; [done|]. split.
    + intros tag Htag. change (registered (set_shader _ _)) with (registered s1).
      by rewrite Htags.
    + intros tag Htag. exact Htag.
  - pose proof (registered_length s1 Hwf) as Hlen.
    apply (f_equal length) in Htags. rewrite !length_map, Hlen in Htags.
    cbn in Htags. destruct Hwf as [? _].
    change (m_loadedTextures (set_shader _ _)) with (m_loadedTextures s1). lia.
Qed.

(** Frames on a ready scene. *)
Lemma frames_steps indeterminate indeterminate' times : forall s log,
  meshes_inert ->
  scene_ready s -> m_pShaderManager s = Some log ->
  exists new,
    frames indeterminate times s = Returns tt (set_shader (Some (log ++ new)) s) /\
    frames indeterminate' times s = Returns tt (set_shader (Some (log ++ new)) s) /\
    Forall resolved new.
Proof.
  induction times as [|time times IH]; intros s log Hinert Hready E.
  - exists []. cbn [frames]. unfold ret. rewrite set_shader_same by done.
    by repeat split.
  - destruct (RenderFrame_steps scene_ready from_setter_resolved
                indeterminate indeterminate' time s log)
      as (new & Hrun & Hrun' & Hnew); [apply scene_ready_stable | | done | done |].
    { intros r. by apply ready_routine. }
    destruct (IH (set_shader (Some (log ++ flicker_uniforms time ++ new)) s)
                 (log ++ flicker_uniforms time ++ new) Hinert)
      as (rest & Hrest & Hrest' & Hres); [by apply scene_ready_stable | done |].
    exists ((flicker_uniforms time ++ new) ++ rest). cbn [frames].
    rewrite (bind_Returns _ _ _ _ _ Hrun), (bind_Returns _ _ _ _ _ Hrun').
    rewrite Hrest, Hrest', set_shader_set_shader, <- !app_assoc.
    split; [reflexivity|]. split; [reflexivity|].
    rewrite !Forall_app. split; [by repeat constructor|]. split; [|exact Hres].
    eapply Forall_impl; [exact Hnew|]. by intros u [_ Hu].
Qed.

(** X19: On a new manager with a shader manager attached and the twelve
    texture files loadable, PrepareScene returns with twelve textures, the
    eleven materials and the light uniforms pushed; any number of frames
    after it return, change only the shader's uniforms, push no negative
    sampler and do not depend on uninitialised data. *)
Theorem prepared_scene_renders_any_number_of_frames
    (indeterminate indeterminate' : OBJECT_MATERIAL) (times : list float)
    (log : list uniform) (g : list GLcall) (c : list message) :
  meshes_inert ->
  Forall (fun r => loadable r.1) scene_textures ->
  exists s1 s2 pushed,
    PrepareScene (SceneManager_new (Some log) g c) = Returns tt s1 /\
    m_loadedTextures s1 = 12 /\
    m_objectMaterials s1 = scene_materials /\
    m_pShaderManager s1 = Some (log ++ light_uniforms) /\
    frames indeterminate times s1 = Returns tt s2 /\
    frames indeterminate' times s1 = Returns tt s2 /\
    s2 = set_shader (Some (log ++ light_uniforms ++ pushed)) s1 /\
    (forall name v, setSampler2DValue name v ∈ pushed -> 0 <= v).
Proof.
  intros Hinert Hall.
  destruct (PrepareScene_ready log g c Hinert Hall)
    as (s1 & Hprep & Hready & Hcount & Hmat & Hsh).
  destruct (frames_steps indeterminate indeterminate' times s1 _ Hinert Hready Hsh)
    as (new & Hrun & Hrun' & Hres).
  exists s1, (set_shader (Some ((log ++ light_uniforms) ++ new)) s1), new.
  split; [exact Hprep|]. split; [exact Hcount|]. split; [exact Hmat|].
  split; [exact Hsh|]. split; [exact Hrun|]. split; [exact Hrun'|].
  split; [by rewrite <- app_assoc|].
  intros name v Hin. exact (proj1 (Forall_forall _ _) Hres _ Hin).
Qed.

(** ** The destructor *)

(** X20: The destructor returns with the shader pointer null and has
    issued one glGenTextures per loaded texture and no glDeleteTextures:
    every texture name generated before is still allocated, and as many new
    ones have been added. *)
Theorem destructor_releases_no_texture (s : SceneManager) :
  wf s ->
  exists s' names,
    SceneManager_destructor s = Returns tt s' /\
    m_pShaderManager s' = None /\
    length names = Z.to_nat (m_loadedTextures s) /\
    gl_context s' = gl_context s ++ map glGenTextures names /\
    generated (gl_context s') = generated (gl_context s) ++ names /\
    (forall name, glDeleteTextures name ∈ gl_context s' ->
                  glDeleteTextures name ∈ gl_context s).
Proof.
  intros Hwf. unfold SceneManager_destructor.
  rewrite bind_eq. unfold modify.
  rewrite DestroyGLTextures_spec by done.
  cbn [m_loadedTextures gl_context set_shader].
  set (names := gen_names _ _).
  eexists _, names. split; [reflexivity|].
  cbn [m_pShaderManager gl_context set_textures set_gl set_shader].
  split; [done|]. split; [apply gen_names_length|]. split; [done|]. split.
  - unfold generated. rewrite omap_app. f_equal.
    clear. induction names as [|n names IH]; [done|]. cbn. by rewrite IH.
  - intros name [Hin | Hin]%elem_of_app; [done|].
    apply list_elem_of_fmap in Hin as (x & [=] & _).
Qed.

End SceneProperties.

(** * The further properties on the symbolic platform *)

Module SceneWitnesses.
Import Symbolic.

(** A platform whose cosine is a shifted sine and whose meshes keep to
    themselves. *)
#[export] Instance shifted_sine_cos : GlmCos :=
  {| glm_cos := fun a => SSin (SAdd a (SRadians (SLit 90.0))) |}.

#[export] Instance silent_meshes : ShapeMeshes :=
  {| m_basicMeshes := fun _ => ret tt |}.

Lemma silent_meshes_inert : meshes_inert.
Proof. intros c s. reflexivity. Qed.

Lemma scene_files_loadable : Forall (fun r => loadable r.1) scene_textures.
Proof.
  repeat (apply Forall_cons_2;
            [eexists; split; [by vm_compute | first [by left | by right]] |]).
  apply Forall_nil_2.
Qed.

Lemma prepared_is_wf : wf prepared.
Proof. split; [split; by vm_compute | by vm_compute]. Qed.

Lemma prepared_is_ready : scene_ready prepared.
Proof.
  split; [exact prepared_is_wf|]. split; intros tag Htag; vm_compute; exact Htag.
Qed.

Lemma loaded2_is_wf : wf loaded2.
Proof. split; [split; by vm_compute | by vm_compute]. Qed.

(** "pasta" is in slot 9 with handle 10; "steel" is nowhere. *)
Lemma FindTextureSlot_characterised_witness :
  exists k,
    FindTextureSlot "steel" prepared = Returns k prepared /\
    -1 <= k < m_loadedTextures prepared /\
    (k = -1 <-> Forall (fun e => tex_tag e <> "steel") (registered prepared)) /\
    (0 <= k ->
     exists e, m_textureIDs prepared !! Z.to_nat k = Some e /\ tex_tag e = "steel" /\
               FindTextureID "steel" prepared = Returns (to_int (tex_ID e)) prepared).
Proof. apply (FindTextureSlot_characterised prepared "steel" prepared_is_wf). Defined.

(** The seventeenth load faults; nothing else does. *)
Lemma CreateGLTexture_faults_only_when_full_witness :
  (exists f, CreateGLTexture "textures/tile.jpg" "again" loaded2 = Undefined f) <->
  (m_loadedTextures loaded2 = 16 /\
   exists image, stbi_load "textures/tile.jpg" = Some image /\
                 (img_colorChannels image = 3 \/ img_colorChannels image = 4)).
Proof.
  apply (CreateGLTexture_faults_only_when_full loaded2 "textures/tile.jpg" "again"
           loaded2_is_wf).
Defined.

Lemma registration_then_lookup_witness :
  FindTextureSlot "pasta" loaded3 = Returns (m_loadedTextures loaded2) loaded3 /\
  FindTextureID "pasta" loaded3
  = Returns (to_int (gen_name (gl_context loaded2))) loaded3.
Proof.
  apply (registration_then_lookup loaded2 loaded3 "textures/pasta.jpg" "pasta"
           loaded2_is_wf).
  - vm_compute. repeat constructor; discriminate.
  - by vm_compute.
Defined.

(** Registering "floor_tile" a second time leaves it in slot 0. *)
Definition shadowed : SceneManager :=
  Eval vm_compute in after (CreateGLTexture "textures/pasta.jpg" "floor_tile") loaded2.

Lemma registration_keeps_earlier_lookups_witness :
  FindTextureSlot "floor_tile" shadowed = Returns 0 shadowed /\
  FindTextureID "floor_tile" shadowed = Returns 1 shadowed.
Proof.
  apply (registration_keeps_earlier_lookups loaded2 shadowed "textures/pasta.jpg"
           "floor_tile" "floor_tile" 0 1 loaded2_is_wf).
  - by vm_compute.
  - by vm_compute.
  - by vm_compute.
  - discriminate.
Defined.

Lemma BindGLTextures_binds_loaded_units_only_witness :
  exists s',
    BindGLTextures loaded2 = Returns tt s' /\
    m_textureIDs s' = m_textureIDs loaded2 /\
    m_loadedTextures s' = m_loadedTextures loaded2 /\
    (forall k e, registered loaded2 !! k = Some e ->
       texture_units (gl_context s') !! (GL_TEXTURE0 + Z.of_nat k) = Some (tex_ID e)) /\
    (forall key, ~ (GL_TEXTURE0 <= key < GL_TEXTURE0 + m_loadedTextures loaded2) ->
       texture_units (gl_context s') !! key = texture_units (gl_context loaded2) !! key).
Proof. apply (BindGLTextures_binds_loaded_units_only loaded2 loaded2_is_wf). Defined.

Lemma BindGLTextures_idempotent_witness :
  exists s1 s2,
    BindGLTextures prepared = Returns tt s1 /\
    BindGLTextures s1 = Returns tt s2 /\
    texture_units (gl_context s2) = texture_units (gl_context s1).
Proof. apply (BindGLTextures_idempotent prepared prepared_is_wf). Defined.

Lemma DestroyGLTextures_keeps_slots_witness :
  exists s',
    DestroyGLTextures prepared = Returns tt s' /\
    wf s' /\
    forall tag, exists k,
      FindTextureSlot tag prepared = Returns k prepared /\
      FindTextureSlot tag s' = Returns k s'.
Proof. apply (DestroyGLTextures_keeps_slots prepared prepared_is_wf). Defined.

Lemma SetShaderTexture_pushes_slot_or_minus_one_witness :
  exists k,
    FindTextureSlot "steel" prepared = Returns k prepared /\
    SetShaderTexture "steel" prepared
    = Returns tt (set_shader (Some ([] ++ [setIntValue "bUseTexture" 1;
                                            setSampler2DValue "objectTexture" k]))
                             prepared) /\
    (Forall (fun e => tex_tag e <> "steel") (registered prepared) -> k = -1).
Proof.
  apply (SetShaderTexture_pushes_slot_or_minus_one prepared [] "steel" prepared_is_wf).
  by vm_compute.
Defined.

Definition wood : OBJECT_MATERIAL := material 0.7 0.7 0.7  0.8 0.8 0.8  60.0 "wood".

Lemma SetShaderMaterial_pushes_first_match_witness :
  SetShaderMaterial grey "wood" prepared
  = Returns tt (set_shader (Some ([] ++
      [setVec3Value "material.diffuseColor" (diffuseColor wood);
       setVec3Value "material.specularColor" (specularColor wood);
       setFloatValue "material.shininess" (shininess wood)])) prepared).
Proof.
  apply (SetShaderMaterial_pushes_first_match prepared [] grey "wood"
           (take 1 (m_objectMaterials prepared))
           (drop 2 (m_objectMaterials prepared)) wood).
  - by vm_compute.
  - by vm_compute.
  - vm_compute. repeat constructor; discriminate.
  - by vm_compute.
Defined.

Lemma SetShaderMaterial_unmatched_pushes_indeterminate_witness :
  SetShaderMaterial grey "steel" prepared
  = Returns tt (set_shader (Some ([] ++
      [setVec3Value "material.diffuseColor" (diffuseColor grey);
       setVec3Value "material.specularColor" (specularColor grey);
       setFloatValue "material.shininess" (shininess grey)])) prepared).
Proof.
  apply (SetShaderMaterial_unmatched_pushes_indeterminate prepared [] grey "steel").
  - by vm_compute.
  - by vm_compute.
  - vm_compute. repeat constructor; discriminate.
Defined.

Lemma DefineObjectMaterials_then_FindMaterial_witness :
  exists s',
    DefineObjectMaterials fresh = Returns tt s' /\
    m_objectMaterials s' = m_objectMaterials fresh ++ scene_materials /\
    FindMaterial (mat_tag wood) grey s'
    = Returns (true, mk_material (diffuseColor wood) (specularColor wood)
                                 (shininess wood) (mat_tag grey)) s'.
Proof.
  apply (DefineObjectMaterials_then_FindMaterial fresh wood grey).
  - apply elem_of_cons. right. apply elem_of_cons. left. reflexivity.
  - by vm_compute.
Defined.

Lemma LoadSceneTextures_returns_with_room_witness :
  exists s',
    LoadSceneTextures loaded3 = Returns tt s' /\
    wf s' /\
    m_loadedTextures loaded3 <= m_loadedTextures s' <= m_loadedTextures loaded3 + 12 /\
    m_pShaderManager s' = m_pShaderManager loaded3 /\
    m_objectMaterials s' = m_objectMaterials loaded3.
Proof.
  apply (LoadSceneTextures_returns_with_room loaded3).
  - split; [split; by vm_compute | by vm_compute].
  - by vm_compute.
Defined.

Lemma LoadSceneTextures_slots_follow_load_order_witness :
  exists s',
    LoadSceneTextures (SceneManager_new None [] []) = Returns tt s' /\
    m_loadedTextures s' = 12 /\
    forall k tag, map snd scene_textures !! k = Some tag ->
      FindTextureSlot tag s' = Returns (Z.of_nat k) s' /\
      exists e, registered s' !! k = Some e /\ tex_tag e = tag /\
        texture_units (gl_context s') !! (GL_TEXTURE0 + Z.of_nat k) = Some (tex_ID e).
Proof.
  apply (LoadSceneTextures_slots_follow_load_order None [] [] scene_files_loadable).
Defined.

Lemma frame_returns_on_any_registry_witness :
  exists new,
    RenderFrame grey (SLit 0.5) fresh
    = Returns tt (set_shader (Some ([] ++ flicker_uniforms (SLit 0.5) ++ new)) fresh) /\
    Forall (fun u => uniform_name u ∈ setter_names) new.
Proof.
  apply (frame_returns_on_any_registry grey (SLit 0.5) fresh [] silent_meshes_inert).
  - split; [split; by vm_compute | by vm_compute].
  - reflexivity.
Defined.

Lemma frame_resolves_every_tag_witness :
  exists new,
    RenderFrame grey (SLit 0.5) prepared
    = Returns tt (set_shader (Some ([] ++ flicker_uniforms (SLit 0.5) ++ new)) prepared) /\
    RenderFrame wood (SLit 0.5) prepared = RenderFrame grey (SLit 0.5) prepared /\
    (forall name v, setSampler2DValue name v ∈ new -> 0 <= v).
Proof.
  apply (frame_resolves_every_tag grey wood (SLit 0.5) prepared []
           silent_meshes_inert prepared_is_ready).
  reflexivity.
Defined.

Lemma frame_supersedes_spotlight_colours_witness :
  exists s' log',
    RenderFrame grey (SLit 0.5) prepared = Returns tt s' /\
    m_pShaderManager s' = Some log' /\
    last_pushed "spotLight.diffuse" log'
    = Some (setVec3Value "spotLight.diffuse"
              (vec3_mul_scalar (mk_vec3 (lit 0.9) (lit 0.55) (lit 0.2))
                               (flicker (SLit 0.5)))) /\
    last_pushed "spotLight.ambient" log'
    = Some (setVec3Value "spotLight.ambient"
              (vec3_mul_scalar (mk_vec3 (lit 0.08) (lit 0.05) (lit 0.02))
                               (flicker (SLit 0.5)))).
Proof.
  apply (frame_supersedes_spotlight_colours grey (SLit 0.5) prepared []
           silent_meshes_inert prepared_is_wf).
  reflexivity.
Defined.

Lemma RenderScene_needs_shader_manager_witness :
  RenderScene announce (SLit 0.5) no_shader = Undefined NullDereference /\
  SetupSceneLights no_shader = Undefined NullDereference.
Proof.
  apply (RenderScene_needs_shader_manager announce (SLit 0.5) no_shader).
  reflexivity.
Defined.

Lemma PrepareScene_needs_shader_manager_witness :
  PrepareScene no_shader = Undefined NullDereference /\
  (exists s1,
     LoadSceneTextures no_shader = Returns tt s1 /\
     m_loadedTextures s1 = 12 /\
     DefineObjectMaterials s1 = Returns tt (set_materials scene_materials s1) /\
     SetupSceneLights (set_materials scene_materials s1)
       = Undefined NullDereference) /\
  PrepareScene full_no_shader = Undefined OutOfBounds.
Proof.
  destruct (PrepareScene_needs_shader_manager no_shader) as [_ Hnull].
  destruct Hnull as (s1 & Hload & _ & _ & Hdef & Hlights & Hrun).
  - reflexivity.
  - split; [split; by vm_compute | by vm_compute].
  - by vm_compute.
  - split; [exact Hrun|]. split.
    + exists s1. split; [exact Hload|]. split; [|split; [exact Hdef|exact Hlights]].
      vm_compute in Hload. injection Hload as <-. reflexivity.
    + destruct (PrepareScene_needs_shader_manager full_no_shader) as [Hfull _].
      rewrite Hfull. by vm_compute.
Defined.

Lemma prepared_scene_renders_any_number_of_frames_witness :
  exists s1 s2 pushed,
    PrepareScene (SceneManager_new (Some []) [] []) = Returns tt s1 /\
    m_loadedTextures s1 = 12 /\
    m_objectMaterials s1 = scene_materials /\
    m_pShaderManager s1 = Some ([] ++ light_uniforms) /\
    frames grey [SLit 0.0; SLit 0.016; SLit 0.033] s1 = Returns tt s2 /\
    frames wood [SLit 0.0; SLit 0.016; SLit 0.033] s1 = Returns tt s2 /\
    s2 = set_shader (Some ([] ++ light_uniforms ++ pushed)) s1 /\
    (forall name v, setSampler2DValue name v ∈ pushed -> 0 <= v).
Proof.
  apply (prepared_scene_renders_any_number_of_frames grey wood
           [SLit 0.0; SLit 0.016; SLit 0.033] [] [] []
           silent_meshes_inert scene_files_loadable).
Defined.

Lemma destructor_releases_no_texture_witness :
  exists s' names,
    SceneManager_destructor prepared = Returns tt s' /\
    m_pShaderManager s' = None /\
    length names = Z.to_nat (m_loadedTextures prepared) /\
    gl_context s' = gl_context prepared ++ map glGenTextures names /\
    generated (gl_context s') = generated (gl_context prepared) ++ names /\
    (forall name, glDeleteTextures name ∈ gl_context s' ->
                  glDeleteTextures name ∈ gl_context prepared).
Proof. apply (destructor_releases_no_texture prepared prepared_is_wf). Defined.

End SceneWitnesses.
